(** * github-mcp-server: toolset policy, raw-content resolution, job-log aggregation

    A shallow embedding of
    - [pkg/raw]: [Client.URLFromOpts], [refURL], [commitURL], [GetRawContent];
    - [pkg/github]: [RepositoryResourceContentsHandler], [GetJobLogs],
      [handleFailedJobLogs], [handleSingleJobLogs], [getJobLogData],
      [downloadLogContent], [DefaultToolsetGroup], [InitDynamicToolset];
    - [pkg/toolsets], whose file is not part of the sources at hand and is
      modelled from the specification.

    Go strings are byte strings: [string].  Go [error] values are carried by
    their [Error()] text.  Calls that leave the process (GitHub REST calls,
    HTTP fetches) are recorded in a trace of events. *)

From stdpp Require Import gmap strings list sorting.
From Stdlib Require Import ZArith Ascii.

Local Open Scope Z_scope.

(** ** Pieces of the Go standard library used by the handlers *)

(** [strings.HasPrefix]. *)
Fixpoint strings_HasPrefix (s prefix : string) {struct prefix} : bool :=
  match prefix with
  | EmptyString => true
  | String p prefix' =>
      match s with
      | EmptyString => false
      | String c s' => bool_decide (c = p) && strings_HasPrefix s' prefix'
      end
  end.

(** [strings.HasSuffix]: the suffix read backwards starts the string read
    backwards. *)
Definition strings_HasSuffix (s suffix : string) : bool :=
  strings_HasPrefix (String.rev s) (String.rev suffix).

(** [strings.Join]. *)
Fixpoint strings_Join (elems : list string) (sep : string) : string :=
  match elems with
  | [] => EmptyString
  | [e] => e
  | e :: rest => e +:+ sep +:+ strings_Join rest sep
  end.

(** [filepath.Ext]: scan from the last byte towards the front, stop at a path
    separator, return the text from the first dot met.  [seen] holds the bytes
    already passed, in order. *)
Fixpoint ext_scan (backwards : list ascii) (seen : list ascii) : list ascii :=
  match backwards with
  | [] => []
  | c :: before =>
      if bool_decide (c = "/"%char) then []
      else if bool_decide (c = "."%char) then c :: seen
      else ext_scan before (c :: seen)
  end.

Definition filepath_Ext (path : string) : string :=
  String.string_of_list_ascii
    (ext_scan (reverse (String.list_ascii_of_string path)) []).

(** [base64.StdEncoding.EncodeToString]: RFC 4648 alphabet, padded. *)
Definition base64_alphabet : string :=
  "ABCDEFGHIJKLMNOPQRSTUVWXYZabcdefghijklmnopqrstuvwxyz0123456789+/".

Definition base64_digit (v : Z) : ascii :=
  default "="%char (String.get (Z.to_nat (Z.land v 63)) base64_alphabet).

Definition byte_val (c : ascii) : Z := Z.of_N (Ascii.N_of_ascii c).

Fixpoint base64_EncodeToString (src : string) : string :=
  match src with
  | EmptyString => EmptyString
  | String a EmptyString =>
      let v := Z.shiftl (byte_val a) 16 in
      String (base64_digit (Z.shiftr v 18))
        (String (base64_digit (Z.shiftr v 12)) "==")
  | String a (String b EmptyString) =>
      let v := Z.lor (Z.shiftl (byte_val a) 16) (Z.shiftl (byte_val b) 8) in
      String (base64_digit (Z.shiftr v 18))
        (String (base64_digit (Z.shiftr v 12))
           (String (base64_digit (Z.shiftr v 6)) "="))
  | String a (String b (String c rest)) =>
      let v := Z.lor (Z.lor (Z.shiftl (byte_val a) 16) (Z.shiftl (byte_val b) 8))
                 (byte_val c) in
      String (base64_digit (Z.shiftr v 18))
        (String (base64_digit (Z.shiftr v 12))
           (String (base64_digit (Z.shiftr v 6))
              (String (base64_digit v) (base64_EncodeToString rest))))
  end.

(** [net/url]: the handlers only join path elements onto a base URL and print
    the result.  The URL type is an interface of this development; the
    theorems hold for every implementation of it. *)
Class NetURL := {
  URL : Type;
  JoinPath : URL → list string → URL;
  URL_String : URL → string
}.

#[local] Unset Elimination Schemes.

(** JSON documents as [encoding/json] sees the handlers' [map[string]any]. *)
Inductive JSON :=
| JBool (b : bool)
| JInt (n : Z)
| JString (s : string)
| JArray (items : list JSON)
| JObject (fields : gmap string JSON).
#[local] Set Elimination Schemes.

(** Library functions the development leaves open: the process-wide MIME
    table behind [mime.TypeByExtension], [strconv.Atoi], [json.Marshal]
    (Go's pair of output and error) and [strings.TrimSpace]. *)
Class GoLib := {
  mime_lookup : string → option string;
  strconv_Atoi : string → string + Z;
  json_Marshal : JSON → string * option string;
  strings_TrimSpace : string → string
}.

(** [mime.TypeByExtension] returns the empty string when the table has no
    entry for the extension. *)
Definition mime_TypeByExtension `{GoLib} (ext : string) : string :=
  default EmptyString (mime_lookup ext).

(** [fmt]'s [%d] verb. *)
Definition digit_char (d : Z) : ascii :=
  default "0"%char (String.get (Z.to_nat d) "0123456789").

Fixpoint decimal_digits (fuel : nat) (n : Z) (acc : string) : string :=
  match fuel with
  | O => acc
  | S fuel' =>
      let acc' := String (digit_char (n mod 10)) acc in
      if bool_decide (n / 10 = 0) then acc' else decimal_digits fuel' (n / 10) acc'
  end.

Definition fmt_d (n : Z) : string :=
  if bool_decide (n < 0)
  then String "-"%char (decimal_digits (Z.to_nat (Z.log2 (- n)) + 1) (- n) EmptyString)
  else decimal_digits (Z.to_nat (Z.log2 n) + 1) n EmptyString.

(** [net/http]. *)
Record Request := { Method : string; ReqURL : string }.

Inductive Body := BodyOk (content : string) | BodyErr (err : string).

Record Response := {
  StatusCode : Z;
  Header : gmap string (list string);
  RespBody : Body
}.

(** [http.Header.Get]: first value stored under the canonical key, or empty. *)
Definition Header_Get (h : gmap string (list string)) (key : string) : string :=
  match h !! key with
  | Some (v :: _) => v
  | _ => EmptyString
  end.

(** [io.ReadAll] on a response body. *)
Definition io_ReadAll (b : Body) : string + string :=
  match b with
  | BodyOk content => inr content
  | BodyErr err => inl err
  end.

Definition http_StatusOK : Z := 200.
Definition http_StatusNotFound : Z := 404.

(** ** Effects

    A handler run yields the trace of its network calls and how it ended: with
    a value, with a Go [error], or with a run-time panic. *)
Inductive Event :=
| PullRequestsGet (owner repo : string) (number : Z)
| ListWorkflowJobs (owner repo : string) (runID : Z) (filter : string)
| GetWorkflowJobLogs (owner repo : string) (jobID : Z)
| ClientDo (req : Request)
| HttpGet (url : string).

(** The pull-request lookups among the events. *)
Definition isLookup (ev : Event) : Prop :=
  ∃ owner repo number, ev = PullRequestsGet owner repo number.

Inductive Outcome (A : Type) :=
| Return (a : A)
| Error (msg : string)
| Panic.
Arguments Return {A} a.
Arguments Error {A} msg.
Arguments Panic {A}.

Definition Run (A : Type) : Type := list Event * Outcome A.

Definition run_bind {A B : Type} (f : A → Run B) (m : Run A) : Run B :=
  match m with
  | (tr, Return a) => let '(tr', o) := f a in (tr ++ tr', o)
  | (tr, Error msg) => (tr, Error msg)
  | (tr, Panic) => (tr, Panic)
  end.

#[global] Instance run_ret : MRet Run := λ A a, ([], Return a).
#[global] Instance run_mbind : MBind Run := @run_bind.

Definition emit (ev : Event) : Run unit := ([ev], Return tt).
Definition fail {A : Type} (msg : string) : Run A := ([], Error msg).
Definition panic {A : Type} : Run A := ([], Panic).

(** [fmt.Errorf("<context>: %w", err)] on the error branch of a Go result. *)
Definition wrap {A : Type} (context : string) (r : string + A) : Run A :=
  match r with
  | inl err => fail (context +:+ ": " +:+ err)
  | inr a => mret a
  end.

(** A callee's [(value, error)] handed back to a caller that inspects [err]
    itself instead of returning it. *)
Definition result_of {A : Type} (m : Run A) : Run (string + A) :=
  match m with
  | (tr, Return a) => (tr, Return (inr a))
  | (tr, Error msg) => (tr, Return (inl msg))
  | (tr, Panic) => (tr, Panic)
  end.

Definition trace {A : Type} (m : Run A) : list Event := fst m.
Definition outcome {A : Type} (m : Run A) : Outcome A := snd m.

(** ** Package raw *)

Module raw.

Record RawContentOpts := { Ref : string; SHA : string }.

(** The go-github client the raw client wraps: building a request may fail;
    sending it yields Go's pair of a response pointer and an error. *)
Record Transport := {
  NewRequest : string → string → string + Request;
  Do : Request → option Response * option string
}.

Record Client `{NetURL} := { url : URL; client : Transport }.

Section client.
Context `{NetURL}.

Definition newRequest (c : Client) (method urlStr : string) : string + Request :=
  NewRequest (client c) method urlStr.

Definition refURL (c : Client) (owner repo ref path : string) : string :=
  if bool_decide (ref = EmptyString)
  then URL_String (JoinPath (url c) [owner; repo; "HEAD"; path])
  else URL_String (JoinPath (url c) [owner; repo; ref; path]).

Definition commitURL (c : Client) (owner repo sha path : string) : string :=
  URL_String (JoinPath (url c) [owner; repo; sha; path]).

(** A nil [opts] is [None]. *)
Definition URLFromOpts (c : Client) (opts : option RawContentOpts)
    (owner repo path : string) : string :=
  let opts := default {| Ref := EmptyString; SHA := EmptyString |} opts in
  if bool_decide (SHA opts ≠ EmptyString)
  then commitURL c owner repo (SHA opts) path
  else refURL c owner repo (Ref opts) path.

Definition GetRawContent (c : Client) (owner repo path : string)
    (opts : option RawContentOpts) : Run (option Response * option string) :=
  let url := URLFromOpts c opts owner repo path in
  match newRequest c "GET" url with
  | inl err => mret (None, Some err)
  | inr req => _ ← emit (ClientDo req); mret (Do (client c) req)
  end.

End client.

End raw.

(** ** Package toolsets *)

Module toolsets.

(** Modelled from the spec: package toolsets is not among the sources.  A
    server tool is an operation; the model keeps its identity, which
    [DefaultToolsetGroup] below takes from the constructor that builds it. *)
Record ServerTool := { ToolName : string }.
Record ServerResourceTemplate := { TemplateName : string }.

#[export] Instance ServerTool_eq_dec : EqDecision ServerTool.
Proof. solve_decision. Defined.

Definition NewServerTool (constructor : string) : ServerTool :=
  {| ToolName := constructor |}.
Definition NewServerResourceTemplate (constructor : string) : ServerResourceTemplate :=
  {| TemplateName := constructor |}.

(** Modelled from the spec: a toolset has a unique name, a description,
    ordered read operations, write operations and resource templates, and a
    mutable enabled flag, false by default. *)
Record Toolset := {
  Name : string;
  Description : string;
  Enabled : bool;
  readTools : list ServerTool;
  writeTools : list ServerTool;
  resourceTemplates : list ServerResourceTemplate
}.

Definition NewToolset (name description : string) : Toolset :=
  {| Name := name; Description := description; Enabled := false;
     readTools := []; writeTools := []; resourceTemplates := [] |}.

Definition AddReadTools (tools : list ServerTool) (t : Toolset) : Toolset :=
  {| Name := Name t; Description := Description t; Enabled := Enabled t;
     readTools := readTools t ++ tools; writeTools := writeTools t;
     resourceTemplates := resourceTemplates t |}.

(** Modelled from the spec: write tools are retained whatever the policy of
    the owning group; it is the listing that filters them. *)
Definition AddWriteTools (tools : list ServerTool) (t : Toolset) : Toolset :=
  {| Name := Name t; Description := Description t; Enabled := Enabled t;
     readTools := readTools t; writeTools := writeTools t ++ tools;
     resourceTemplates := resourceTemplates t |}.

Definition AddResourceTemplates (templates : list ServerResourceTemplate)
    (t : Toolset) : Toolset :=
  {| Name := Name t; Description := Description t; Enabled := Enabled t;
     readTools := readTools t; writeTools := writeTools t;
     resourceTemplates := resourceTemplates t ++ templates |}.

Definition setEnabled (t : Toolset) : Toolset :=
  {| Name := Name t; Description := Description t; Enabled := true;
     readTools := readTools t; writeTools := writeTools t;
     resourceTemplates := resourceTemplates t |}.

(** Modelled from the spec: a group owns its toolsets in registration order,
    keyed by name, and a read-only flag fixed at construction. *)
Record ToolsetGroup := {
  Toolsets : list Toolset;
  readOnly : bool
}.

Definition NewToolsetGroup (readOnly : bool) : ToolsetGroup :=
  {| Toolsets := []; readOnly := readOnly |}.

Definition hasToolset (name : string) (tg : ToolsetGroup) : bool :=
  bool_decide (name ∈ Name <$> Toolsets tg).

(** Modelled from the spec: registering a toolset under a name already taken
    is rejected. *)
Definition AddToolset (ts : Toolset) (tg : ToolsetGroup) : string + ToolsetGroup :=
  if hasToolset (Name ts) tg
  then inl ("toolset " +:+ Name ts +:+ " already exists")
  else inr {| Toolsets := Toolsets tg ++ [ts]; readOnly := readOnly tg |}.

(** Modelled from the spec: enabling sets the flag of the named toolset and
    fails for an unknown name, leaving the group as it was. *)
Definition EnableToolset (name : string) (tg : ToolsetGroup) : string + ToolsetGroup :=
  if hasToolset name tg
  then inr {| Toolsets :=
                (λ ts, if bool_decide (Name ts = name) then setEnabled ts else ts)
                  <$> Toolsets tg;
              readOnly := readOnly tg |}
  else inl ("toolset " +:+ name +:+ " does not exist").

(** A run of [EnableToolset] calls; a failed call changes nothing. *)
Definition EnableToolsets (names : list string) (tg : ToolsetGroup) : ToolsetGroup :=
  foldl (λ tg name, match EnableToolset name tg with
                    | inr tg' => tg'
                    | inl _ => tg
                    end) tg names.

(** Modelled from the spec, the exposure algorithm: over the toolsets that are
    enabled, in registration order, the read operations, then the write
    operations unless the group is read-only; then the always-on
    dynamic-discovery operations. *)
Definition activeTools (readOnly : bool) (ts : Toolset) : list ServerTool :=
  if Enabled ts
  then readTools ts ++ (if readOnly then [] else writeTools ts)
  else [].

Definition ExposedTools (dynamic : list ServerTool) (tg : ToolsetGroup)
    : list ServerTool :=
  (Toolsets tg ≫= activeTools (readOnly tg)) ++ dynamic.

(** Modelled from the spec, the invariant of the data model: operation names
    are unique across the entire group. *)
Definition registeredTools (dynamic : list ServerTool) (tg : ToolsetGroup)
    : list ServerTool :=
  (Toolsets tg ≫= readTools) ++ (Toolsets tg ≫= writeTools) ++ dynamic.

Definition OperationNamesUnique (dynamic : list ServerTool) (tg : ToolsetGroup) : Prop :=
  NoDup (ToolName <$> registeredTools dynamic tg).

End toolsets.

(** ** Package github: clients and requests *)

Module github.

(** go-github's [PullRequest] and its nil-safe getters. *)
Record PullRequestBranch := { BranchSHA : option string }.
Record PullRequest := { Head : option PullRequestBranch }.

Definition GetHead (pr : PullRequest) : PullRequestBranch :=
  default {| BranchSHA := None |} (Head pr).
Definition GetSHA (b : PullRequestBranch) : string :=
  default EmptyString (BranchSHA b).

(** go-github's [WorkflowJob] and [Jobs]. *)
Record WorkflowJob := {
  ID : option Z;
  Name : option string;
  Conclusion : option string
}.
Record Jobs := { TotalCount : option Z; JobList : list WorkflowJob }.

Definition GetID (job : WorkflowJob) : Z := default 0 (ID job).
Definition GetName (job : WorkflowJob) : string := default EmptyString (Name job).
Definition GetConclusion (job : WorkflowJob) : string :=
  default EmptyString (Conclusion job).

(** The REST client, by the three services the handlers call.  Each answer is
    the callee's [(value, error)]. *)
Record Client := {
  PullRequests_Get : string → string → Z → string + PullRequest;
  Actions_ListWorkflowJobs : string → string → Z → string → string + Jobs;
  Actions_GetWorkflowJobLogs : string → string → Z → Z → string + string
}.

(** [GetClientFn] and [raw.GetRawClientFn], by what a call returns. *)
Definition GetClientFn : Type := string + Client.
Definition GetRawClientFn `{NetURL} : Type := string + raw.Client.

(** The value of a [map[string]any] argument. *)
Inductive any :=
| AStrings (l : list string)
| AString (s : string)
| ANumber (n : Z)
| ABool (b : bool).

(** The type assertion [v.([]string)] on a map lookup. *)
Definition as_strings (v : option any) : option (list string) :=
  match v with
  | Some (AStrings l) => Some l
  | _ => None
  end.

(** [mcp.ReadResourceRequest]: [Params.URI] and [Params.Arguments]. *)
Record ReadResourceRequest := {
  URI : string;
  Arguments : gmap string any
}.

Inductive ResourceContents :=
| TextResourceContents (uri mimeType text : string)
| BlobResourceContents (uri mimeType blob : string).

Definition MIMEType (r : ResourceContents) : string :=
  match r with
  | TextResourceContents _ m _ => m
  | BlobResourceContents _ m _ => m
  end.

(** ** RepositoryResourceContentsHandler

    The closure is one function in the source; its stretches are named here
    so that statements can refer to them.  [requestPath], [selectorOpts] and
    [pullRequestOpts] are the argument handling in source order,
    [isDirectory] the guard that follows it, [fetchRawContent] everything up
    to the call of the raw client, [resourceMimeType] and
    [contentsFromResponse] the [switch] on the fetched response. *)
Section resource.
Context `{NetURL} `{GoLib}.

(** [path := strings.Join(p, "/")] when the argument is a [[]string]. *)
Definition requestPath (request : ReadResourceRequest) : string :=
  match as_strings (Arguments request !! "path") with
  | Some p => strings_Join p "/"
  | None => EmptyString
  end.

(** The [sha], [branch] and [tag] arguments, applied in this order to an
    empty [raw.RawContentOpts]. *)
Definition selectorOpts (request : ReadResourceRequest) : raw.RawContentOpts :=
  let rawOpts := {| raw.Ref := EmptyString; raw.SHA := EmptyString |} in
  let rawOpts :=
    match as_strings (Arguments request !! "sha") with
    | Some (sha0 :: _) => {| raw.Ref := raw.Ref rawOpts; raw.SHA := sha0 |}
    | _ => rawOpts
    end in
  let rawOpts :=
    match as_strings (Arguments request !! "branch") with
    | Some (branch0 :: _) =>
        {| raw.Ref := "refs/heads/" +:+ branch0; raw.SHA := raw.SHA rawOpts |}
    | _ => rawOpts
    end in
  match as_strings (Arguments request !! "tag") with
  | Some (tag0 :: _) =>
      {| raw.Ref := "refs/tags/" +:+ tag0; raw.SHA := raw.SHA rawOpts |}
  | _ => rawOpts
  end.

(** The [prNumber] argument: fetch the pull request and take its head SHA. *)
Definition pullRequestOpts (getClient : GetClientFn) (owner repo : string)
    (request : ReadResourceRequest) (rawOpts : raw.RawContentOpts)
    : Run raw.RawContentOpts :=
  match as_strings (Arguments request !! "prNumber") with
  | Some (prNumber0 :: _) =>
      githubClient ← wrap "failed to get GitHub client" getClient;
      prNum ← wrap "invalid pull request number" (strconv_Atoi prNumber0);
      _ ← emit (PullRequestsGet owner repo prNum);
      pr ← wrap "failed to get pull request"
             (PullRequests_Get githubClient owner repo prNum);
      let sha := GetSHA (GetHead pr) in
      mret {| raw.Ref := raw.Ref rawOpts; raw.SHA := sha |}
  | _ => mret rawOpts
  end.

Definition isDirectory (path : string) : bool :=
  bool_decide (path = EmptyString) || strings_HasSuffix path "/".

Definition resourceMimeType (path : string) (resp : Response) : string :=
  let ext := filepath_Ext path in
  let mimeType := Header_Get (Header resp) "Content-Type" in
  if bool_decide (ext = ".md") then "text/markdown"
  else if bool_decide (mimeType = EmptyString) then mime_TypeByExtension ext
  else mimeType.

(** The [switch] after [GetRawContent].  The deferred [resp.Body.Close()]
    dereferences [resp], so a nil response ends the call in a panic on every
    branch. *)
Definition contentsFromResponse (request : ReadResourceRequest) (path : string)
    (resp : option Response) (err : option string) : Run (list ResourceContents) :=
  match resp with
  | None => panic
  | Some resp =>
      match err with
      | Some err => fail ("failed to get raw content: " +:+ err)
      | None =>
          if bool_decide (StatusCode resp = http_StatusOK) then
            let mimeType := resourceMimeType path resp in
            content ← wrap "failed to read file content" (io_ReadAll (RespBody resp));
            if strings_HasPrefix mimeType "text" || strings_HasPrefix mimeType "application"
            then mret [TextResourceContents (URI request) mimeType content]
            else mret [BlobResourceContents (URI request) mimeType
                         (base64_EncodeToString content)]
          else if bool_decide (StatusCode resp ≠ http_StatusNotFound) then
            body ← wrap "failed to read response body" (io_ReadAll (RespBody resp));
            fail ("failed to fetch raw content: " +:+ body)
          else fail "404 Not Found"
      end
  end.

(** The handler up to and including [rawClient.GetRawContent]. *)
Definition fetchRawContent (getClient : GetClientFn)
    (getRawClient : GetRawClientFn) (request : ReadResourceRequest)
    : Run (option Response * option string) :=
  match as_strings (Arguments request !! "owner") with
  | Some (owner :: _) =>
      match as_strings (Arguments request !! "repo") with
      | Some (repo :: _) =>
          let path := requestPath request in
          rawOpts ← pullRequestOpts getClient owner repo request (selectorOpts request);
          if isDirectory path
          then fail ("directories are not supported: " +:+ path)
          else
            rawClient ← wrap "failed to get GitHub raw content client" getRawClient;
            raw.GetRawContent rawClient owner repo path (Some rawOpts)
      | _ => fail "repo is required"
      end
  | _ => fail "owner is required"
  end.

Definition RepositoryResourceContentsHandler (getClient : GetClientFn)
    (getRawClient : GetRawClientFn) (request : ReadResourceRequest)
    : Run (list ResourceContents) :=
  '(resp, err) ← fetchRawContent getClient getRawClient request;
  contentsFromResponse request (requestPath request) resp err.

End resource.

(** ** get_job_logs *)

(** [mcp.CallToolRequest], by its arguments, and [mcp.CallToolResult], by its
    error flag and its text content. *)
Record CallToolRequest := { ToolArguments : gmap string any }.
Record CallToolResult := { IsError : bool; Text : string }.

Definition NewToolResultError (msg : string) : CallToolResult :=
  {| IsError := true; Text := msg |}.
Definition NewToolResultText (text : string) : CallToolResult :=
  {| IsError := false; Text := text |}.

(** Modelled from the spec: the parameter accessors [RequiredParam],
    [OptionalParam] and [OptionalIntParam] are declared in a file that is not
    among the sources; the spec calls them type-checked accessors for required
    and optional call arguments, and the tests of get_job_logs fix the text of
    the missing-parameter error.  JSON numbers are kept when integral. *)
Definition RequiredParam_string (r : CallToolRequest) (p : string) : string + string :=
  match ToolArguments r !! p with
  | None => inl ("missing required parameter: " +:+ p)
  | Some (AString s) => inr s
  | Some _ => inl ("parameter " +:+ p +:+ " is not of type string")
  end.

(** Modelled from the spec: the optional accessor yields the zero value for an
    absent argument and an error for one of the wrong type. *)
Definition OptionalParam_bool (r : CallToolRequest) (p : string) : string + bool :=
  match ToolArguments r !! p with
  | None => inr false
  | Some (ABool b) => inr b
  | Some _ => inl ("parameter " +:+ p +:+ " is not of type bool")
  end.

(** Modelled from the spec: the optional integer accessor, zero when absent. *)
Definition OptionalIntParam (r : CallToolRequest) (p : string) : string + Z :=
  match ToolArguments r !! p with
  | None => inr 0
  | Some (ANumber n) => inr n
  | Some _ => inl ("parameter " +:+ p +:+ " is not of type float64")
  end.

Section actions.
Context `{GoLib}.

(** [http.Get] of the default client, as used by [downloadLogContent]. *)
Variable http_Get : string → string + Response.

Definition downloadLogContent (logURL : string) : Run string :=
  _ ← emit (HttpGet logURL);
  httpResp ← wrap "failed to download logs" (http_Get logURL);
  if bool_decide (StatusCode httpResp ≠ http_StatusOK)
  then fail ("failed to download logs: HTTP " +:+ fmt_d (StatusCode httpResp))
  else
    content ← wrap "failed to read log content" (io_ReadAll (RespBody httpResp));
    mret (strings_TrimSpace content).

Definition getJobLogData (client : Client) (owner repo : string) (jobID : Z)
    (jobName : string) (returnContent : bool) : Run (gmap string JSON) :=
  _ ← emit (GetWorkflowJobLogs owner repo jobID);
  url ← wrap ("failed to get job logs for job " +:+ fmt_d jobID)
          (Actions_GetWorkflowJobLogs client owner repo jobID 1);
  let result : gmap string JSON := {[ "job_id" := JInt jobID ]} in
  let result :=
    if bool_decide (jobName ≠ EmptyString)
    then <["job_name" := JString jobName]> result
    else result in
  if returnContent then
    downloaded ← result_of (downloadLogContent url);
    content ← wrap ("failed to download log content for job " +:+ fmt_d jobID)
                downloaded;
    mret (<["message" := JString "Job logs content retrieved successfully"]>
            (<["logs_content" := JString content]> result))
  else
    mret (<["note" := JString "The logs_url provides a download link for the individual job logs in plain text format. Use return_content=true to get the actual log content."]>
            (<["message" := JString "Job logs are available for download"]>
               (<["logs_url" := JString url]> result))).

(** The slot recorded for a job whose logs could not be fetched. *)
Definition jobErrorResult (job : WorkflowJob) (err : string) : gmap string JSON :=
  <["error" := JString err]>
    (<["job_name" := JString (GetName job)]>
       {[ "job_id" := JInt (GetID job) ]}).

(** The [for _, job := range failedJobs] loop of [handleFailedJobLogs]. *)
Fixpoint collectFailedJobLogs (client : Client) (owner repo : string)
    (returnContent : bool) (failedJobs : list WorkflowJob)
    : Run (list (gmap string JSON)) :=
  match failedJobs with
  | [] => mret []
  | job :: rest =>
      fetched ← result_of (getJobLogData client owner repo (GetID job) (GetName job)
                             returnContent);
      let jobResult :=
        match fetched with
        | inl err => jobErrorResult job err
        | inr jobResult => jobResult
        end in
      logResults ← collectFailedJobLogs client owner repo returnContent rest;
      mret (jobResult :: logResults)
  end.

Definition isFailedJob (job : WorkflowJob) : bool :=
  bool_decide (GetConclusion job = "failure").

Definition noFailedJobsResult (runID : Z) (jobs : Jobs) : JSON :=
  JObject
    (<["failed_jobs" := JInt 0]>
       (<["total_jobs" := JInt (Z.of_nat (length (JobList jobs)))]>
          (<["run_id" := JInt runID]>
             {[ "message" := JString "No failed jobs found in this workflow run" ]}))).

Definition failedJobLogsResult (runID : Z) (jobs : Jobs)
    (failedJobs : list WorkflowJob) (logResults : list (gmap string JSON))
    (returnContent : bool) : JSON :=
  JObject
    (<["return_format" :=
         JObject (<["urls" := JBool (negb returnContent)]>
                    {[ "content" := JBool returnContent ]})]>
       (<["logs" := JArray (JObject <$> logResults)]>
          (<["failed_jobs" := JInt (Z.of_nat (length failedJobs))]>
             (<["total_jobs" := JInt (Z.of_nat (length (JobList jobs)))]>
                (<["run_id" := JInt runID]>
                   {[ "message" :=
                        JString ("Retrieved logs for "
                                 +:+ fmt_d (Z.of_nat (length failedJobs))
                                 +:+ " failed jobs") ]}))))).

(** [json.Marshal] followed by the handlers' error check. *)
Definition marshalResponse (result : JSON) : Run CallToolResult :=
  match json_Marshal result with
  | (_, Some err) => fail ("failed to marshal response: " +:+ err)
  | (r, None) => mret (NewToolResultText r)
  end.

Definition handleFailedJobLogs (client : Client) (owner repo : string) (runID : Z)
    (returnContent : bool) : Run CallToolResult :=
  _ ← emit (ListWorkflowJobs owner repo runID "latest");
  match Actions_ListWorkflowJobs client owner repo runID "latest" with
  | inl err => mret (NewToolResultError ("failed to list workflow jobs: " +:+ err))
  | inr jobs =>
      let failedJobs := List.filter isFailedJob (JobList jobs) in
      if bool_decide (length failedJobs = 0%nat) then
        mret (NewToolResultText (fst (json_Marshal (noFailedJobsResult runID jobs))))
      else
        logResults ← collectFailedJobLogs client owner repo returnContent failedJobs;
        marshalResponse
          (failedJobLogsResult runID jobs failedJobs logResults returnContent)
  end.

Definition handleSingleJobLogs (client : Client) (owner repo : string) (jobID : Z)
    (returnContent : bool) : Run CallToolResult :=
  fetched ← result_of (getJobLogData client owner repo jobID EmptyString returnContent);
  match fetched with
  | inl err => mret (NewToolResultError err)
  | inr jobResult => marshalResponse (JObject jobResult)
  end.

(** [if err != nil { return mcp.NewToolResultError(err.Error()), nil }] after a
    parameter accessor. *)
Definition orToolError {A : Type} (r : string + A) (k : A → Run CallToolResult)
    : Run CallToolResult :=
  match r with
  | inl err => mret (NewToolResultError err)
  | inr a => k a
  end.

(** The handler returned by [GetJobLogs]. *)
Definition GetJobLogs (getClient : GetClientFn) (request : CallToolRequest)
    : Run CallToolResult :=
  orToolError (RequiredParam_string request "owner") (λ owner,
  orToolError (RequiredParam_string request "repo") (λ repo,
  orToolError (OptionalIntParam request "job_id") (λ jobID,
  orToolError (OptionalIntParam request "run_id") (λ runID,
  orToolError (OptionalParam_bool request "failed_only") (λ failedOnly,
  orToolError (OptionalParam_bool request "return_content") (λ returnContent,
    client ← wrap "failed to get GitHub client" getClient;
    if failedOnly && bool_decide (runID = 0) then
      mret (NewToolResultError "run_id is required when failed_only is true")
    else if negb failedOnly && bool_decide (jobID = 0) then
      mret (NewToolResultError "job_id is required when failed_only is false")
    else if failedOnly && bool_decide (runID > 0) then
      handleFailedJobLogs client owner repo runID returnContent
    else if bool_decide (jobID > 0) then
      handleSingleJobLogs client owner repo jobID returnContent
    else
      mret (NewToolResultError "Either job_id must be provided for single job logs, or run_id with failed_only=true for failed job logs")
  )))))).

End actions.

(** ** tools.go *)

Import toolsets.

Local Notation "x |> f" := (f x) (at level 45, left associativity, only parsing).

(** Registering the toolsets in order; the first rejection ends it. *)
Definition addToolsets (sets : list Toolset) (tg : ToolsetGroup) : string + ToolsetGroup :=
  foldl (λ acc ts, match acc with
                   | inr tg => AddToolset ts tg
                   | inl err => inl err
                   end) (inr tg) sets.

(** [DefaultToolsetGroup].  Each tool is named by the constructor call the
    source passes to [toolsets.NewServerTool]; the client getters and the
    translation helper do not bear on which tools are registered where. *)
Definition DefaultToolsetGroup (readOnly : bool) : string + ToolsetGroup :=
  let tsg := NewToolsetGroup readOnly in
  let repos :=
    NewToolset "repos" "GitHub Repository related tools"
    |> AddReadTools
         [ NewServerTool "SearchRepositories";
           NewServerTool "GetFileContents";
           NewServerTool "ListCommits";
           NewServerTool "SearchCode";
           NewServerTool "GetCommit";
           NewServerTool "ListBranches";
           NewServerTool "ListTags";
           NewServerTool "GetTag" ]
    |> AddWriteTools
         [ NewServerTool "CreateOrUpdateFile";
           NewServerTool "CreateRepository";
           NewServerTool "ForkRepository";
           NewServerTool "CreateBranch";
           NewServerTool "PushFiles";
           NewServerTool "DeleteFile" ]
    |> AddResourceTemplates
         [ NewServerResourceTemplate "GetRepositoryResourceContent";
           NewServerResourceTemplate "GetRepositoryResourceBranchContent";
           NewServerResourceTemplate "GetRepositoryResourceCommitContent";
           NewServerResourceTemplate "GetRepositoryResourceTagContent";
           NewServerResourceTemplate "GetRepositoryResourcePrContent" ] in
  let issues :=
    NewToolset "issues" "GitHub Issues related tools"
    |> AddReadTools
         [ NewServerTool "GetIssue";
           NewServerTool "SearchIssues";
           NewServerTool "ListIssues";
           NewServerTool "GetIssueComments" ]
    |> AddWriteTools
         [ NewServerTool "CreateIssue";
           NewServerTool "AddIssueComment";
           NewServerTool "UpdateIssue";
           NewServerTool "AssignCopilotToIssue" ] in
  let users :=
    NewToolset "users" "GitHub User related tools"
    |> AddReadTools
         [ NewServerTool "SearchUsers" ] in
  let pullRequests :=
    NewToolset "pull_requests" "GitHub Pull Request related tools"
    |> AddReadTools
         [ NewServerTool "GetPullRequest";
           NewServerTool "ListPullRequests";
           NewServerTool "GetPullRequestFiles";
           NewServerTool "GetPullRequestStatus";
           NewServerTool "GetPullRequestComments";
           NewServerTool "GetPullRequestReviews";
           NewServerTool "GetPullRequestDiff" ]
    |> AddWriteTools
         [ NewServerTool "MergePullRequest";
           NewServerTool "UpdatePullRequestBranch";
           NewServerTool "CreatePullRequest";
           NewServerTool "UpdatePullRequest";
           NewServerTool "RequestCopilotReview";
           NewServerTool "CreateAndSubmitPullRequestReview";
           NewServerTool "CreatePendingPullRequestReview";
           NewServerTool "AddPullRequestReviewCommentToPendingReview";
           NewServerTool "SubmitPendingPullRequestReview";
           NewServerTool "DeletePendingPullRequestReview" ] in
  let projects :=
    NewToolset "projects" "GitHub Projects V2 management tools"
    |> AddReadTools
         [ NewServerTool "ListProjects";
           NewServerTool "GetProjectFields";
           NewServerTool "GetProjectItems" ]
    |> AddWriteTools
         [ NewServerTool "CreateProjectIssue";
           NewServerTool "AddIssueToProject";
           NewServerTool "UpdateProjectItemField";
           NewServerTool "CreateDraftIssue";
           NewServerTool "DeleteProjectItem" ] in
  let codeSecurity :=
    NewToolset "code_security" "Code security related tools, such as GitHub Code Scanning"
    |> AddReadTools
         [ NewServerTool "GetCodeScanningAlert";
           NewServerTool "ListCodeScanningAlerts" ] in
  let secretProtection :=
    NewToolset "secret_protection" "Secret protection related tools, such as GitHub Secret Scanning"
    |> AddReadTools
         [ NewServerTool "GetSecretScanningAlert";
           NewServerTool "ListSecretScanningAlerts" ] in
  let notifications :=
    NewToolset "notifications" "GitHub Notifications related tools"
    |> AddReadTools
         [ NewServerTool "ListNotifications";
           NewServerTool "GetNotificationDetails" ]
    |> AddWriteTools
         [ NewServerTool "DismissNotification";
           NewServerTool "MarkAllNotificationsRead";
           NewServerTool "ManageNotificationSubscription";
           NewServerTool "ManageRepositoryNotificationSubscription" ] in
  let actions :=
    NewToolset "actions" "GitHub Actions workflows and CI/CD operations"
    |> AddReadTools
         [ NewServerTool "ListWorkflows";
           NewServerTool "ListWorkflowRuns";
           NewServerTool "GetWorkflowRun";
           NewServerTool "GetWorkflowRunLogs";
           NewServerTool "ListWorkflowJobs";
           NewServerTool "GetJobLogs";
           NewServerTool "ListWorkflowRunArtifacts";
           NewServerTool "DownloadWorkflowRunArtifact";
           NewServerTool "GetWorkflowRunUsage" ]
    |> AddWriteTools
         [ NewServerTool "RunWorkflow";
           NewServerTool "RerunWorkflowRun";
           NewServerTool "RerunFailedJobs";
           NewServerTool "CancelWorkflowRun";
           NewServerTool "DeleteWorkflowRunLogs" ] in
  let experiments :=
    NewToolset "experiments" "Experimental features that are not considered stable yet" in
  let contextTools :=
    NewToolset "context" "Tools that provide context about the current user and GitHub context you are operating in"
    |> AddReadTools
         [ NewServerTool "GetMe" ] in
  addToolsets
    [ contextTools; repos; issues; users; pullRequests; projects; actions;
      codeSecurity; secretProtection; notifications; experiments ] tsg.

(** [InitDynamicToolset]: the always-enabled toolset of the discovery tools. *)
Definition InitDynamicToolset : Toolset :=
  let dynamicToolSelection :=
    NewToolset "dynamic" "Discover GitHub MCP tools that can help achieve tasks by enabling additional sets of tools, you can control the enablement of any toolset to access its tools when this toolset is enabled."
    |> AddReadTools
         [ NewServerTool "ListAvailableToolsets";
           NewServerTool "GetToolsetsTools";
           NewServerTool "EnableToolset" ] in
  setEnabled dynamicToolSelection.

End github.

(** ** The classification policy as the specification words it

    The MIME type of a 200 response: [.md] forces [text/markdown]; else the
    [Content-Type] header when it is not empty; else the extension's entry in
    the MIME table; else empty.  Text for a MIME type that begins with [text]
    or [application], a base64 blob for any other. *)
Section policy.
Context `{GoLib}.

Definition spec_mimeType (path contentType : string) : string :=
  if bool_decide (filepath_Ext path = ".md") then "text/markdown"
  else if bool_decide (contentType ≠ EmptyString) then contentType
  else match mime_lookup (filepath_Ext path) with
       | Some byExtension => byExtension
       | None => EmptyString
       end.

Definition spec_isText (mimeType : string) : bool :=
  strings_HasPrefix mimeType "text" || strings_HasPrefix mimeType "application".

Definition spec_contents (uri path contentType content : string)
    : github.ResourceContents :=
  let mimeType := spec_mimeType path contentType in
  if spec_isText mimeType
  then github.TextResourceContents uri mimeType content
  else github.BlobResourceContents uri mimeType (base64_EncodeToString content).

End policy.

(** ** Reference implementations of the open library functions

    Used to replay the repository's tests and to exhibit inputs on which the
    hypotheses of the theorems hold. *)
Module reference.

(** Path elements between slashes; [cur] is the element being read,
    backwards. *)
Fixpoint segments (s : string) (cur : string) : list string :=
  match s with
  | EmptyString => [String.rev cur]
  | String c s' =>
      if bool_decide (c = "/"%char)
      then String.rev cur :: segments s' EmptyString
      else segments s' (String c cur)
  end.

(** [path.Clean] on elements: empty and [.] elements go, [..] removes the
    element before it, is dropped at the root and kept at the front of a
    relative path.  [kept] is backwards. *)
Fixpoint clean_walk (rooted : bool) (segs kept : list string) : list string :=
  match segs with
  | [] => reverse kept
  | seg :: rest =>
      if bool_decide (seg = EmptyString ∨ seg = ".") then clean_walk rooted rest kept
      else if bool_decide (seg = "..") then
        match kept with
        | top :: below =>
            if bool_decide (top = "..")
            then clean_walk rooted rest (seg :: kept)
            else clean_walk rooted rest below
        | [] => if rooted then clean_walk rooted rest [] else clean_walk rooted rest [seg]
        end
      else clean_walk rooted rest (seg :: kept)
  end.

Definition path_Clean (p : string) : string :=
  if bool_decide (p = EmptyString) then "."
  else
    let rooted := strings_HasPrefix p "/" in
    let kept := clean_walk rooted (segments p EmptyString) [] in
    if rooted then "/" +:+ strings_Join kept "/"
    else if bool_decide (kept = []) then "."
    else strings_Join kept "/".

Definition path_Join (elem : list string) : string :=
  let given := List.filter (λ e, bool_decide (e ≠ EmptyString)) elem in
  if bool_decide (given = []) then EmptyString
  else path_Clean (strings_Join given "/").

(** A URL with nothing to escape: scheme and host, then the path. *)
Record PlainURL := { origin : string; upath : string }.

Definition plain_JoinPath (u : PlainURL) (elem : list string) : PlainURL :=
  let p :=
    if strings_HasPrefix (upath u) "/"
    then path_Join (upath u :: elem)
    else match path_Join (("/" +:+ upath u) :: elem) with
         | String _ relative => relative
         | EmptyString => EmptyString
         end in
  let p :=
    if strings_HasSuffix (List.last elem (upath u)) "/" && negb (strings_HasSuffix p "/")
    then p +:+ "/"
    else p in
  {| origin := origin u; upath := p |}.

Definition plain_String (u : PlainURL) : string :=
  if bool_decide (upath u ≠ EmptyString) && negb (strings_HasPrefix (upath u) "/")
     && bool_decide (origin u ≠ EmptyString)
  then origin u +:+ "/" +:+ upath u
  else origin u +:+ upath u.

#[export] Instance plain_url : NetURL :=
  {| URL := PlainURL; JoinPath := plain_JoinPath; URL_String := plain_String |}.

(** A few entries of Go's built-in MIME table. *)
Definition builtin_mime : gmap string string :=
  list_to_map
    [ (".css", "text/css; charset=utf-8");
      (".gif", "image/gif");
      (".html", "text/html; charset=utf-8");
      (".jpg", "image/jpeg");
      (".json", "application/json");
      (".pdf", "application/pdf");
      (".png", "image/png");
      (".svg", "image/svg+xml");
      (".xml", "text/xml; charset=utf-8") ].

(** Decimal integers with an optional sign. *)
Fixpoint decimal_value (s : string) (acc : Z) : option Z :=
  match s with
  | EmptyString => Some acc
  | String c s' =>
      d ← Ascii.is_nat c; decimal_value s' (10 * acc + Z.of_nat d)
  end.

Definition decimal_Atoi (s : string) : string + Z :=
  let bad := inl ("strconv.Atoi: parsing " +:+ s +:+ ": invalid syntax") in
  match s with
  | EmptyString => bad
  | String c digits =>
      if bool_decide (c = "-"%char ∨ c = "+"%char) then
        match digits, decimal_value digits 0 with
        | String _ _, Some n => inr (if bool_decide (c = "-"%char) then - n else n)
        | _, _ => bad
        end
      else match decimal_value s 0 with
           | Some n => inr n
           | None => bad
           end
  end.

(** A compact JSON printer with sorted keys for documents whose strings need
    no escaping. *)
Definition dquote : string := String (Ascii.ascii_of_nat 34) EmptyString.
Definition quoted (s : string) : string := dquote +:+ s +:+ dquote.

Definition key_le (a b : string * string) : Prop := String.le a.1 b.1.

#[export] Instance key_le_dec : RelDecision key_le.
Proof. intros a b. unfold key_le. apply _. Defined.

Fixpoint render (j : JSON) : string :=
  match j with
  | JBool b => if b then "true" else "false"
  | JInt n => fmt_d n
  | JString s => quoted s
  | JArray items => "[" +:+ strings_Join (render <$> items) "," +:+ "]"
  | JObject fields =>
      let members := map_fold (λ k v acc, (k, render v) :: acc) [] fields in
      "{" +:+ strings_Join ((λ kv, quoted kv.1 +:+ ":" +:+ kv.2)
                              <$> merge_sort key_le members) ","
      +:+ "}"
  end.

(** Trimming of ASCII white space at both ends. *)
Fixpoint trim_left (s : string) : string :=
  match s with
  | String c s' => if Ascii.is_space c then trim_left s' else s
  | EmptyString => EmptyString
  end.

Definition ascii_TrimSpace (s : string) : string :=
  String.rev (trim_left (String.rev (trim_left s))).

#[export] Instance go_lib : GoLib :=
  {| mime_lookup := λ ext, builtin_mime !! ext;
     strconv_Atoi := decimal_Atoi;
     json_Marshal := λ j, (render j, None);
     strings_TrimSpace := ascii_TrimSpace |}.

End reference.

(** ** The stubs of the repository's tests *)

Module fixtures.
Import reference github.

Definition base : PlainURL :=
  {| origin := "https://raw.example.com"; upath := "/" |}.

Definition testBody : string := "# Test Repository

This is a test repository.".

Definition respond (status : Z) (contentType body : string) : Response :=
  {| StatusCode := status;
     Header := {[ "Content-Type" := [contentType] ]};
     RespBody := BodyOk body |}.

Definition notFound : Response :=
  {| StatusCode := 404; Header := ∅; RespBody := BodyOk "Not Found" |}.

(** A mocked HTTP client: one response per routed URL, 404 elsewhere. *)
Definition mocked (routes : gmap string Response) : raw.Transport :=
  {| raw.NewRequest := λ method urlStr, inr {| Method := method; ReqURL := urlStr |};
     raw.Do := λ req, (Some (default notFound (routes !! ReqURL req)), None) |}.

Definition rawRoutes : gmap string Response :=
  list_to_map
    [ ("https://raw.example.com/owner/repo/HEAD/README.md",
       respond 200 "text/markdown" testBody);
      ("https://raw.example.com/owner/repo/HEAD/notes.md",
       respond 200 "text/plain" testBody);
      ("https://raw.example.com/owner/repo/HEAD/data.png",
       respond 200 "image/png" testBody);
      ("https://raw.example.com/owner/repo/refs/heads/main/README.md",
       respond 200 "text/markdown" testBody);
      ("https://raw.example.com/owner/repo/abc123/README.md",
       respond 200 "text/markdown" testBody);
      ("https://raw.example.com/owner/repo/HEAD/broken.txt",
       respond 500 "text/plain" "upstream failure") ].

Definition rawClient : raw.Client :=
  {| raw.url := base; raw.client := mocked rawRoutes |}.

Definition job (id : Z) (name conclusion : string) : WorkflowJob :=
  {| ID := Some id; Name := Some name; Conclusion := Some conclusion |}.

(** Pull request 42 has head [abc123]; run 456 has one passed and two failed
    jobs, and the log of job 3 cannot be fetched. *)
Definition restClient : Client :=
  {| PullRequests_Get := λ owner repo number,
       if bool_decide (number = 42)
       then inr {| Head := Some {| BranchSHA := Some "abc123" |} |}
       else inl "404 Not Found";
     Actions_ListWorkflowJobs := λ owner repo runID filter,
       if bool_decide (runID = 456)
       then inr {| TotalCount := Some 3;
                   JobList := [ job 1 "test-job-1" "success";
                                job 2 "test-job-2" "failure";
                                job 3 "test-job-3" "failure" ] |}
       else inl "404 Not Found";
     Actions_GetWorkflowJobLogs := λ owner repo jobID maxRedirects,
       if bool_decide (jobID = 3)
       then inl "404 Not Found"
       else inr ("https://github.com/logs/job/" +:+ fmt_d jobID) |}.

Definition noDownload : string → string + Response := λ _, inl "connection refused".

Definition resourceRequest (args : list (string * list string)) : ReadResourceRequest :=
  {| URI := EmptyString; Arguments := list_to_map (prod_map id AStrings <$> args) |}.

Definition readmeRequest : ReadResourceRequest :=
  resourceRequest [("owner", ["owner"]); ("repo", ["repo"]); ("path", ["README.md"])].

Definition notesRequest : ReadResourceRequest :=
  resourceRequest [("owner", ["owner"]); ("repo", ["repo"]); ("path", ["notes.md"])].

Definition pngRequest : ReadResourceRequest :=
  resourceRequest [("owner", ["owner"]); ("repo", ["repo"]); ("path", ["data.png"])].

Definition branchRequest : ReadResourceRequest :=
  resourceRequest [("owner", ["owner"]); ("repo", ["repo"]); ("path", ["README.md"]);
                   ("branch", ["main"])].

Definition missingRequest : ReadResourceRequest :=
  resourceRequest [("owner", ["owner"]); ("repo", ["repo"]);
                   ("path", ["nonexistent.md"]); ("branch", ["main"])].

Definition brokenRequest : ReadResourceRequest :=
  resourceRequest [("owner", ["owner"]); ("repo", ["repo"]); ("path", ["broken.txt"])].

Definition prRequest : ReadResourceRequest :=
  resourceRequest [("owner", ["owner"]); ("repo", ["repo"]); ("path", ["README.md"]);
                   ("prNumber", ["42"])].

Definition directoryRequest : ReadResourceRequest :=
  resourceRequest [("owner", ["owner"]); ("repo", ["repo"]); ("path", ["docs"; ""]);
                   ("sha", ["abc123"]); ("branch", ["main"])].

Definition prDirectoryRequest : ReadResourceRequest :=
  resourceRequest [("owner", ["owner"]); ("repo", ["repo"]); ("prNumber", ["42"])].

Definition toolRequest (args : list (string * any)) : CallToolRequest :=
  {| ToolArguments := list_to_map args |}.

Definition failedOnlyRequest : CallToolRequest :=
  toolRequest [("owner", AString "owner"); ("repo", AString "repo");
               ("failed_only", ABool true)].

Definition bareRequest : CallToolRequest :=
  toolRequest [("owner", AString "owner"); ("repo", AString "repo")].

Definition failedJobsRequest : CallToolRequest :=
  toolRequest [("owner", AString "owner"); ("repo", AString "repo");
               ("run_id", ANumber 456); ("failed_only", ABool true)].

(** The default group under the read-only policy, and the discovery tools. *)
Definition readOnlyGroup : toolsets.ToolsetGroup :=
  match DefaultToolsetGroup true with
  | inr tg => tg
  | inl _ => toolsets.NewToolsetGroup true
  end.

Definition writableGroup : toolsets.ToolsetGroup :=
  match DefaultToolsetGroup false with
  | inr tg => tg
  | inl _ => toolsets.NewToolsetGroup false
  end.

Definition dynamicTools : list toolsets.ServerTool :=
  toolsets.readTools InitDynamicToolset.

End fixtures.

(** ** projects.go *)

Module projects.
Import github.

(** Modelled from the spec: [OptionalParam[string]] and [RequiredInt], two
    more of the type-checked parameter accessors whose file is not among the
    sources. *)
Definition OptionalParam_string (r : CallToolRequest) (p : string) : string + string :=
  match ToolArguments r !! p with
  | None => inr EmptyString
  | Some (AString s) => inr s
  | Some _ => inl ("parameter " +:+ p +:+ " is not of type string")
  end.

Definition RequiredInt (r : CallToolRequest) (p : string) : string + Z :=
  match ToolArguments r !! p with
  | None => inl ("missing required parameter: " +:+ p)
  | Some (ANumber n) => inr n
  | Some _ => inl ("parameter " +:+ p +:+ " is not of type float64")
  end.

(** The GraphQL documents of the handlers, by the tags of their query
    structs: the owner is looked up under [user(login: $login)] or under
    [organization(login: $login)]. *)
Inductive OwnerRoot := UserRoot | OrganizationRoot.

Inductive GQLQuery :=
| ProjectsQuery (root : OwnerRoot)
| ProjectFieldsQuery (root : OwnerRoot)
| ProjectItemsQuery (root : OwnerRoot)
| RepositoryQuery.

Inductive GQLValue := GString (s : string) | GInt (n : Z).

(** The mutation inputs of githubv4 the handlers fill; an unset pointer field
    is [None].  Node ids are carried by their text. *)
Record ProjectV2FieldValue := { FieldText : option string }.

Inductive GQLInput :=
| CreateIssueInput (repositoryID title : string) (body : option string)
| AddProjectV2ItemByIdInput (projectID contentID : string)
| UpdateProjectV2ItemFieldValueInput (projectID itemID fieldID : string)
    (value : ProjectV2FieldValue)
| AddProjectV2DraftIssueInput (projectID title : string) (body : option string)
| DeleteProjectV2ItemInput (projectID itemID : string).

(** What a handler sends through the GraphQL client, in order. *)
Inductive GQLCall :=
| QueryCall (q : GQLQuery) (variables : gmap string GQLValue)
| MutateCall (input : GQLInput).

(** The arguments of create_project_issue as [mapstructure.Decode] fills them. *)
Record IssueParams := { Owner : string; Repo : string; Title : string; Body : string }.

Section handlers.

(** The query or mutation struct as the client filled it; the id read from
    the repository query; [MarshalledTextResult], which is declared in a file
    that is not among the sources and returns a tool result; and
    [mapstructure.Decode] into [IssueParams]. *)
Variable Data : Type.
Variable repositoryID : Data → string.
Variable MarshalledTextResult : Data → CallToolResult.
Variable mapstructure_Decode : gmap string any → string + IssueParams.

Record GQLClient := {
  Query : GQLQuery → gmap string GQLValue → string + Data;
  Mutate : GQLInput → string + Data
}.

(** [GetGQLClientFn], by what a call returns. *)
Definition GetGQLClientFn : Type := string + GQLClient.

(** A handler run: the calls sent and Go's [(result, error)]. *)
Definition GQLRun : Type := list GQLCall * Outcome CallToolResult.

Definition toolError (err : string) : GQLRun := ([], Return (NewToolResultError err)).

(** [if err := client.Query(...); err != nil { tool error }] and then
    [return MarshalledTextResult(q), nil]. *)
Definition runQuery (client : GQLClient) (q : GQLQuery)
    (variables : gmap string GQLValue) : GQLRun :=
  match Query client q variables with
  | inl err => ([QueryCall q variables], Return (NewToolResultError err))
  | inr data => ([QueryCall q variables], Return (MarshalledTextResult data))
  end.

(** The same for [client.Mutate]. *)
Definition runMutate (client : GQLClient) (input : GQLInput) : GQLRun :=
  match Mutate client input with
  | inl err => ([MutateCall input], Return (NewToolResultError err))
  | inr data => ([MutateCall input], Return (MarshalledTextResult data))
  end.

(** [if ownerType == "" { ownerType = "organization" }]. *)
Definition defaultOwnerType (ownerType : string) : string :=
  if bool_decide (ownerType = EmptyString) then "organization" else ownerType.

Definition ListProjects (getClient : GetGQLClientFn) (req : CallToolRequest) : GQLRun :=
  match RequiredParam_string req "owner" with
  | inl err => toolError err
  | inr owner =>
      match OptionalParam_string req "owner_type" with
      | inl err => toolError err
      | inr ownerType =>
          let ownerType := defaultOwnerType ownerType in
          match getClient with
          | inl err => toolError err
          | inr client =>
              if bool_decide (ownerType = "user")
              then runQuery client (ProjectsQuery UserRoot) {[ "login" := GString owner ]}
              else runQuery client (ProjectsQuery OrganizationRoot)
                     {[ "login" := GString owner ]}
          end
      end
  end.

Definition GetProjectFields (getClient : GetGQLClientFn) (req : CallToolRequest)
    : GQLRun :=
  match RequiredParam_string req "owner" with
  | inl err => toolError err
  | inr owner =>
      match RequiredInt req "number" with
      | inl err => toolError err
      | inr number =>
          match OptionalParam_string req "owner_type" with
          | inl err => toolError err
          | inr ownerType =>
              let ownerType := defaultOwnerType ownerType in
              match getClient with
              | inl err => toolError err
              | inr client =>
                  let variables : gmap string GQLValue :=
                    <["number" := GInt number]> {[ "login" := GString owner ]} in
                  if bool_decide (ownerType = "user")
                  then runQuery client (ProjectFieldsQuery UserRoot) variables
                  else runQuery client (ProjectFieldsQuery OrganizationRoot) variables
              end
          end
      end
  end.

Definition GetProjectItems (getClient : GetGQLClientFn) (req : CallToolRequest)
    : GQLRun :=
  match RequiredParam_string req "owner" with
  | inl err => toolError err
  | inr owner =>
      match RequiredInt req "number" with
      | inl err => toolError err
      | inr number =>
          match OptionalParam_string req "owner_type" with
          | inl err => toolError err
          | inr ownerType =>
              let ownerType := defaultOwnerType ownerType in
              match getClient with
              | inl err => toolError err
              | inr client =>
                  let variables : gmap string GQLValue :=
                    <["number" := GInt number]> {[ "login" := GString owner ]} in
                  if bool_decide (ownerType = "user")
                  then runQuery client (ProjectItemsQuery UserRoot) variables
                  else runQuery client (ProjectItemsQuery OrganizationRoot) variables
              end
          end
      end
  end.

(** [githubv4.NewString] of a text that is not empty, a nil pointer else. *)
Definition optionalText (text : string) : option string :=
  if bool_decide (text ≠ EmptyString) then Some text else None.

Definition CreateProjectIssue (getClient : GetGQLClientFn) (req : CallToolRequest)
    : GQLRun :=
  match mapstructure_Decode (ToolArguments req) with
  | inl err => toolError err
  | inr params =>
      match getClient with
      | inl err => toolError err
      | inr client =>
          let variables : gmap string GQLValue :=
            <["name" := GString (Repo params)]> {[ "owner" := GString (Owner params) ]} in
          match Query client RepositoryQuery variables with
          | inl err =>
              ([QueryCall RepositoryQuery variables], Return (NewToolResultError err))
          | inr repoQ =>
              let input :=
                CreateIssueInput (repositoryID repoQ) (Title params)
                  (optionalText (Body params)) in
              let '(calls, result) := runMutate client input in
              (QueryCall RepositoryQuery variables :: calls, result)
          end
      end
  end.

Definition AddIssueToProject (getClient : GetGQLClientFn) (req : CallToolRequest)
    : GQLRun :=
  match RequiredParam_string req "project_id" with
  | inl err => toolError err
  | inr projectID =>
      match RequiredParam_string req "issue_id" with
      | inl err => toolError err
      | inr issueID =>
          match getClient with
          | inl err => toolError err
          | inr client => runMutate client (AddProjectV2ItemByIdInput projectID issueID)
          end
      end
  end.

Definition UpdateProjectItemField (getClient : GetGQLClientFn) (req : CallToolRequest)
    : GQLRun :=
  match RequiredParam_string req "project_id" with
  | inl err => toolError err
  | inr projectID =>
      match RequiredParam_string req "item_id" with
      | inl err => toolError err
      | inr itemID =>
          match RequiredParam_string req "field_id" with
          | inl err => toolError err
          | inr fieldID =>
              match OptionalParam_string req "text_value" with
              | inl err => toolError err
              | inr textValue =>
                  match getClient with
                  | inl err => toolError err
                  | inr client =>
                      let val := {| FieldText := optionalText textValue |} in
                      runMutate client
                        (UpdateProjectV2ItemFieldValueInput projectID itemID fieldID val)
                  end
              end
          end
      end
  end.

Definition CreateDraftIssue (getClient : GetGQLClientFn) (req : CallToolRequest)
    : GQLRun :=
  match RequiredParam_string req "project_id" with
  | inl err => toolError err
  | inr projectID =>
      match RequiredParam_string req "title" with
      | inl err => toolError err
      | inr title =>
          match OptionalParam_string req "body" with
          | inl err => toolError err
          | inr body =>
              match getClient with
              | inl err => toolError err
              | inr client =>
                  runMutate client
                    (AddProjectV2DraftIssueInput projectID title (optionalText body))
              end
          end
      end
  end.

Definition DeleteProjectItem (getClient : GetGQLClientFn) (req : CallToolRequest)
    : GQLRun :=
  match RequiredParam_string req "project_id" with
  | inl err => toolError err
  | inr projectID =>
      match RequiredParam_string req "item_id" with
      | inl err => toolError err
      | inr itemID =>
          match getClient with
          | inl err => toolError err
          | inr client => runMutate client (DeleteProjectV2ItemInput projectID itemID)
          end
      end
  end.

End handlers.

End projects.

(** ** Further stubs *)

Module scenarios.
Import reference github fixtures projects.

(** A go-github client that cannot build a request, one that gets no answer,
    and one that always gets [resp], with or without an error beside it. *)
Definition unbuildable : raw.Transport :=
  {| raw.NewRequest := λ method urlStr, inl "net/http: invalid method";
     raw.Do := λ req, (None, Some "no request was built") |}.

Definition unreachable : raw.Transport :=
  {| raw.NewRequest := λ method urlStr, inr {| Method := method; ReqURL := urlStr |};
     raw.Do := λ req, (None, Some "dial tcp: connection refused") |}.

Definition answering (resp : Response) (err : option string) : raw.Transport :=
  {| raw.NewRequest := λ method urlStr, inr {| Method := method; ReqURL := urlStr |};
     raw.Do := λ req, (Some resp, err) |}.

Definition rawOver (t : raw.Transport) : raw.Client :=
  {| raw.url := base; raw.client := t |}.

(** A response whose body breaks off. *)
Definition truncated (status : Z) : Response :=
  {| StatusCode := status; Header := ∅; RespBody := BodyErr "unexpected EOF" |}.

(** A REST client whose pull requests carry no head. *)
Definition headless : Client :=
  {| PullRequests_Get := λ owner repo number, inr {| Head := None |};
     Actions_ListWorkflowJobs := λ owner repo runID filter, inl "404 Not Found";
     Actions_GetWorkflowJobLogs := λ owner repo jobID maxRedirects, inl "404 Not Found" |}.

Definition ownerlessRequest : ReadResourceRequest :=
  resourceRequest [("repo", ["repo"]); ("path", ["README.md"])].

Definition repolessRequest : ReadResourceRequest :=
  resourceRequest [("owner", ["owner"]); ("repo", []); ("path", ["README.md"])].

Definition pinnedRequest : ReadResourceRequest :=
  resourceRequest [("owner", ["owner"]); ("repo", ["repo"]); ("path", ["README.md"]);
                   ("sha", ["abc123"]); ("branch", ["main"]); ("tag", ["v1.0.0"])].

Definition tagRequest : ReadResourceRequest :=
  resourceRequest [("owner", ["owner"]); ("repo", ["repo"]); ("path", ["README.md"]);
                   ("branch", ["main"]); ("tag", ["v1.0.0"])].

Definition stalePrRequest : ReadResourceRequest :=
  resourceRequest [("owner", ["owner"]); ("repo", ["repo"]); ("path", ["README.md"]);
                   ("prNumber", ["7"])].

Definition prBranchRequest : ReadResourceRequest :=
  resourceRequest [("owner", ["owner"]); ("repo", ["repo"]); ("path", ["README.md"]);
                   ("sha", ["abc123"]); ("branch", ["main"]); ("prNumber", ["42"])].

(** A log server: the log of job 2 is there, padded with white space. *)
Definition logServer : string → string + Response := λ url,
  if bool_decide (url = "https://github.com/logs/job/2")
  then inr (respond 200 "text/plain" "  step 1 failed
")
  else inr (respond 503 "text/plain" "unavailable").

Definition singleJobRequest : CallToolRequest :=
  toolRequest [("owner", AString "owner"); ("repo", AString "repo");
               ("job_id", ANumber 2); ("run_id", ANumber 456)].

Definition negativeRunRequest : CallToolRequest :=
  toolRequest [("owner", AString "owner"); ("repo", AString "repo");
               ("job_id", ANumber 2); ("run_id", ANumber (-1));
               ("failed_only", ABool true)].

Definition negativeJobRequest : CallToolRequest :=
  toolRequest [("owner", AString "owner"); ("repo", AString "repo");
               ("job_id", ANumber (-5))].

Definition ownerNumberRequest : CallToolRequest :=
  toolRequest [("owner", ANumber 7); ("repo", AString "repo")].

(** A GraphQL client that answers with the text of a node id, and the
    handlers' other dependencies over it. *)
Definition gqlClient : GQLClient string :=
  {| Query := λ q variables,
       match q with
       | RepositoryQuery => inr "R_kgDOrepo"
       | _ => inr "PVT_kwDOproject"
       end;
     Mutate := λ input, inr "I_kwDOissue" |}.

Definition gqlDown : GQLClient string :=
  {| Query := λ q variables, inl "502 Bad Gateway";
     Mutate := λ input, inl "502 Bad Gateway" |}.

Definition decodeIssue (args : gmap string any) : string + IssueParams :=
  let field (name : string) : string :=
    match args !! name with
    | Some (AString s) => s
    | _ => EmptyString
    end in
  inr {| Owner := field "owner"; Repo := field "repo";
         Title := field "title"; Body := field "body" |}.



Definition issueRequest : CallToolRequest :=
  toolRequest [("owner", AString "octocat"); ("repo", AString "hello");
               ("title", AString "Crash on start")].

Definition draftRequest : CallToolRequest :=
  toolRequest [("project_id", AString "PVT_kwDOproject"); ("title", AString "Idea");
               ("body", AString EmptyString)].

Definition fieldRequest : CallToolRequest :=
  toolRequest [("project_id", AString "PVT_kwDOproject");
               ("item_id", AString "PVTI_item"); ("field_id", AString "PVTF_field")].

End scenarios.

(** ** Statement helpers *)

(** The six parameters and the client of a get_job_logs call that has them. *)
Definition jobLogsCall (getClient : github.GetClientFn)
    (request : github.CallToolRequest)
    (owner repo : string) (jobID runID : Z) (failedOnly returnContent : bool)
    (client : github.Client) : Prop :=
  github.RequiredParam_string request "owner" = inr owner
  ∧ github.RequiredParam_string request "repo" = inr repo
  ∧ github.OptionalIntParam request "job_id" = inr jobID
  ∧ github.OptionalIntParam request "run_id" = inr runID
  ∧ github.OptionalParam_bool request "failed_only" = inr failedOnly
  ∧ github.OptionalParam_bool request "return_content" = inr returnContent
  ∧ getClient = inr client.

(** A project handler run that ends in a tool result, after at most [n]
    GraphQL calls. *)
Definition answers (n : nat) (run : projects.GQLRun) : Prop :=
  ∃ calls result, run = (calls, Return result) ∧ (length calls ≤ n)%nat.

(** A project handler run that sends nothing and ends in a tool-level error. *)
Definition refuses (run : projects.GQLRun) : Prop :=
  ∃ err, run = ([], Return (github.NewToolResultError err)).

(** * Properties *)

(** ** Prefixes, suffixes and extensions *)

Lemma append_cons (c : ascii) (s t : string) : String c s +:+ t = String c (s +:+ t).
Proof. reflexivity. Qed.

Lemma append_nil_r (s : string) : s +:+ EmptyString = s.
Proof. induction s as [|c s IH]; [done|]. by rewrite append_cons, IH. Qed.

Lemma append_assoc (a b c : string) : (a +:+ b) +:+ c = a +:+ (b +:+ c).
Proof. induction a as [|x a IH]; [done|]. by rewrite !append_cons, IH. Qed.

Lemma strings_HasPrefix_spec (s prefix : string) :
  strings_HasPrefix s prefix = true ↔ ∃ rest, s = prefix +:+ rest.
Proof.
  revert s. induction prefix as [|p prefix IH]; intros s; simpl.
  { split; [|done]. intros _. by exists s. }
  destruct s as [|c s].
  { split; [done|]. intros [rest Heq]. by rewrite append_cons in Heq. }
  rewrite andb_true_iff, bool_decide_eq_true, IH. split.
  - intros [-> [rest ->]]. by exists rest.
  - intros [rest Heq]. rewrite append_cons in Heq. injection Heq as -> ->. eauto.
Qed.

Lemma rev_app_append (s acc : string) :
  String.rev_app s acc = String.rev s +:+ acc.
Proof.
  unfold String.rev. revert acc.
  induction s as [|c s IH]; intros acc; simpl; [done|].
  rewrite (IH (String c acc)), (IH (String c EmptyString)).
  by rewrite append_assoc.
Qed.

Lemma rev_append (a b : string) :
  String.rev (a +:+ b) = String.rev b +:+ String.rev a.
Proof.
  induction a as [|c a IH].
  { by rewrite append_nil_r. }
  rewrite append_cons. unfold String.rev at 1 3. simpl.
  rewrite !rev_app_append, IH. by rewrite append_assoc.
Qed.

Lemma rev_involutive (s : string) : String.rev (String.rev s) = s.
Proof.
  induction s as [|c s IH]; [done|].
  unfold String.rev at 2. simpl. by rewrite rev_app_append, rev_append, IH.
Qed.

Lemma strings_HasSuffix_spec (s suffix : string) :
  strings_HasSuffix s suffix = true ↔ ∃ front, s = front +:+ suffix.
Proof.
  unfold strings_HasSuffix. rewrite strings_HasPrefix_spec. split.
  - intros [rest Hrev]. exists (String.rev rest).
    rewrite <- (rev_involutive s), Hrev, rev_append. by rewrite rev_involutive.
  - intros [front ->]. exists (String.rev front). apply rev_append.
Qed.

(** A directory path is an empty path or one that ends in a slash. *)
Lemma isDirectory_spec (path : string) :
  github.isDirectory path = true
  ↔ path = EmptyString ∨ ∃ front, path = front +:+ "/".
Proof.
  unfold github.isDirectory.
  by rewrite orb_true_iff, bool_decide_eq_true, strings_HasSuffix_spec.
Qed.

Lemma list_ascii_of_append (a b : string) :
  String.list_ascii_of_string (a +:+ b)
  = String.list_ascii_of_string a ++ String.list_ascii_of_string b.
Proof. induction a as [|c a IH]; [done|]. rewrite append_cons. simpl. by rewrite IH. Qed.

(** Every name that ends in [.md] has the extension [.md]. *)
Lemma filepath_Ext_md (stem : string) : filepath_Ext (stem +:+ ".md") = ".md".
Proof.
  unfold filepath_Ext. rewrite list_ascii_of_append, reverse_app. reflexivity.
Qed.

(** ** The run monad *)

Lemma bind_return {A B : Type} (f : A → Run B) (tr : list Event) (a : A) :
  ((tr, Return a) ≫= f) = (tr ++ trace (f a), outcome (f a)).
Proof.
  unfold mbind, run_mbind, run_bind, trace, outcome.
  by destruct (f a).
Qed.

Lemma bind_error {A B : Type} (f : A → Run B) (tr : list Event) (msg : string) :
  ((tr, Error msg) ≫= f) = (tr, Error msg).
Proof. reflexivity. Qed.

Lemma bind_panic {A B : Type} (f : A → Run B) (tr : list Event) :
  ((tr, @Panic A) ≫= f) = (tr, Panic).
Proof. reflexivity. Qed.

Lemma bind_trace_prefix {A B : Type} (f : A → Run B) (m : Run A) :
  trace m `prefix_of` trace (m ≫= f).
Proof.
  destruct m as [tr [a| |]]; [|done..].
  rewrite bind_return. by apply prefix_app_r.
Qed.

Lemma wrap_ok {A : Type} (context : string) (a : A) :
  wrap context (inr a) = ([], Return a).
Proof. reflexivity. Qed.

Lemma wrap_err {A : Type} (context err : string) :
  wrap (A := A) context (inl err) = ([], Error (context +:+ ": " +:+ err)).
Proof. reflexivity. Qed.

(** ** Package raw *)

Section raw_facts.
Context `{NetURL}.

(** C2.  With [SHA] set, [URLFromOpts] returns the URL of
    [base/owner/repo/<SHA>/path] whatever [Ref] holds, a non-empty [Ref]
    included: it is the URL that the same options without a [Ref] resolve to. *)
Theorem URLFromOpts_sha_wins (c : raw.Client) (owner repo path sha ref : string) :
  sha ≠ EmptyString →
  ref ≠ EmptyString →
  raw.URLFromOpts c (Some {| raw.Ref := ref; raw.SHA := sha |}) owner repo path
    = URL_String (JoinPath (raw.url c) [owner; repo; sha; path])
  ∧ raw.URLFromOpts c (Some {| raw.Ref := ref; raw.SHA := sha |}) owner repo path
    = raw.URLFromOpts c (Some {| raw.Ref := EmptyString; raw.SHA := sha |}) owner repo path.
Proof.
  intros Hsha _. unfold raw.URLFromOpts, raw.commitURL. simpl.
  by rewrite !bool_decide_eq_true_2.
Qed.

(** C3.  With nil options, or with both [SHA] and [Ref] empty, [URLFromOpts]
    returns the URL of [base/owner/repo/HEAD/path]. *)
Theorem URLFromOpts_default_HEAD (c : raw.Client) (opts : option raw.RawContentOpts)
    (owner repo path : string) :
  opts = None ∨ opts = Some {| raw.Ref := EmptyString; raw.SHA := EmptyString |} →
  raw.URLFromOpts c opts owner repo path
    = URL_String (JoinPath (raw.url c) [owner; repo; "HEAD"; path]).
Proof. by intros [-> | ->]. Qed.

(** The ref is used exactly when no SHA is given. *)
Lemma URLFromOpts_ref (c : raw.Client) (owner repo path ref : string) :
  ref ≠ EmptyString →
  raw.URLFromOpts c (Some {| raw.Ref := ref; raw.SHA := EmptyString |}) owner repo path
    = URL_String (JoinPath (raw.url c) [owner; repo; ref; path]).
Proof.
  intros Href. unfold raw.URLFromOpts, raw.refURL. simpl.
  by rewrite bool_decide_eq_false_2.
Qed.

(** [GetRawContent] sends at most one request, built for the resolved URL. *)
Lemma GetRawContent_run (c : raw.Client) (owner repo path : string)
    (opts : option raw.RawContentOpts) :
  raw.GetRawContent c owner repo path opts
  = match raw.newRequest c "GET" (raw.URLFromOpts c opts owner repo path) with
    | inl err => ([], Return (None, Some err))
    | inr req => ([ClientDo req], Return (raw.Do (raw.client c) req))
    end.
Proof.
  unfold raw.GetRawContent.
  by destruct (raw.newRequest _ _ _).
Qed.

End raw_facts.

(** ** RepositoryResourceContentsHandler *)

Section resource_facts.
Context `{NetURL} `{GoLib}.
Import github.

(** The [switch] on the response makes no call of its own. *)
Lemma contentsFromResponse_trace (request : ReadResourceRequest) (path : string)
    (resp : option Response) (err : option string) :
  trace (contentsFromResponse request path resp err) = [].
Proof.
  unfold contentsFromResponse.
  destruct resp as [resp|]; [|done].
  destruct err as [err|]; [done|].
  repeat case_bool_decide; try done;
    destruct (io_ReadAll (RespBody resp)); simpl; try done;
    by destruct (_ || _).
Qed.

Lemma handler_after_fetch (getClient : GetClientFn) (getRawClient : GetRawClientFn)
    (request : ReadResourceRequest) (tr : list Event)
    (resp : option Response) (err : option string) :
  fetchRawContent getClient getRawClient request = (tr, Return (resp, err)) →
  RepositoryResourceContentsHandler getClient getRawClient request
  = (tr, outcome (contentsFromResponse request (requestPath request) resp err)).
Proof.
  intros Hfetch. unfold RepositoryResourceContentsHandler.
  rewrite Hfetch, bind_return. simpl.
  by rewrite contentsFromResponse_trace, app_nil_r.
Qed.

(** Without a response the deferred [resp.Body.Close()] has nothing to close:
    the call panics, whatever error came with the nil response. *)
Lemma handler_nil_response (getClient : GetClientFn) (getRawClient : GetRawClientFn)
    (request : ReadResourceRequest) (tr : list Event) (err : option string) :
  fetchRawContent getClient getRawClient request = (tr, Return (None, err)) →
  RepositoryResourceContentsHandler getClient getRawClient request = (tr, Panic).
Proof. intros Hfetch. by rewrite (handler_after_fetch _ _ _ _ _ _ Hfetch). Qed.

(** The MIME type computed by the handler is the one the policy names. *)
Lemma resourceMimeType_spec (path : string) (resp : Response) :
  resourceMimeType path resp
  = spec_mimeType path (Header_Get (Header resp) "Content-Type").
Proof.
  unfold resourceMimeType, spec_mimeType, mime_TypeByExtension.
  by repeat case_bool_decide.
Qed.

Lemma contentsFromResponse_ok (request : ReadResourceRequest) (path : string)
    (resp : Response) (content : string) :
  StatusCode resp = http_StatusOK →
  RespBody resp = BodyOk content →
  contentsFromResponse request path (Some resp) None
  = ([], Return [spec_contents (URI request) path
                   (Header_Get (Header resp) "Content-Type") content]).
Proof.
  intros Hstatus Hbody. unfold contentsFromResponse, spec_contents, spec_isText.
  rewrite bool_decide_eq_true_2 by done.
  rewrite Hbody, resourceMimeType_spec. simpl.
  by destruct (_ || _).
Qed.

(** C4.  For a 200 response the handler returns one resource whose MIME type
    follows the order: [text/markdown] for a [.md] path, whatever the header;
    else the [Content-Type] header when it is not empty; else the MIME table's
    entry for the extension; else empty. *)
Theorem handler_mime_type_order (getClient : GetClientFn)
    (getRawClient : GetRawClientFn) (request : ReadResourceRequest)
    (tr : list Event) (resp : Response) (content : string) :
  fetchRawContent getClient getRawClient request = (tr, Return (Some resp, None)) →
  StatusCode resp = 200 →
  RespBody resp = BodyOk content →
  ∃ r : ResourceContents,
    RepositoryResourceContentsHandler getClient getRawClient request = (tr, Return [r])
    ∧ MIMEType r
      = spec_mimeType (requestPath request) (Header_Get (Header resp) "Content-Type").
Proof.
  intros Hfetch Hstatus Hbody.
  rewrite (handler_after_fetch _ _ _ _ _ _ Hfetch).
  rewrite (contentsFromResponse_ok _ _ _ _ Hstatus Hbody).
  eexists. split; [reflexivity|].
  unfold spec_contents. by destruct (spec_isText _).
Qed.

(** C5.  For a 200 response the handler returns the body as a text resource
    when the MIME type begins with [text] or [application] and as a base64
    blob for every other MIME type, the empty one included.  The resource is
    [spec_contents] of the request URI, the path, the header and the bytes, so
    equal inputs are classified alike. *)
Theorem handler_text_or_blob (getClient : GetClientFn)
    (getRawClient : GetRawClientFn) (request : ReadResourceRequest)
    (tr : list Event) (resp : Response) (content : string) :
  fetchRawContent getClient getRawClient request = (tr, Return (Some resp, None)) →
  StatusCode resp = 200 →
  RespBody resp = BodyOk content →
  let mimeType :=
    spec_mimeType (requestPath request) (Header_Get (Header resp) "Content-Type") in
  RepositoryResourceContentsHandler getClient getRawClient request
  = (tr, Return [spec_contents (URI request) (requestPath request)
                   (Header_Get (Header resp) "Content-Type") content])
  ∧ (strings_HasPrefix mimeType "text" || strings_HasPrefix mimeType "application" = true →
     outcome (RepositoryResourceContentsHandler getClient getRawClient request)
     = Return [TextResourceContents (URI request) mimeType content])
  ∧ (strings_HasPrefix mimeType "text" || strings_HasPrefix mimeType "application" = false →
     outcome (RepositoryResourceContentsHandler getClient getRawClient request)
     = Return [BlobResourceContents (URI request) mimeType
                 (base64_EncodeToString content)]).
Proof.
  intros Hfetch Hstatus Hbody mimeType.
  rewrite (handler_after_fetch _ _ _ _ _ _ Hfetch).
  rewrite (contentsFromResponse_ok _ _ _ _ Hstatus Hbody).
  unfold spec_contents, spec_isText. fold mimeType. simpl.
  split; [done|].
  split; intros ->; done.
Qed.

(** Two handled 200 responses with the same path, header and bytes give the
    same kind of resource with the same MIME type and payload. *)
Corollary classification_stable (getClient1 getClient2 : GetClientFn)
    (getRawClient1 getRawClient2 : GetRawClientFn)
    (request1 request2 : ReadResourceRequest) (tr1 tr2 : list Event)
    (resp1 resp2 : Response) (content : string) :
  fetchRawContent getClient1 getRawClient1 request1 = (tr1, Return (Some resp1, None)) →
  fetchRawContent getClient2 getRawClient2 request2 = (tr2, Return (Some resp2, None)) →
  StatusCode resp1 = 200 → StatusCode resp2 = 200 →
  RespBody resp1 = BodyOk content → RespBody resp2 = BodyOk content →
  URI request1 = URI request2 →
  requestPath request1 = requestPath request2 →
  Header_Get (Header resp1) "Content-Type" = Header_Get (Header resp2) "Content-Type" →
  outcome (RepositoryResourceContentsHandler getClient1 getRawClient1 request1)
  = outcome (RepositoryResourceContentsHandler getClient2 getRawClient2 request2).
Proof.
  intros Hfetch1 Hfetch2 Hstatus1 Hstatus2 Hbody1 Hbody2 Huri Hpath Hheader.
  rewrite (handler_after_fetch _ _ _ _ _ _ Hfetch1).
  rewrite (handler_after_fetch _ _ _ _ _ _ Hfetch2).
  rewrite (contentsFromResponse_ok _ _ _ _ Hstatus1 Hbody1).
  rewrite (contentsFromResponse_ok _ _ _ _ Hstatus2 Hbody2).
  simpl. congruence.
Qed.

(** The pull-request stage makes no call, or exactly the lookup. *)
Lemma pullRequestOpts_absent (getClient : GetClientFn) (owner repo : string)
    (request : ReadResourceRequest) (rawOpts : raw.RawContentOpts) :
  as_strings (Arguments request !! "prNumber") = None
  ∨ as_strings (Arguments request !! "prNumber") = Some [] →
  pullRequestOpts getClient owner repo request rawOpts = ([], Return rawOpts).
Proof. unfold pullRequestOpts. by intros [-> | ->]. Qed.

Lemma pullRequestOpts_found (client : Client) (owner repo : string)
    (request : ReadResourceRequest) (rawOpts : raw.RawContentOpts)
    (prNumber0 : string) (more : list string) (prNum : Z) (pr : PullRequest) :
  as_strings (Arguments request !! "prNumber") = Some (prNumber0 :: more) →
  strconv_Atoi prNumber0 = inr prNum →
  PullRequests_Get client owner repo prNum = inr pr →
  pullRequestOpts (inr client) owner repo request rawOpts
  = ([PullRequestsGet owner repo prNum],
     Return {| raw.Ref := raw.Ref rawOpts; raw.SHA := GetSHA (GetHead pr) |}).
Proof.
  intros Harg Hnum Hpr. unfold pullRequestOpts.
  rewrite Harg. simpl. rewrite Hnum. simpl. by rewrite Hpr.
Qed.

Lemma pullRequestOpts_trace (getClient : GetClientFn) (owner repo : string)
    (request : ReadResourceRequest) (rawOpts : raw.RawContentOpts) :
  Forall isLookup (trace (pullRequestOpts getClient owner repo request rawOpts)).
Proof.
  unfold pullRequestOpts.
  destruct (as_strings _) as [[|prNumber0 more]|]; [done| |done].
  destruct getClient as [err|client]; [done|]. simpl.
  destruct (strconv_Atoi prNumber0) as [err|prNum]; [done|]. simpl.
  assert (isLookup (PullRequestsGet owner repo prNum)) by (by eexists _, _, _).
  destruct (PullRequests_Get client owner repo prNum); simpl; by repeat constructor.
Qed.

Lemma pullRequestOpts_no_panic (getClient : GetClientFn) (owner repo : string)
    (request : ReadResourceRequest) (rawOpts : raw.RawContentOpts) :
  outcome (pullRequestOpts getClient owner repo request rawOpts) ≠ Panic.
Proof.
  unfold pullRequestOpts.
  destruct (as_strings _) as [[|prNumber0 more]|]; [done| |done].
  destruct getClient as [err|client]; [done|]. simpl.
  destruct (strconv_Atoi prNumber0) as [err|prNum]; [done|]. simpl.
  by destruct (PullRequests_Get client owner repo prNum).
Qed.

(** A fetched response comes from the one request sent, the last call of the
    run; only the pull-request lookup can precede it. *)
Lemma fetchRawContent_response (getClient : GetClientFn)
    (getRawClient : GetRawClientFn) (request : ReadResourceRequest)
    (tr : list Event) (resp : Response) (err : option string) :
  fetchRawContent getClient getRawClient request = (tr, Return (Some resp, err)) →
  ∃ (pre : list Event) (req : Request),
    tr = pre ++ [ClientDo req] ∧ Forall isLookup pre.
Proof.
  unfold fetchRawContent.
  destruct (as_strings (Arguments request !! "owner")) as [[|owner ?]|]; [done| |done].
  destruct (as_strings (Arguments request !! "repo")) as [[|repo ?]|]; [done| |done].
  pose proof (pullRequestOpts_trace getClient owner repo request (selectorOpts request))
    as Hpre.
  destruct (pullRequestOpts _ _ _ _ _) as [pre [rawOpts| |]]; [|done..].
  rewrite bind_return. simpl in Hpre.
  destruct (isDirectory _); [done|].
  destruct getRawClient as [?|rawClient]; [done|].
  rewrite wrap_ok, bind_return, GetRawContent_run. simpl.
  destruct (raw.newRequest _ _ _) as [?|req]; simpl; [done|].
  intros [= <- _]. by exists pre, req.
Qed.

(** C7.  After a raw-content fetch that yields a response: a status other than
    200 and 404 ends the call in an error, which carries the body text when
    the body can be read; a 404 ends it in the error [404 Not Found], which
    differs from every error of the first kind.  In both cases the trace of
    the call is that of the fetch, whose last event is the raw GET: nothing
    is requested after it. *)
Theorem handler_failure_status (getClient : GetClientFn)
    (getRawClient : GetRawClientFn) (request : ReadResourceRequest)
    (tr : list Event) (resp : Response) :
  fetchRawContent getClient getRawClient request = (tr, Return (Some resp, None)) →
  let run := RepositoryResourceContentsHandler getClient getRawClient request in
  (StatusCode resp ≠ 200 → StatusCode resp ≠ 404 →
     (∃ msg, run = (tr, Error msg))
     ∧ ∀ body, RespBody resp = BodyOk body →
         run = (tr, Error ("failed to fetch raw content: " +:+ body)))
  ∧ (StatusCode resp = 404 →
     run = (tr, Error "404 Not Found")
     ∧ ∀ body, "404 Not Found" ≠ "failed to fetch raw content: " +:+ body)
  ∧ ∃ (pre : list Event) (req : Request),
      trace run = pre ++ [ClientDo req] ∧ Forall isLookup pre.
Proof.
  intros Hfetch run. subst run.
  rewrite (handler_after_fetch _ _ _ _ _ _ Hfetch).
  unfold contentsFromResponse, http_StatusOK, http_StatusNotFound.
  split; [|split].
  - intros H200 H404.
    rewrite bool_decide_eq_false_2, bool_decide_eq_true_2 by done.
    split.
    + destruct (RespBody resp); simpl; eauto.
    + by intros body ->.
  - intros H404. rewrite H404. simpl. split; [done|]. by intros body.
  - by apply (fetchRawContent_response _ _ _ _ _ _ Hfetch).
Qed.

(** C6, as the code has it.  For a request with owner and repo whose path is
    empty or ends in a slash, the call ends in an error and never sends the
    raw GET.  Without [prNumber] it is rejected as a directory before any
    network call, whatever [sha], [branch] and [tag] hold.  With [prNumber]
    the pull-request lookup comes first, and the directory error follows a
    lookup that succeeds. *)
Theorem directory_rejected (getClient : GetClientFn) (getRawClient : GetRawClientFn)
    (request : ReadResourceRequest) (owner repo : string) (owners repos : list string) :
  as_strings (Arguments request !! "owner") = Some (owner :: owners) →
  as_strings (Arguments request !! "repo") = Some (repo :: repos) →
  requestPath request = EmptyString ∨ (∃ front, requestPath request = front +:+ "/") →
  let run := RepositoryResourceContentsHandler getClient getRawClient request in
  let rejection := Error ("directories are not supported: " +:+ requestPath request) in
  (∃ msg, outcome run = Error msg)
  ∧ Forall isLookup (trace run)
  ∧ (as_strings (Arguments request !! "prNumber") = None
     ∨ as_strings (Arguments request !! "prNumber") = Some [] →
     run = ([], rejection))
  ∧ (∀ (prNumber0 : string) (more : list string) (client : Client) (prNum : Z)
       (pr : PullRequest),
       as_strings (Arguments request !! "prNumber") = Some (prNumber0 :: more) →
       getClient = inr client →
       strconv_Atoi prNumber0 = inr prNum →
       PullRequests_Get client owner repo prNum = inr pr →
       run = ([PullRequestsGet owner repo prNum], rejection)).
Proof.
  intros Howner Hrepo Hdir%isDirectory_spec run rejection. subst run rejection.
  unfold RepositoryResourceContentsHandler, fetchRawContent.
  rewrite Howner, Hrepo, Hdir.
  pose proof (pullRequestOpts_trace getClient owner repo request (selectorOpts request))
    as Hpre.
  split; [|split; [|split]].
  - pose proof (pullRequestOpts_no_panic getClient owner repo request
                  (selectorOpts request)) as Hstage.
    destruct (pullRequestOpts _ _ _ _ _) as [pre [rawOpts| |]]; simpl; eauto.
    done.
  - destruct (pullRequestOpts _ _ _ _ _) as [pre [rawOpts| |]]; simpl in *;
      by rewrite ?app_nil_r.
  - intros Habsent. by rewrite (pullRequestOpts_absent _ _ _ _ _ Habsent).
  - intros prNumber0 more client prNum pr Harg -> Hnum Hpr.
    by rewrite (pullRequestOpts_found _ _ _ _ _ _ _ _ _ Harg Hnum Hpr).
Qed.

(** C8.  A request with [prNumber] and a file path, whose lookup succeeds and
    yields a pull request with head SHA [sha]: the lookup is made, the raw
    client is called with [sha] as its SHA selector, the URL it resolves is
    that of [base/owner/repo/<sha>/path], and the request built for this URL
    is the one sent. *)
Theorem pull_request_head_sha_selected (getClient : GetClientFn)
    (getRawClient : GetRawClientFn) (request : ReadResourceRequest)
    (owner repo : string) (owners repos : list string)
    (prNumber0 : string) (more : list string) (client : Client) (prNum : Z)
    (pr : PullRequest) (sha : string) (rawClient : raw.Client) :
  as_strings (Arguments request !! "owner") = Some (owner :: owners) →
  as_strings (Arguments request !! "repo") = Some (repo :: repos) →
  as_strings (Arguments request !! "prNumber") = Some (prNumber0 :: more) →
  isDirectory (requestPath request) = false →
  getClient = inr client →
  strconv_Atoi prNumber0 = inr prNum →
  PullRequests_Get client owner repo prNum = inr pr →
  GetSHA (GetHead pr) = sha →
  sha ≠ EmptyString →
  getRawClient = inr rawClient →
  let path := requestPath request in
  let rawOpts := {| raw.Ref := raw.Ref (selectorOpts request); raw.SHA := sha |} in
  let u := URL_String (JoinPath (raw.url rawClient) [owner; repo; sha; path]) in
  let fetched := raw.GetRawContent rawClient owner repo path (Some rawOpts) in
  fetchRawContent getClient getRawClient request
  = (PullRequestsGet owner repo prNum :: trace fetched, outcome fetched)
  ∧ raw.URLFromOpts rawClient (Some rawOpts) owner repo path = u
  ∧ ∀ req : Request,
      raw.newRequest rawClient "GET" u = inr req →
      trace (RepositoryResourceContentsHandler getClient getRawClient request)
      = [PullRequestsGet owner repo prNum; ClientDo req].
Proof.
  intros Howner Hrepo Harg Hfile -> Hnum Hpr Hsha Hset -> path rawOpts u fetched.
  assert (raw.URLFromOpts rawClient (Some rawOpts) owner repo path = u) as Hurl.
  { unfold raw.URLFromOpts, raw.commitURL. simpl.
    by rewrite bool_decide_eq_true_2. }
  assert (fetchRawContent (inr client) (inr rawClient) request
          = (PullRequestsGet owner repo prNum :: trace fetched, outcome fetched))
    as Hfetch.
  { unfold fetchRawContent. rewrite Howner, Hrepo.
    rewrite (pullRequestOpts_found _ _ _ _ _ _ _ _ _ Harg Hnum Hpr).
    rewrite bind_return. rewrite Hfile, Hsha. fold path rawOpts.
    by rewrite wrap_ok, bind_return. }
  split; [done|]. split; [done|].
  intros req Hreq.
  unfold RepositoryResourceContentsHandler. rewrite Hfetch.
  subst fetched. rewrite GetRawContent_run, Hurl, Hreq.
  cbn [trace outcome fst snd].
  destruct (raw.Do _ req) as [resp err].
  rewrite bind_return.
  by rewrite contentsFromResponse_trace.
Qed.

End resource_facts.

(** ** Toolset groups *)

Section toolsets_facts.
Import toolsets.

(** The policy is fixed when the group is made; registering toolsets keeps it. *)
Lemma AddToolset_readOnly (ts : Toolset) (tg tg' : ToolsetGroup) :
  AddToolset ts tg = inr tg' → readOnly tg' = readOnly tg.
Proof.
  unfold AddToolset. destruct (hasToolset (Name ts) tg); [done|].
  by intros [= <-].
Qed.

Lemma addToolsets_readOnly (sets : list Toolset) (tg tg' : ToolsetGroup) :
  github.addToolsets sets tg = inr tg' → readOnly tg' = readOnly tg.
Proof.
  unfold github.addToolsets. revert tg tg'.
  induction sets as [|ts sets IH] using rev_ind; intros tg tg'.
  { by intros [= <-]. }
  rewrite foldl_app. simpl.
  destruct (foldl _ _ sets) as [err|tg0] eqn:Hfold; [done|].
  intros Hadd. rewrite (AddToolset_readOnly _ _ _ Hadd). by apply IH.
Qed.

Lemma DefaultToolsetGroup_readOnly (policy : bool) (tg : ToolsetGroup) :
  github.DefaultToolsetGroup policy = inr tg → readOnly tg = policy.
Proof. unfold github.DefaultToolsetGroup. by intros ->%addToolsets_readOnly. Qed.

(** What [AddWriteTools] registers is what [writeTools] holds. *)
Lemma AddWriteTools_registers (tools : list ServerTool) (t : Toolset) :
  writeTools (AddWriteTools tools t) = writeTools t ++ tools
  ∧ readTools (AddWriteTools tools t) = readTools t.
Proof. done. Qed.

Lemma EnableToolset_readOnly (name : string) (tg tg' : ToolsetGroup) :
  EnableToolset name tg = inr tg' → readOnly tg' = readOnly tg.
Proof.
  unfold EnableToolset. destruct (hasToolset name tg); [|done].
  by intros [= <-].
Qed.

(** Enabling changes flags only: the registered tools stay where they are. *)
Ltac enable_keeps_tools :=
  unfold EnableToolset;
  match goal with
  | |- context [hasToolset ?name ?tg] => destruct (hasToolset name tg); [|done]
  end;
  intros [= <-]; simpl;
  match goal with
  | |- context [Toolsets ?tg] =>
      induction (Toolsets tg) as [|ts rest IH]; [done|]; csimpl;
      rewrite IH; by case_bool_decide
  end.

Lemma EnableToolset_readTools (name : string) (tg tg' : ToolsetGroup) :
  EnableToolset name tg = inr tg' →
  Toolsets tg' ≫= readTools = Toolsets tg ≫= readTools.
Proof. enable_keeps_tools. Qed.

Lemma EnableToolset_writeTools (name : string) (tg tg' : ToolsetGroup) :
  EnableToolset name tg = inr tg' →
  Toolsets tg' ≫= writeTools = Toolsets tg ≫= writeTools.
Proof. enable_keeps_tools. Qed.

Lemma EnableToolsets_invariant (names : list string) (tg : ToolsetGroup) :
  readOnly (EnableToolsets names tg) = readOnly tg
  ∧ Toolsets (EnableToolsets names tg) ≫= readTools = Toolsets tg ≫= readTools
  ∧ Toolsets (EnableToolsets names tg) ≫= writeTools = Toolsets tg ≫= writeTools.
Proof.
  revert tg. induction names as [|name names IH]; intros tg; [done|].
  unfold EnableToolsets in *. simpl.
  destruct (EnableToolset name tg) as [err|tg'] eqn:Hcall; [apply IH|].
  destruct (IH tg') as (-> & -> & ->).
  split_and!; eauto using EnableToolset_readOnly, EnableToolset_readTools,
    EnableToolset_writeTools.
Qed.

(** Under the read-only policy every exposed tool is a registered read tool
    or a discovery tool. *)
Lemma ExposedTools_readOnly (dynamic : list ServerTool) (tg : ToolsetGroup)
    (tool : ServerTool) :
  readOnly tg = true →
  tool ∈ ExposedTools dynamic tg →
  tool ∈ Toolsets tg ≫= readTools ∨ tool ∈ dynamic.
Proof.
  intros Hro. unfold ExposedTools. rewrite Hro.
  intros [Hin | Hin]%elem_of_app; [left|by right].
  apply list_elem_of_bind in Hin as (ts & Hin & Hts).
  apply list_elem_of_bind. exists ts. split; [|done].
  unfold activeTools in Hin.
  destruct (Enabled ts); [|by apply elem_of_nil in Hin].
  by rewrite app_nil_r in Hin.
Qed.

(** C1.  In a group whose [readOnly] flag is set and whose operation names
    are unique, no tool registered through [AddWriteTools] in any toolset is
    among the exposed tools, whatever the enabled flags are and whatever
    [EnableToolset] calls were made. *)
Theorem read_only_hides_write_tools (dynamic : list ServerTool) (tg : ToolsetGroup)
    (names : list string) (ts : Toolset) (tool : ServerTool) :
  readOnly tg = true →
  OperationNamesUnique dynamic tg →
  ts ∈ Toolsets tg →
  tool ∈ writeTools ts →
  tool ∉ ExposedTools dynamic (EnableToolsets names tg).
Proof.
  intros Hro Hunique Hts Htool Hexposed.
  destruct (EnableToolsets_invariant names tg) as (Hro' & Hreads & _).
  apply ExposedTools_readOnly in Hexposed; [|by rewrite Hro'].
  rewrite Hreads in Hexposed.
  assert (tool ∈ Toolsets tg ≫= writeTools) as Hwrite.
  { apply list_elem_of_bind. eauto. }
  apply NoDup_fmap_1 in Hunique. unfold registeredTools in Hunique.
  apply NoDup_app in Hunique as (_ & Hreads_apart & Hrest).
  apply NoDup_app in Hrest as (_ & Hwrites_apart & _).
  destruct Hexposed as [Hread | Hdynamic].
  - apply (Hreads_apart tool Hread). apply elem_of_app. by left.
  - by apply (Hwrites_apart tool Hwrite).
Qed.

End toolsets_facts.

(** ** get_job_logs *)

Section actions_facts.
Context `{GoLib}.
Variable http_Get : string → string + Response.
Import github.

Lemma downloadLogContent_no_panic (logURL : string) :
  outcome (downloadLogContent http_Get logURL) ≠ Panic.
Proof.
  unfold downloadLogContent. simpl.
  destruct (http_Get logURL) as [err|httpResp]; [done|]. simpl.
  case_bool_decide; [done|].
  by destruct (io_ReadAll (RespBody httpResp)).
Qed.

(** [getJobLogData] first asks for the job's log URL, and it ends with a
    result or with an error. *)
Lemma getJobLogData_run (client : Client) (owner repo : string) (jobID : Z)
    (jobName : string) (returnContent : bool) :
  let run := getJobLogData http_Get client owner repo jobID jobName returnContent in
  (∃ rest, trace run = GetWorkflowJobLogs owner repo jobID :: rest)
  ∧ outcome run ≠ Panic.
Proof.
  unfold getJobLogData. simpl.
  destruct (Actions_GetWorkflowJobLogs client owner repo jobID 1) as [err|url];
    simpl; [eauto|].
  destruct returnContent; simpl; [|eauto].
  pose proof (downloadLogContent_no_panic url) as Hdl.
  destruct (downloadLogContent http_Get url) as [tr [content|err|]]; simpl in *;
    [eauto..|done].
Qed.

(** The slot the loop records for a job: the result of [getJobLogData], or
    the error entry that stands in for it. *)
Lemma collectFailedJobLogs_slots (client : Client) (owner repo : string)
    (returnContent : bool) (failedJobs : list WorkflowJob) :
  ∃ (tr : list Event) (logResults : list (gmap string JSON)),
    collectFailedJobLogs http_Get client owner repo returnContent failedJobs
    = (tr, Return logResults)
    ∧ length logResults = length failedJobs
    ∧ (∀ job, job ∈ failedJobs → GetWorkflowJobLogs owner repo (GetID job) ∈ tr)
    ∧ ∀ (i : nat) (job : WorkflowJob),
        failedJobs !! i = Some job →
        let fetched :=
          outcome (getJobLogData http_Get client owner repo (GetID job) (GetName job)
                     returnContent) in
        (∀ err, fetched = Error err → logResults !! i = Some (jobErrorResult job err))
        ∧ (∀ jobResult, fetched = Return jobResult → logResults !! i = Some jobResult).
Proof.
  induction failedJobs as [|job rest IH].
  { exists [], []. split_and!; [done..| |]; intros *.
    - by intros ?%elem_of_nil.
    - by rewrite lookup_nil. }
  destruct IH as (tr & logResults & Hrest & Hlen & Hcalls & Hslots).
  destruct (getJobLogData_run client owner repo (GetID job) (GetName job) returnContent)
    as [[first Hfirst] Hnopanic].
  simpl. rewrite Hrest.
  destruct (getJobLogData http_Get client owner repo (GetID job) (GetName job)
              returnContent) as [tr0 [jobResult|err|]] eqn:Hjob;
    simpl in *; [| |done]; subst tr0.
  - eexists _, _. split; [reflexivity|]. split_and!.
    + simpl. by rewrite Hlen.
    + intros j [->|Hj]%elem_of_cons; [by left|].
      right. apply elem_of_app. right. rewrite app_nil_r. by apply Hcalls.
    + intros [|i] j Hi; simpl in *.
      * injection Hi as <-. rewrite Hjob. simpl. split; [done|]. by intros ? [= ->].
      * by apply Hslots.
  - eexists _, _. split; [reflexivity|]. split_and!.
    + simpl. by rewrite Hlen.
    + intros j [->|Hj]%elem_of_cons; [by left|].
      right. apply elem_of_app. right. rewrite app_nil_r. by apply Hcalls.
    + intros [|i] j Hi; simpl in *.
      * injection Hi as <-. rewrite Hjob. simpl. split; [|done]. by intros ? [= ->].
      * by apply Hslots.
Qed.

Lemma jobErrorResult_fields (job : WorkflowJob) (err : string) :
  jobErrorResult job err !! "job_id" = Some (JInt (GetID job))
  ∧ jobErrorResult job err !! "job_name" = Some (JString (GetName job))
  ∧ jobErrorResult job err !! "error" = Some (JString err).
Proof. unfold jobErrorResult. by split_and!; simplify_map_eq. Qed.

(** C9.  Once the jobs of the run are listed, [handleFailedJobLogs] asks for
    the logs of every failed job and answers with one slot per failed job, in
    order: the job's log data, or, when fetching it failed, an entry with the
    job's [job_id], its [job_name] and the [error].  A failure for one job
    leaves the slots of the others as they are. *)
Theorem failed_job_logs_partial_failure (client : Client) (owner repo : string)
    (runID : Z) (returnContent : bool) (jobs : Jobs) :
  Actions_ListWorkflowJobs client owner repo runID "latest" = inr jobs →
  let failedJobs := List.filter isFailedJob (JobList jobs) in
  let run := handleFailedJobLogs http_Get client owner repo runID returnContent in
  failedJobs ≠ [] →
  ∃ logResults : list (gmap string JSON),
    outcome run
    = outcome (marshalResponse
                 (failedJobLogsResult runID jobs failedJobs logResults returnContent))
    ∧ (∃ fields,
         failedJobLogsResult runID jobs failedJobs logResults returnContent
         = JObject fields
         ∧ fields !! "logs" = Some (JArray (JObject <$> logResults)))
    ∧ length logResults = length failedJobs
    ∧ (∀ job, job ∈ failedJobs → GetWorkflowJobLogs owner repo (GetID job) ∈ trace run)
    ∧ ∀ (i : nat) (job : WorkflowJob),
        failedJobs !! i = Some job →
        let fetched :=
          outcome (getJobLogData http_Get client owner repo (GetID job) (GetName job)
                     returnContent) in
        (∀ err, fetched = Error err →
           logResults !! i = Some (jobErrorResult job err)
           ∧ jobErrorResult job err !! "job_id" = Some (JInt (GetID job))
           ∧ jobErrorResult job err !! "job_name" = Some (JString (GetName job))
           ∧ jobErrorResult job err !! "error" = Some (JString err))
        ∧ (∀ jobResult, fetched = Return jobResult → logResults !! i = Some jobResult).
Proof.
  intros Hlist failedJobs run Hsome. subst run.
  destruct (collectFailedJobLogs_slots client owner repo returnContent failedJobs)
    as (tr & logResults & Hloop & Hlen & Hcalls & Hslots).
  exists logResults.
  unfold handleFailedJobLogs. rewrite Hlist. fold failedJobs.
  rewrite bool_decide_eq_false_2 by (by destruct failedJobs).
  rewrite Hloop. unfold emit. rewrite !bind_return. cbn [trace outcome fst snd].
  split_and!; [done| |done| |].
  - eexists. split; [reflexivity|]. by simplify_map_eq.
  - intros job Hjob. right. apply elem_of_app. left. by apply Hcalls.
  - intros i job Hi. destruct (Hslots i job Hi) as [Herr Hok].
    split; [|done]. intros err Hfetched.
    split; [by apply Herr|]. apply jobErrorResult_fields.
Qed.

(** C10, as the code has it.  For a call with owner and repo, whose optional
    arguments are absent or of their type, and once the GitHub client is
    obtained: with [failed_only] true and [run_id] absent or zero the handler
    answers with the tool error that [run_id] is required; with [failed_only]
    false or absent and [job_id] absent or zero it answers with the tool error
    that [job_id] is required.  Neither answer follows a network call. *)
Theorem get_job_logs_validation (getClient : GetClientFn) (request : CallToolRequest)
    (owner repo : string) (client : Client) (returnContent : bool) :
  RequiredParam_string request "owner" = inr owner →
  RequiredParam_string request "repo" = inr repo →
  OptionalParam_bool request "return_content" = inr returnContent →
  getClient = inr client →
  (ToolArguments request !! "failed_only" = Some (ABool true) →
   ToolArguments request !! "run_id" = None
   ∨ ToolArguments request !! "run_id" = Some (ANumber 0) →
   (∃ jobID, OptionalIntParam request "job_id" = inr jobID) →
   GetJobLogs http_Get getClient request
   = ([], Return (NewToolResultError "run_id is required when failed_only is true")))
  ∧ (ToolArguments request !! "failed_only" = None
     ∨ ToolArguments request !! "failed_only" = Some (ABool false) →
     ToolArguments request !! "job_id" = None
     ∨ ToolArguments request !! "job_id" = Some (ANumber 0) →
     (∃ runID, OptionalIntParam request "run_id" = inr runID) →
     GetJobLogs http_Get getClient request
     = ([], Return (NewToolResultError "job_id is required when failed_only is false"))).
Proof.
  intros Howner Hrepo Hcontent ->.
  split.
  - intros Hfailed Hrun [jobID HjobID].
    assert (OptionalIntParam request "run_id" = inr 0) as HrunID.
    { unfold OptionalIntParam. by destruct Hrun as [-> | ->]. }
    assert (OptionalParam_bool request "failed_only" = inr true) as HfailedOnly.
    { unfold OptionalParam_bool. by rewrite Hfailed. }
    unfold GetJobLogs.
    by rewrite Howner, Hrepo, HjobID, HrunID, HfailedOnly, Hcontent.
  - intros Hfailed Hjob [runID HrunID].
    assert (OptionalIntParam request "job_id" = inr 0) as HjobID.
    { unfold OptionalIntParam. by destruct Hjob as [-> | ->]. }
    assert (OptionalParam_bool request "failed_only" = inr false) as HfailedOnly.
    { unfold OptionalParam_bool. by destruct Hfailed as [-> | ->]. }
    unfold GetJobLogs.
    by rewrite Howner, Hrepo, HjobID, HrunID, HfailedOnly, Hcontent.
Qed.

End actions_facts.

(** ** The theorems on the stubs of the tests *)

Section on_fixtures.
Import toolsets reference github fixtures.

(** [TestUrlFromOpts], case by case. *)
Example TestUrlFromOpts_cases :
  raw.URLFromOpts rawClient None "octocat" "hello" "README.md"
  = "https://raw.example.com/octocat/hello/HEAD/README.md"
  ∧ raw.URLFromOpts rawClient
      (Some {| raw.Ref := "refs/heads/main"; raw.SHA := EmptyString |})
      "octocat" "hello" "README.md"
    = "https://raw.example.com/octocat/hello/refs/heads/main/README.md"
  ∧ raw.URLFromOpts rawClient
      (Some {| raw.Ref := "refs/tags/v1.0.0"; raw.SHA := EmptyString |})
      "octocat" "hello" "README.md"
    = "https://raw.example.com/octocat/hello/refs/tags/v1.0.0/README.md"
  ∧ raw.URLFromOpts rawClient
      (Some {| raw.Ref := EmptyString; raw.SHA := "abc123" |})
      "octocat" "hello" "README.md"
    = "https://raw.example.com/octocat/hello/abc123/README.md".
Proof. vm_compute. repeat split. Qed.

(** [Test_repositoryResourceContentsHandler]: the blob, the text and the
    failing fetch. *)
Example Test_repositoryResourceContentsHandler_cases :
  outcome (RepositoryResourceContentsHandler (inr restClient) (inr rawClient) pngRequest)
  = Return [BlobResourceContents EmptyString "image/png"
              "IyBUZXN0IFJlcG9zaXRvcnkKClRoaXMgaXMgYSB0ZXN0IHJlcG9zaXRvcnku"]
  ∧ outcome (RepositoryResourceContentsHandler (inr restClient) (inr rawClient)
               branchRequest)
    = Return [TextResourceContents EmptyString "text/markdown" testBody]
  ∧ outcome (RepositoryResourceContentsHandler (inr restClient) (inr rawClient)
               missingRequest)
    = Error "404 Not Found"
  ∧ outcome (RepositoryResourceContentsHandler (inr restClient) (inr rawClient)
               (resourceRequest []))
    = Error "owner is required"
  ∧ outcome (RepositoryResourceContentsHandler (inr restClient) (inr rawClient)
               (resourceRequest [("owner", ["owner"])]))
    = Error "repo is required".
Proof. vm_compute. repeat split. Qed.

(** The scenarios of the specification: no selector fetches from [HEAD]; text
    comes back as text, an image as a blob. *)
Example scenarios_HEAD :
  RepositoryResourceContentsHandler (inr restClient) (inr rawClient) readmeRequest
  = ([ClientDo {| Method := "GET";
                  ReqURL := "https://raw.example.com/owner/repo/HEAD/README.md" |}],
     Return [TextResourceContents EmptyString "text/markdown" testBody])
  ∧ trace (RepositoryResourceContentsHandler (inr restClient) (inr rawClient) pngRequest)
    = [ClientDo {| Method := "GET";
                   ReqURL := "https://raw.example.com/owner/repo/HEAD/data.png" |}].
Proof. vm_compute. repeat split. Qed.

(** [Test_GetJobLogs]: the two validation errors, a missing owner, and the
    run with two failed jobs. *)
Example Test_GetJobLogs_cases :
  outcome (GetJobLogs noDownload (inr restClient) bareRequest)
  = Return (NewToolResultError "job_id is required when failed_only is false")
  ∧ outcome (GetJobLogs noDownload (inr restClient) failedOnlyRequest)
    = Return (NewToolResultError "run_id is required when failed_only is true")
  ∧ outcome (GetJobLogs noDownload (inr restClient)
               (toolRequest [("repo", AString "repo"); ("job_id", ANumber 123)]))
    = Return (NewToolResultError "missing required parameter: owner")
  ∧ trace (GetJobLogs noDownload (inr restClient) failedJobsRequest)
    = [ListWorkflowJobs "owner" "repo" 456 "latest";
       GetWorkflowJobLogs "owner" "repo" 2;
       GetWorkflowJobLogs "owner" "repo" 3]
  ∧ (∃ text, outcome (GetJobLogs noDownload (inr restClient) failedJobsRequest)
             = Return (NewToolResultText text)).
Proof. vm_compute. repeat split. by eexists. Qed.

(** [DefaultToolsetGroup] registers its eleven toolsets, all disabled. *)
Example DefaultToolsetGroup_toolsets :
  toolsets.Name <$> Toolsets readOnlyGroup
  = ["context"; "repos"; "issues"; "users"; "pull_requests"; "projects"; "actions";
     "code_security"; "secret_protection"; "notifications"; "experiments"]
  ∧ toolsets.Enabled <$> Toolsets readOnlyGroup = replicate 11 false
  ∧ DefaultToolsetGroup true = inr readOnlyGroup.
Proof. vm_compute. repeat split. Qed.

(** Without the read-only policy an enabled toolset exposes its write tools. *)
Example writable_group_exposes_write_tools :
  toolsets.NewServerTool "CreateIssue"
  ∈ toolsets.ExposedTools dynamicTools (toolsets.EnableToolsets ["issues"] writableGroup).
Proof. apply (bool_decide_unpack _). vm_compute. exact I. Qed.

Lemma URLFromOpts_sha_wins_witness :
  "abc123" ≠ EmptyString
  ∧ "refs/heads/main" ≠ EmptyString
  ∧ raw.URLFromOpts rawClient
      (Some {| raw.Ref := "refs/heads/main"; raw.SHA := "abc123" |})
      "octocat" "hello" "README.md"
    = "https://raw.example.com/octocat/hello/abc123/README.md".
Proof.
  split; [discriminate|]. split; [discriminate|].
  apply (URLFromOpts_sha_wins rawClient "octocat" "hello" "README.md"
           "abc123" "refs/heads/main"); discriminate.
Defined.

Lemma URLFromOpts_default_HEAD_witness :
  raw.URLFromOpts rawClient None "octocat" "hello" "README.md"
  = "https://raw.example.com/octocat/hello/HEAD/README.md"
  ∧ raw.URLFromOpts rawClient
      (Some {| raw.Ref := EmptyString; raw.SHA := EmptyString |})
      "octocat" "hello" "README.md"
    = "https://raw.example.com/octocat/hello/HEAD/README.md".
Proof.
  split.
  - apply (URLFromOpts_default_HEAD rawClient None "octocat" "hello" "README.md").
    left. reflexivity.
  - apply (URLFromOpts_default_HEAD rawClient
             (Some {| raw.Ref := EmptyString; raw.SHA := EmptyString |})
             "octocat" "hello" "README.md").
    right. reflexivity.
Defined.

Lemma read_only_hides_write_tools_witness :
  readOnly readOnlyGroup = true
  ∧ OperationNamesUnique dynamicTools readOnlyGroup
  ∧ (∃ ts, ts ∈ Toolsets readOnlyGroup ∧ NewServerTool "PushFiles" ∈ writeTools ts)
  ∧ NewServerTool "PushFiles"
    ∉ ExposedTools dynamicTools (EnableToolsets ["repos"; "nope"; "actions"] readOnlyGroup).
Proof.
  assert (readOnly readOnlyGroup = true) as Hro by reflexivity.
  assert (OperationNamesUnique dynamicTools readOnlyGroup) as Hunique.
  { apply (bool_decide_unpack _). vm_compute. exact I. }
  assert (∃ ts, Toolsets readOnlyGroup !! 1%nat = Some ts
                ∧ NewServerTool "PushFiles" ∈ writeTools ts) as (ts & Hts & Htool).
  { eexists. split; [reflexivity|]. apply (bool_decide_unpack _). vm_compute. exact I. }
  apply list_elem_of_lookup_2 in Hts.
  split_and!; [done|done|by exists ts|].
  exact (read_only_hides_write_tools dynamicTools readOnlyGroup
           ["repos"; "nope"; "actions"] ts (NewServerTool "PushFiles")
           Hro Hunique Hts Htool).
Defined.

(** A [.md] path with a [text/plain] header yields [text/markdown]. *)
Lemma handler_mime_type_order_witness :
  ∃ r : ResourceContents,
    RepositoryResourceContentsHandler (inr restClient) (inr rawClient) notesRequest
    = ([ClientDo {| Method := "GET";
                    ReqURL := "https://raw.example.com/owner/repo/HEAD/notes.md" |}],
       Return [r])
    ∧ MIMEType r = "text/markdown".
Proof.
  apply (handler_mime_type_order (inr restClient) (inr rawClient) notesRequest _
           (respond 200 "text/plain" testBody) testBody); reflexivity.
Defined.

(** An [image/png] response yields a base64 blob. *)
Lemma handler_text_or_blob_witness :
  outcome (RepositoryResourceContentsHandler (inr restClient) (inr rawClient) pngRequest)
  = Return [BlobResourceContents EmptyString "image/png"
              (base64_EncodeToString testBody)].
Proof.
  apply (handler_text_or_blob (inr restClient) (inr rawClient) pngRequest
           [ClientDo {| Method := "GET";
                        ReqURL := "https://raw.example.com/owner/repo/HEAD/data.png" |}]
           (respond 200 "image/png" testBody) testBody); reflexivity.
Defined.

(** C6 fails as stated: with [prNumber] the pull-request lookup is a network
    call made before the directory is rejected, and without a client the
    request is rejected for another reason. *)
Lemma directory_check_follows_lookup :
  requestPath prDirectoryRequest = EmptyString
  ∧ RepositoryResourceContentsHandler (inr restClient) (inr rawClient) prDirectoryRequest
    = ([PullRequestsGet "owner" "repo" 42],
       Error "directories are not supported: ")
  ∧ RepositoryResourceContentsHandler (inl "no token") (inr rawClient) prDirectoryRequest
    = ([], Error "failed to get GitHub client: no token").
Proof. vm_compute. repeat split. Qed.

Lemma directory_rejected_witness :
  requestPath directoryRequest = "docs" +:+ "/"
  ∧ RepositoryResourceContentsHandler (inr restClient) (inr rawClient) directoryRequest
    = ([], Error "directories are not supported: docs/")
  ∧ requestPath prDirectoryRequest = EmptyString
  ∧ RepositoryResourceContentsHandler (inr restClient) (inr rawClient) prDirectoryRequest
    = ([PullRequestsGet "owner" "repo" 42], Error "directories are not supported: ").
Proof.
  split; [reflexivity|]. split.
  - apply (directory_rejected (inr restClient) (inr rawClient) directoryRequest
             "owner" "repo" [] []); try reflexivity.
    + right. exists "docs". reflexivity.
    + left. reflexivity.
  - split; [reflexivity|].
    eapply (directory_rejected (inr restClient) (inr rawClient) prDirectoryRequest
              "owner" "repo" [] []); try reflexivity.
    left. reflexivity.
Defined.

(** A 500 response and a 404 response. *)
Lemma handler_failure_status_witness :
  RepositoryResourceContentsHandler (inr restClient) (inr rawClient) brokenRequest
  = ([ClientDo {| Method := "GET";
                  ReqURL := "https://raw.example.com/owner/repo/HEAD/broken.txt" |}],
     Error "failed to fetch raw content: upstream failure")
  ∧ RepositoryResourceContentsHandler (inr restClient) (inr rawClient) missingRequest
    = ([ClientDo {| Method := "GET";
                    ReqURL := "https://raw.example.com/owner/repo/refs/heads/main/nonexistent.md" |}],
       Error "404 Not Found").
Proof.
  split.
  - apply (handler_failure_status (inr restClient) (inr rawClient) brokenRequest _
             (respond 500 "text/plain" "upstream failure"));
      [reflexivity|discriminate|discriminate|reflexivity].
  - apply (handler_failure_status (inr restClient) (inr rawClient) missingRequest _
             notFound); reflexivity.
Defined.

(** Pull request 42 with head [abc123]. *)
Lemma pull_request_head_sha_selected_witness :
  raw.URLFromOpts rawClient (Some {| raw.Ref := EmptyString; raw.SHA := "abc123" |})
    "owner" "repo" "README.md"
  = "https://raw.example.com/owner/repo/abc123/README.md"
  ∧ trace (RepositoryResourceContentsHandler (inr restClient) (inr rawClient) prRequest)
    = [PullRequestsGet "owner" "repo" 42;
       ClientDo {| Method := "GET";
                   ReqURL := "https://raw.example.com/owner/repo/abc123/README.md" |}].
Proof.
  pose proof (pull_request_head_sha_selected (inr restClient) (inr rawClient) prRequest
                "owner" "repo" [] [] "42" [] restClient 42
                {| Head := Some {| BranchSHA := Some "abc123" |} |} "abc123" rawClient
                eq_refl eq_refl eq_refl eq_refl eq_refl eq_refl eq_refl eq_refl
                ltac:(discriminate) eq_refl) as (_ & Hurl & Hsent).
  split; [exact Hurl|].
  exact (Hsent _ eq_refl).
Defined.

(** Run 456: the log of job 2 is found, that of job 3 is not. *)
Lemma job2_logs_found :
  outcome (getJobLogData noDownload restClient "owner" "repo" 2 "test-job-2" false)
  = Return
      (<["note" := JString "The logs_url provides a download link for the individual job logs in plain text format. Use return_content=true to get the actual log content."]>
         (<["message" := JString "Job logs are available for download"]>
            (<["logs_url" := JString "https://github.com/logs/job/2"]>
               (<["job_name" := JString "test-job-2"]> {[ "job_id" := JInt 2 ]})))).
Proof. vm_compute. repeat split. Qed.

Lemma job3_logs_missing :
  outcome (getJobLogData noDownload restClient "owner" "repo" 3 "test-job-3" false)
  = Error "failed to get job logs for job 3: 404 Not Found".
Proof. vm_compute. repeat split. Qed.

Lemma failed_job_logs_partial_failure_witness :
  ∃ logResults : list (gmap string JSON),
    outcome (handleFailedJobLogs noDownload restClient "owner" "repo" 456 false)
    = outcome (marshalResponse
                 (failedJobLogsResult 456
                    {| TotalCount := Some 3;
                       JobList := [ job 1 "test-job-1" "success";
                                    job 2 "test-job-2" "failure";
                                    job 3 "test-job-3" "failure" ] |}
                    [ job 2 "test-job-2" "failure"; job 3 "test-job-3" "failure" ]
                    logResults false))
    ∧ length logResults = 2%nat
    ∧ logResults !! 1%nat
      = Some (jobErrorResult (job 3 "test-job-3" "failure")
                "failed to get job logs for job 3: 404 Not Found")
    ∧ (∃ jobResult, logResults !! 0%nat = Some jobResult
                    ∧ jobResult !! "logs_url"
                      = Some (JString "https://github.com/logs/job/2")).
Proof.
  destruct (failed_job_logs_partial_failure noDownload restClient "owner" "repo" 456
              false _ eq_refl ltac:(discriminate))
    as (logResults & Hout & _ & Hlen & _ & Hslots).
  exists logResults. split; [exact Hout|]. split; [exact Hlen|]. split.
  - exact (proj1 (proj1 (Hslots 1%nat (job 3 "test-job-3" "failure") eq_refl)
                    _ job3_logs_missing)).
  - eexists. split.
    + exact (proj2 (Hslots 0%nat (job 2 "test-job-2" "failure") eq_refl)
               _ job2_logs_found).
    + vm_compute. reflexivity.
Defined.

(** C10 fails as stated: the client is asked for before the arguments are
    validated, and a call whose client cannot be obtained ends in that
    failure, not in the validation error. *)
Lemma validation_follows_client :
  RequiredParam_string failedOnlyRequest "owner" = inr "owner"
  ∧ RequiredParam_string failedOnlyRequest "repo" = inr "repo"
  ∧ ToolArguments failedOnlyRequest !! "failed_only" = Some (ABool true)
  ∧ ToolArguments failedOnlyRequest !! "run_id" = None
  ∧ GetJobLogs noDownload (inl "no token") failedOnlyRequest
    = ([], Error "failed to get GitHub client: no token").
Proof. vm_compute. repeat split. Qed.

Lemma get_job_logs_validation_witness :
  GetJobLogs noDownload (inr restClient) failedOnlyRequest
  = ([], Return (NewToolResultError "run_id is required when failed_only is true"))
  ∧ GetJobLogs noDownload (inr restClient) bareRequest
    = ([], Return (NewToolResultError "job_id is required when failed_only is false")).
Proof.
  split.
  - apply (get_job_logs_validation noDownload (inr restClient) failedOnlyRequest
             "owner" "repo" restClient false); try reflexivity.
    + left. reflexivity.
    + exists 0. reflexivity.
  - apply (get_job_logs_validation noDownload (inr restClient) bareRequest
             "owner" "repo" restClient false); try reflexivity.
    + left. reflexivity.
    + left. reflexivity.
    + exists 0. reflexivity.
Defined.

End on_fixtures.

(** * Further properties of the code *)

(** ** Package raw and the resource handler *)

Section resource_more.
Context `{NetURL} `{GoLib}.
Import github.

(** X1.  With no SHA and a ref, [URLFromOpts] returns the URL of
    [base/owner/repo/<ref>/path]. *)
Theorem URLFromOpts_ref_only (c : raw.Client) (owner repo path ref : string) :
  ref ≠ EmptyString →
  raw.URLFromOpts c (Some {| raw.Ref := ref; raw.SHA := EmptyString |}) owner repo path
  = URL_String (JoinPath (raw.url c) [owner; repo; ref; path]).
Proof.
  intros Href. unfold raw.URLFromOpts, raw.refURL. simpl.
  by rewrite bool_decide_eq_false_2.
Qed.

(** X2.  A request whose [owner] argument is missing, empty or not a list of
    strings is refused with [owner is required]; with an owner, the same holds
    for [repo].  Nothing is looked up or fetched, whatever else the request
    holds. *)
Theorem owner_and_repo_required (getClient : GetClientFn)
    (getRawClient : GetRawClientFn) (request : ReadResourceRequest) :
  (as_strings (Arguments request !! "owner") = None
   ∨ as_strings (Arguments request !! "owner") = Some [] →
   RepositoryResourceContentsHandler getClient getRawClient request
   = ([], Error "owner is required"))
  ∧ (∀ (owner : string) (owners : list string),
       as_strings (Arguments request !! "owner") = Some (owner :: owners) →
       as_strings (Arguments request !! "repo") = None
       ∨ as_strings (Arguments request !! "repo") = Some [] →
       RepositoryResourceContentsHandler getClient getRawClient request
       = ([], Error "repo is required")).
Proof.
  unfold RepositoryResourceContentsHandler, fetchRawContent. split.
  - by intros [-> | ->].
  - intros owner owners -> [-> | ->]; done.
Qed.

(** The selectors, one by one. *)
Lemma selectorOpts_SHA (request : ReadResourceRequest) :
  raw.SHA (selectorOpts request)
  = match as_strings (Arguments request !! "sha") with
    | Some (sha0 :: _) => sha0
    | _ => EmptyString
    end.
Proof.
  unfold selectorOpts.
  destruct (as_strings (Arguments request !! "sha")) as [[|? ?]|];
    destruct (as_strings (Arguments request !! "branch")) as [[|? ?]|];
    by destruct (as_strings (Arguments request !! "tag")) as [[|? ?]|].
Qed.

Lemma selectorOpts_Ref (request : ReadResourceRequest) :
  raw.Ref (selectorOpts request)
  = match as_strings (Arguments request !! "tag") with
    | Some (tag0 :: _) => "refs/tags/" +:+ tag0
    | _ => match as_strings (Arguments request !! "branch") with
           | Some (branch0 :: _) => "refs/heads/" +:+ branch0
           | _ => EmptyString
           end
    end.
Proof.
  unfold selectorOpts.
  destruct (as_strings (Arguments request !! "sha")) as [[|? ?]|];
    destruct (as_strings (Arguments request !! "branch")) as [[|? ?]|];
    by destruct (as_strings (Arguments request !! "tag")) as [[|? ?]|].
Qed.

(** Without [prNumber] and with a file path, the handler hands the selectors
    to the raw client as they are. *)
Lemma fetchRawContent_selectors (getClient : GetClientFn) (rawClient : raw.Client)
    (request : ReadResourceRequest) (owner repo : string) (owners repos : list string) :
  as_strings (Arguments request !! "owner") = Some (owner :: owners) →
  as_strings (Arguments request !! "repo") = Some (repo :: repos) →
  as_strings (Arguments request !! "prNumber") = None
  ∨ as_strings (Arguments request !! "prNumber") = Some [] →
  isDirectory (requestPath request) = false →
  fetchRawContent getClient (inr rawClient) request
  = raw.GetRawContent rawClient owner repo (requestPath request)
      (Some (selectorOpts request)).
Proof.
  intros Howner Hrepo Hpr Hfile. unfold fetchRawContent.
  rewrite Howner, Hrepo, (pullRequestOpts_absent _ _ _ _ _ Hpr), bind_return, Hfile.
  rewrite wrap_ok, bind_return. simpl.
  by destruct (raw.GetRawContent _ _ _ _ _).
Qed.

(** When the request is built, the handler's calls are the one GET. *)
Lemma handler_trace_of_fetch (getClient : GetClientFn) (getRawClient : GetRawClientFn)
    (request : ReadResourceRequest) (c : raw.Client) (owner repo path : string)
    (opts : raw.RawContentOpts) (pre : list Event) (req : Request) :
  fetchRawContent getClient getRawClient request
  = (pre ++ trace (raw.GetRawContent c owner repo path (Some opts)),
     outcome (raw.GetRawContent c owner repo path (Some opts))) →
  raw.newRequest c "GET" (raw.URLFromOpts c (Some opts) owner repo path) = inr req →
  trace (RepositoryResourceContentsHandler getClient getRawClient request)
  = pre ++ [ClientDo req].
Proof.
  intros Hfetch Hreq. unfold RepositoryResourceContentsHandler.
  rewrite Hfetch, GetRawContent_run, Hreq. cbn [trace outcome fst snd].
  destruct (raw.Do _ req) as [resp err].
  by rewrite bind_return, contentsFromResponse_trace, app_nil_r.
Qed.

(** X3.  A request with a [sha] and no [prNumber] fetches
    [base/owner/repo/<sha>/path], whatever [branch] and [tag] it also holds. *)
Theorem handler_sha_over_refs (getClient : GetClientFn) (rawClient : raw.Client)
    (request : ReadResourceRequest) (owner repo : string) (owners repos : list string)
    (sha0 : string) (shas : list string) :
  as_strings (Arguments request !! "owner") = Some (owner :: owners) →
  as_strings (Arguments request !! "repo") = Some (repo :: repos) →
  as_strings (Arguments request !! "prNumber") = None
  ∨ as_strings (Arguments request !! "prNumber") = Some [] →
  isDirectory (requestPath request) = false →
  as_strings (Arguments request !! "sha") = Some (sha0 :: shas) →
  sha0 ≠ EmptyString →
  let path := requestPath request in
  let u := URL_String (JoinPath (raw.url rawClient) [owner; repo; sha0; path]) in
  raw.URLFromOpts rawClient (Some (selectorOpts request)) owner repo path = u
  ∧ ∀ req : Request,
      raw.newRequest rawClient "GET" u = inr req →
      trace (RepositoryResourceContentsHandler getClient (inr rawClient) request)
      = [ClientDo req].
Proof.
  intros Howner Hrepo Hpr Hfile Hsha Hset path u.
  assert (raw.URLFromOpts rawClient (Some (selectorOpts request)) owner repo path = u)
    as Hurl.
  { unfold raw.URLFromOpts, raw.commitURL. simpl.
    rewrite selectorOpts_SHA, Hsha. by rewrite bool_decide_eq_true_2. }
  split; [done|]. intros req Hreq.
  apply (handler_trace_of_fetch _ _ _ rawClient owner repo path (selectorOpts request) []).
  - rewrite (fetchRawContent_selectors _ _ _ _ _ _ _ Howner Hrepo Hpr Hfile).
    by destruct (raw.GetRawContent _ _ _ _ _).
  - by rewrite Hurl.
Qed.

(** X4.  Without [sha] and [prNumber], a [tag] decides the ref: the request
    fetches [base/owner/repo/refs/tags/<tag>/path], whatever [branch] holds. *)
Theorem handler_tag_over_branch (getClient : GetClientFn) (rawClient : raw.Client)
    (request : ReadResourceRequest) (owner repo : string) (owners repos : list string)
    (tag0 : string) (tags : list string) :
  as_strings (Arguments request !! "owner") = Some (owner :: owners) →
  as_strings (Arguments request !! "repo") = Some (repo :: repos) →
  as_strings (Arguments request !! "prNumber") = None
  ∨ as_strings (Arguments request !! "prNumber") = Some [] →
  isDirectory (requestPath request) = false →
  as_strings (Arguments request !! "sha") = None
  ∨ as_strings (Arguments request !! "sha") = Some [] →
  as_strings (Arguments request !! "tag") = Some (tag0 :: tags) →
  let path := requestPath request in
  let u := URL_String (JoinPath (raw.url rawClient)
                         [owner; repo; "refs/tags/" +:+ tag0; path]) in
  raw.URLFromOpts rawClient (Some (selectorOpts request)) owner repo path = u
  ∧ ∀ req : Request,
      raw.newRequest rawClient "GET" u = inr req →
      trace (RepositoryResourceContentsHandler getClient (inr rawClient) request)
      = [ClientDo req].
Proof.
  intros Howner Hrepo Hpr Hfile Hsha Htag path u.
  assert (raw.URLFromOpts rawClient (Some (selectorOpts request)) owner repo path = u)
    as Hurl.
  { unfold raw.URLFromOpts, raw.refURL. simpl.
    rewrite selectorOpts_SHA, selectorOpts_Ref, Htag.
    destruct Hsha as [-> | ->]; by rewrite bool_decide_eq_false_2 by (by intros ?). }
  split; [done|]. intros req Hreq.
  apply (handler_trace_of_fetch _ _ _ rawClient owner repo path (selectorOpts request) []).
  - rewrite (fetchRawContent_selectors _ _ _ _ _ _ _ Howner Hrepo Hpr Hfile).
    by destruct (raw.GetRawContent _ _ _ _ _).
  - by rewrite Hurl.
Qed.

(** X5.  Without [sha], [tag] and [prNumber]: a [branch] makes the request
    fetch [base/owner/repo/refs/heads/<branch>/path], and a request with no
    selector at all fetches [base/owner/repo/HEAD/path]. *)
Theorem handler_branch_or_HEAD (getClient : GetClientFn) (rawClient : raw.Client)
    (request : ReadResourceRequest) (owner repo : string) (owners repos : list string) :
  as_strings (Arguments request !! "owner") = Some (owner :: owners) →
  as_strings (Arguments request !! "repo") = Some (repo :: repos) →
  as_strings (Arguments request !! "prNumber") = None
  ∨ as_strings (Arguments request !! "prNumber") = Some [] →
  isDirectory (requestPath request) = false →
  as_strings (Arguments request !! "sha") = None
  ∨ as_strings (Arguments request !! "sha") = Some [] →
  as_strings (Arguments request !! "tag") = None
  ∨ as_strings (Arguments request !! "tag") = Some [] →
  let path := requestPath request in
  let sent (segment : string) :=
    ∀ req : Request,
      raw.newRequest rawClient "GET"
        (URL_String (JoinPath (raw.url rawClient) [owner; repo; segment; path]))
      = inr req →
      trace (RepositoryResourceContentsHandler getClient (inr rawClient) request)
      = [ClientDo req] in
  (∀ (branch0 : string) (branches : list string),
     as_strings (Arguments request !! "branch") = Some (branch0 :: branches) →
     sent ("refs/heads/" +:+ branch0))
  ∧ (as_strings (Arguments request !! "branch") = None
     ∨ as_strings (Arguments request !! "branch") = Some [] →
     sent "HEAD").
Proof.
  intros Howner Hrepo Hpr Hfile Hsha Htag path sent.
  assert (∀ segment,
            raw.URLFromOpts rawClient (Some (selectorOpts request)) owner repo path
            = URL_String (JoinPath (raw.url rawClient) [owner; repo; segment; path]) →
            sent segment) as Hsent.
  { intros segment Hurl req Hreq.
    apply (handler_trace_of_fetch _ _ _ rawClient owner repo path (selectorOpts request) []).
    - rewrite (fetchRawContent_selectors _ _ _ _ _ _ _ Howner Hrepo Hpr Hfile).
      by destruct (raw.GetRawContent _ _ _ _ _).
    - by rewrite Hurl. }
  assert (raw.SHA (selectorOpts request) = EmptyString) as Hnosha.
  { rewrite selectorOpts_SHA. by destruct Hsha as [-> | ->]. }
  split.
  - intros branch0 branches Hbranch. apply Hsent.
    unfold raw.URLFromOpts, raw.refURL. simpl.
    rewrite Hnosha, selectorOpts_Ref, Hbranch.
    destruct Htag as [-> | ->]; by rewrite bool_decide_eq_false_2 by (by intros ?).
  - intros Hbranch. apply Hsent.
    unfold raw.URLFromOpts, raw.refURL. simpl.
    rewrite Hnosha, selectorOpts_Ref.
    by destruct Htag as [-> | ->], Hbranch as [-> | ->].
Qed.

(** X6.  A request with [prNumber] whose pull request cannot be resolved ends
    in an error and fetches nothing, directory path or not: without a client
    and with a number that does not parse no call is made at all; a failed
    lookup is the only call of the run. *)
Theorem pull_request_stage_failures (getClient : GetClientFn)
    (getRawClient : GetRawClientFn) (request : ReadResourceRequest)
    (owner repo : string) (owners repos : list string)
    (prNumber0 : string) (more : list string) :
  as_strings (Arguments request !! "owner") = Some (owner :: owners) →
  as_strings (Arguments request !! "repo") = Some (repo :: repos) →
  as_strings (Arguments request !! "prNumber") = Some (prNumber0 :: more) →
  let run := RepositoryResourceContentsHandler getClient getRawClient request in
  (∀ err, getClient = inl err →
     run = ([], Error ("failed to get GitHub client: " +:+ err)))
  ∧ (∀ client err,
       getClient = inr client →
       strconv_Atoi prNumber0 = inl err →
       run = ([], Error ("invalid pull request number: " +:+ err)))
  ∧ (∀ client prNum err,
       getClient = inr client →
       strconv_Atoi prNumber0 = inr prNum →
       PullRequests_Get client owner repo prNum = inl err →
       run = ([PullRequestsGet owner repo prNum],
              Error ("failed to get pull request: " +:+ err))).
Proof.
  intros Howner Hrepo Hpr run. subst run.
  unfold RepositoryResourceContentsHandler, fetchRawContent, pullRequestOpts.
  rewrite Howner, Hrepo, Hpr. split_and!.
  - by intros err ->.
  - intros client err -> Hnum. simpl. by rewrite Hnum.
  - intros client prNum err -> Hnum Hget. simpl. rewrite Hnum. simpl. by rewrite Hget.
Qed.

(** X7.  When the pull request carries no head SHA, the SHA selector is
    cleared, a [sha] argument included: the fetch falls back to the ref of
    [branch] or [tag], or to [HEAD]. *)
Theorem pull_request_without_head (client : Client) (rawClient : raw.Client)
    (request : ReadResourceRequest) (owner repo : string) (owners repos : list string)
    (prNumber0 : string) (more : list string) (prNum : Z) (pr : PullRequest) :
  as_strings (Arguments request !! "owner") = Some (owner :: owners) →
  as_strings (Arguments request !! "repo") = Some (repo :: repos) →
  as_strings (Arguments request !! "prNumber") = Some (prNumber0 :: more) →
  isDirectory (requestPath request) = false →
  strconv_Atoi prNumber0 = inr prNum →
  PullRequests_Get client owner repo prNum = inr pr →
  GetSHA (GetHead pr) = EmptyString →
  let path := requestPath request in
  let u := raw.refURL rawClient owner repo (raw.Ref (selectorOpts request)) path in
  ∀ req : Request,
    raw.newRequest rawClient "GET" u = inr req →
    trace (RepositoryResourceContentsHandler (inr client) (inr rawClient) request)
    = [PullRequestsGet owner repo prNum; ClientDo req].
Proof.
  intros Howner Hrepo Harg Hfile Hnum Hget Hnohead path u req Hreq.
  apply (handler_trace_of_fetch _ _ _ rawClient owner repo path
           {| raw.Ref := raw.Ref (selectorOpts request); raw.SHA := EmptyString |}
           [PullRequestsGet owner repo prNum]).
  - unfold fetchRawContent. rewrite Howner, Hrepo.
    rewrite (pullRequestOpts_found _ _ _ _ _ _ _ _ _ Harg Hnum Hget).
    rewrite bind_return, Hfile, Hnohead. fold path.
    by rewrite wrap_ok, bind_return.
  - done.
Qed.

(** X8.  When the raw client cannot be obtained the call ends in that error
    and nothing is fetched. *)
Theorem raw_client_unavailable (getClient : GetClientFn)
    (request : ReadResourceRequest) (owner repo : string) (owners repos : list string)
    (err : string) :
  as_strings (Arguments request !! "owner") = Some (owner :: owners) →
  as_strings (Arguments request !! "repo") = Some (repo :: repos) →
  as_strings (Arguments request !! "prNumber") = None
  ∨ as_strings (Arguments request !! "prNumber") = Some [] →
  isDirectory (requestPath request) = false →
  RepositoryResourceContentsHandler getClient (inl err) request
  = ([], Error ("failed to get GitHub raw content client: " +:+ err)).
Proof.
  intros Howner Hrepo Hpr Hfile.
  unfold RepositoryResourceContentsHandler, fetchRawContent.
  rewrite Howner, Hrepo, (pullRequestOpts_absent _ _ _ _ _ Hpr), bind_return, Hfile.
  done.
Qed.

(** X9.  The handler defers [resp.Body.Close()] before it looks at the error.
    When the request cannot be built, or when sending it yields no response,
    the call panics instead of returning the error. *)
Theorem missing_response_panics (getClient : GetClientFn) (rawClient : raw.Client)
    (request : ReadResourceRequest) (owner repo : string) (owners repos : list string) :
  as_strings (Arguments request !! "owner") = Some (owner :: owners) →
  as_strings (Arguments request !! "repo") = Some (repo :: repos) →
  as_strings (Arguments request !! "prNumber") = None
  ∨ as_strings (Arguments request !! "prNumber") = Some [] →
  isDirectory (requestPath request) = false →
  let u := raw.URLFromOpts rawClient (Some (selectorOpts request)) owner repo
             (requestPath request) in
  let run := RepositoryResourceContentsHandler getClient (inr rawClient) request in
  (∀ err, raw.newRequest rawClient "GET" u = inl err → run = ([], Panic))
  ∧ (∀ req err,
       raw.newRequest rawClient "GET" u = inr req →
       raw.Do (raw.client rawClient) req = (None, err) →
       run = ([ClientDo req], Panic)).
Proof.
  intros Howner Hrepo Hpr Hfile u run. subst run.
  unfold RepositoryResourceContentsHandler.
  rewrite (fetchRawContent_selectors _ _ _ _ _ _ _ Howner Hrepo Hpr Hfile).
  rewrite GetRawContent_run. fold u. split.
  - by intros err ->.
  - intros req err -> Hdo. by rewrite Hdo.
Qed.

(** X10.  An error that comes with a response is reported whatever the status
    of that response, 200 included. *)
Theorem transport_error_over_status (getClient : GetClientFn)
    (getRawClient : GetRawClientFn) (request : ReadResourceRequest)
    (tr : list Event) (resp : Response) (err : string) :
  fetchRawContent getClient getRawClient request = (tr, Return (Some resp, Some err)) →
  RepositoryResourceContentsHandler getClient getRawClient request
  = (tr, Error ("failed to get raw content: " +:+ err)).
Proof. intros Hfetch. by rewrite (handler_after_fetch _ _ _ _ _ _ Hfetch). Qed.

(** X11.  A body that cannot be read: for a 200 response the call ends in
    [failed to read file content], for a status other than 200 and 404 in
    [failed to read response body]; for a 404 the body is not read and the
    error is [404 Not Found]. *)
Theorem unreadable_body (getClient : GetClientFn)
    (getRawClient : GetRawClientFn) (request : ReadResourceRequest)
    (tr : list Event) (resp : Response) (err : string) :
  fetchRawContent getClient getRawClient request = (tr, Return (Some resp, None)) →
  RespBody resp = BodyErr err →
  let run := RepositoryResourceContentsHandler getClient getRawClient request in
  (StatusCode resp = 200 →
   run = (tr, Error ("failed to read file content: " +:+ err)))
  ∧ (StatusCode resp ≠ 200 → StatusCode resp ≠ 404 →
     run = (tr, Error ("failed to read response body: " +:+ err)))
  ∧ (StatusCode resp = 404 → run = (tr, Error "404 Not Found")).
Proof.
  intros Hfetch Hbody run. subst run.
  rewrite (handler_after_fetch _ _ _ _ _ _ Hfetch).
  unfold contentsFromResponse, http_StatusOK, http_StatusNotFound.
  rewrite Hbody. split_and!.
  - intros ->. done.
  - intros H200 H404.
    by rewrite bool_decide_eq_false_2, bool_decide_eq_true_2 by done.
  - intros ->. done.
Qed.

(** The handler ends as its fetch ends, or as the [switch] decides. *)
Lemma handler_by_fetch (getClient : GetClientFn) (getRawClient : GetRawClientFn)
    (request : ReadResourceRequest) :
  RepositoryResourceContentsHandler getClient getRawClient request
  = (trace (fetchRawContent getClient getRawClient request),
     match outcome (fetchRawContent getClient getRawClient request) with
     | Return (resp, err) =>
         outcome (contentsFromResponse request (requestPath request) resp err)
     | Error msg => Error msg
     | Panic => Panic
     end).
Proof.
  unfold RepositoryResourceContentsHandler.
  destruct (fetchRawContent _ _ _) as [tr [[resp err]| |]]; [|done..].
  rewrite bind_return. cbn [trace outcome fst snd].
  by rewrite contentsFromResponse_trace, app_nil_r.
Qed.

Lemma pullRequestOpts_calls (getClient : GetClientFn) (owner repo : string)
    (request : ReadResourceRequest) (rawOpts : raw.RawContentOpts) :
  trace (pullRequestOpts getClient owner repo request rawOpts) = []
  ∨ ∃ prNum, trace (pullRequestOpts getClient owner repo request rawOpts)
             = [PullRequestsGet owner repo prNum].
Proof.
  unfold pullRequestOpts.
  destruct (as_strings _) as [[|prNumber0 more]|]; [by left| |by left].
  destruct getClient as [err|client]; [by left|]. simpl.
  destruct (strconv_Atoi prNumber0) as [err|prNum]; [by left|]. simpl.
  right. exists prNum.
  by destruct (PullRequests_Get client owner repo prNum).
Qed.

(** X12.  Whatever the request and whatever the clients answer, a call makes
    at most one pull-request lookup and, after it, at most one GET through the
    raw client, and nothing else. *)
Theorem handler_calls (getClient : GetClientFn) (getRawClient : GetRawClientFn)
    (request : ReadResourceRequest) :
  ∃ lookup fetch : list Event,
    trace (RepositoryResourceContentsHandler getClient getRawClient request)
    = lookup ++ fetch
    ∧ (lookup = [] ∨ ∃ owner repo prNum, lookup = [PullRequestsGet owner repo prNum])
    ∧ (fetch = [] ∨ ∃ req, fetch = [ClientDo req]).
Proof.
  rewrite handler_by_fetch. cbn [trace fst]. unfold fetchRawContent.
  destruct (as_strings (Arguments request !! "owner")) as [[|owner ?]|];
    [by exists [], []; auto| |by exists [], []; auto].
  destruct (as_strings (Arguments request !! "repo")) as [[|repo ?]|];
    [by exists [], []; auto| |by exists [], []; auto].
  pose proof (pullRequestOpts_calls getClient owner repo request (selectorOpts request))
    as Hlookup.
  destruct (pullRequestOpts _ _ _ _ _) as [lookup [rawOpts| |]]; cbn [trace fst] in Hlookup.
  - rewrite bind_return. exists lookup.
    assert (lookup = [] ∨ ∃ owner repo prNum, lookup = [PullRequestsGet owner repo prNum])
      as Hshape by (destruct Hlookup as [?|[? ?]]; eauto).
    destruct (isDirectory _); [by exists []; auto|].
    destruct getRawClient as [err|rawClient]; [by exists []; auto|].
    rewrite wrap_ok, bind_return, GetRawContent_run. cbn [trace fst app].
    destruct (raw.newRequest _ _ _) as [err|req]; cbn [trace fst].
    + exists []. auto.
    + exists [ClientDo req]. eauto.
  - exists lookup, []. rewrite app_nil_r. split; [done|]. split; [|by left].
    destruct Hlookup as [?|[? ?]]; eauto.
  - exists lookup, []. rewrite app_nil_r. split; [done|]. split; [|by left].
    destruct Hlookup as [?|[? ?]]; eauto.
Qed.

(** X13.  The handler returns content only after a GET that was answered with
    status 200 and a readable body, and then it returns exactly one resource,
    under the URI of the request. *)
Theorem content_only_for_200 (getClient : GetClientFn) (getRawClient : GetRawClientFn)
    (request : ReadResourceRequest) (tr : list Event) (contents : list ResourceContents) :
  RepositoryResourceContentsHandler getClient getRawClient request
  = (tr, Return contents) →
  ∃ (resp : Response) (content : string) (pre : list Event) (req : Request),
    tr = pre ++ [ClientDo req]
    ∧ fetchRawContent getClient getRawClient request = (tr, Return (Some resp, None))
    ∧ StatusCode resp = 200
    ∧ RespBody resp = BodyOk content
    ∧ contents = [spec_contents (URI request) (requestPath request)
                    (Header_Get (Header resp) "Content-Type") content].
Proof.
  rewrite handler_by_fetch.
  destruct (fetchRawContent _ _ _) as [tr' [[resp err]| |]] eqn:Hfetch;
    cbn [trace outcome fst snd]; [|done..].
  intros [= -> Hout].
  destruct resp as [resp|]; [|done].
  destruct err as [err|]; [done|].
  destruct (fetchRawContent_response _ _ _ _ _ _ Hfetch) as (pre & req & Htr & _).
  destruct (decide (StatusCode resp = 200)) as [Hstatus|Hstatus].
  - destruct (RespBody resp) as [content|err] eqn:Hbody.
    + rewrite (contentsFromResponse_ok _ _ _ _ Hstatus Hbody) in Hout.
      injection Hout as <-. by exists resp, content, pre, req.
    + exfalso. revert Hout. unfold contentsFromResponse.
      rewrite bool_decide_eq_true_2 by done. by rewrite Hbody.
  - exfalso. revert Hout. unfold contentsFromResponse.
    rewrite bool_decide_eq_false_2 by done.
    case_bool_decide; [|done]. by destruct (io_ReadAll (RespBody resp)).
Qed.

End resource_more.

(** ** Job logs *)

Section actions_more.
Context `{GoLib}.
Variable http_Get : string → string + Response.
Import github.

Lemma downloadLogContent_trace (logURL : string) :
  trace (downloadLogContent http_Get logURL) = [HttpGet logURL].
Proof.
  unfold downloadLogContent. simpl.
  destruct (http_Get logURL) as [err|httpResp]; [done|]. simpl.
  case_bool_decide; [done|].
  by destruct (io_ReadAll (RespBody httpResp)).
Qed.

(** Without [return_content] the job's log URL is asked for and nothing else. *)
Lemma getJobLogData_url_trace (client : Client) (owner repo : string) (jobID : Z)
    (jobName : string) :
  trace (getJobLogData http_Get client owner repo jobID jobName false)
  = [GetWorkflowJobLogs owner repo jobID].
Proof.
  unfold getJobLogData. simpl.
  by destruct (Actions_GetWorkflowJobLogs client owner repo jobID 1).
Qed.

Lemma getJobLogData_events (client : Client) (owner repo : string) (jobID : Z)
    (jobName : string) (returnContent : bool) (ev : Event) :
  ev ∈ trace (getJobLogData http_Get client owner repo jobID jobName returnContent) →
  ev = GetWorkflowJobLogs owner repo jobID ∨ ∃ url, ev = HttpGet url.
Proof.
  destruct returnContent.
  - unfold getJobLogData. simpl.
    destruct (Actions_GetWorkflowJobLogs client owner repo jobID 1) as [err|url]; simpl.
    { intros ->%list_elem_of_singleton. by left. }
    pose proof (downloadLogContent_trace url) as Hdl.
    destruct (downloadLogContent http_Get url) as [tr [content|err|]];
      cbn [trace fst] in Hdl; subst tr; simpl;
      (intros [->|Hev]%elem_of_cons; [by left|]);
      apply elem_of_cons in Hev as [->|Hev]; eauto; by apply elem_of_nil in Hev.
  - rewrite getJobLogData_url_trace. intros ->%list_elem_of_singleton. by left.
Qed.

(** X14.  Without [return_content], [getJobLogData] makes one call, for the
    job's log URL, and downloads nothing.  Its failure names the job; its
    result carries [job_id] and [logs_url], no [logs_content], and a
    [job_name] exactly when the name given is not empty. *)
Theorem job_log_url_mode (client : Client) (owner repo : string) (jobID : Z)
    (jobName : string) :
  let run := getJobLogData http_Get client owner repo jobID jobName false in
  trace run = [GetWorkflowJobLogs owner repo jobID]
  ∧ (∀ err, Actions_GetWorkflowJobLogs client owner repo jobID 1 = inl err →
       outcome run
       = Error ("failed to get job logs for job " +:+ fmt_d jobID +:+ ": " +:+ err))
  ∧ (∀ url, Actions_GetWorkflowJobLogs client owner repo jobID 1 = inr url →
       ∃ result : gmap string JSON,
         outcome run = Return result
         ∧ result !! "job_id" = Some (JInt jobID)
         ∧ result !! "logs_url" = Some (JString url)
         ∧ result !! "logs_content" = None
         ∧ result !! "job_name"
           = if bool_decide (jobName = EmptyString) then None
             else Some (JString jobName)).
Proof.
  intros run. subst run. split; [apply getJobLogData_url_trace|].
  unfold getJobLogData. split.
  - intros err ->. simpl. by rewrite append_assoc.
  - intros url ->. simpl. eexists. split; [reflexivity|].
    repeat case_bool_decide; try done; by simplify_map_eq.
Qed.

(** X15.  With [return_content], the log is downloaded from the URL the first
    call returned, and only then: a failed first call is the only call.  The
    result carries the trimmed log text as [logs_content] and no [logs_url];
    a download that fails makes the whole call fail, naming the job. *)
Theorem job_log_content_mode (client : Client) (owner repo : string) (jobID : Z)
    (jobName : string) :
  let run := getJobLogData http_Get client owner repo jobID jobName true in
  (∀ err, Actions_GetWorkflowJobLogs client owner repo jobID 1 = inl err →
     run = ([GetWorkflowJobLogs owner repo jobID],
            Error ("failed to get job logs for job " +:+ fmt_d jobID +:+ ": " +:+ err)))
  ∧ (∀ url, Actions_GetWorkflowJobLogs client owner repo jobID 1 = inr url →
       trace run = [GetWorkflowJobLogs owner repo jobID; HttpGet url]
       ∧ (∀ err, outcome (downloadLogContent http_Get url) = Error err →
            outcome run
            = Error ("failed to download log content for job " +:+ fmt_d jobID
                     +:+ ": " +:+ err))
       ∧ (∀ content, outcome (downloadLogContent http_Get url) = Return content →
            ∃ result : gmap string JSON,
              outcome run = Return result
              ∧ result !! "job_id" = Some (JInt jobID)
              ∧ result !! "logs_content" = Some (JString content)
              ∧ result !! "logs_url" = None)).
Proof.
  intros run. subst run. unfold getJobLogData. split.
  - intros err ->. simpl. by rewrite append_assoc.
  - intros url ->. simpl.
    pose proof (downloadLogContent_trace url) as Hdl.
    destruct (downloadLogContent http_Get url) as [tr [content|err|]];
      cbn [trace outcome fst snd] in *; subst tr; simpl.
    + split; [done|]. split; [done|]. intros ? [= <-].
      eexists. split; [reflexivity|].
      repeat case_bool_decide; by simplify_map_eq.
    + split; [done|]. split; [|done]. intros ? [= <-]. by rewrite append_assoc.
    + done.
Qed.

(** X16.  [downloadLogContent] makes one GET.  A transport failure and a
    status other than 200 are errors, the latter naming the status and
    leaving the body unread; a 200 body is returned trimmed. *)
Theorem download_log_content (logURL : string) :
  let run := downloadLogContent http_Get logURL in
  trace run = [HttpGet logURL]
  ∧ (∀ err, http_Get logURL = inl err →
       outcome run = Error ("failed to download logs: " +:+ err))
  ∧ (∀ httpResp, http_Get logURL = inr httpResp → StatusCode httpResp ≠ 200 →
       outcome run
       = Error ("failed to download logs: HTTP " +:+ fmt_d (StatusCode httpResp)))
  ∧ (∀ httpResp content,
       http_Get logURL = inr httpResp → StatusCode httpResp = 200 →
       RespBody httpResp = BodyOk content →
       outcome run = Return (strings_TrimSpace content))
  ∧ (∀ httpResp err,
       http_Get logURL = inr httpResp → StatusCode httpResp = 200 →
       RespBody httpResp = BodyErr err →
       outcome run = Error ("failed to read log content: " +:+ err)).
Proof.
  intros run. subst run. split; [apply downloadLogContent_trace|].
  unfold downloadLogContent, http_StatusOK. split_and!.
  - by intros err ->.
  - intros httpResp -> Hstatus. simpl. by rewrite bool_decide_eq_true_2.
  - intros httpResp content -> Hstatus Hbody. simpl.
    rewrite bool_decide_eq_false_2 by (by intros ?). by rewrite Hbody.
  - intros httpResp err -> Hstatus Hbody. simpl.
    rewrite bool_decide_eq_false_2 by (by intros ?). by rewrite Hbody.
Qed.

Lemma run_eta {A : Type} (m : Run A) : (trace m, outcome m) = m.
Proof. by destruct m. Qed.

Lemma marshalResponse_trace (result : JSON) : trace (marshalResponse result) = [].
Proof. unfold marshalResponse. by destruct (json_Marshal result) as [r [err|]]. Qed.

Lemma getJobLogData_job_name (client : Client) (owner repo : string) (jobID : Z)
    (returnContent : bool) (jobResult : gmap string JSON) :
  outcome (getJobLogData http_Get client owner repo jobID EmptyString returnContent)
  = Return jobResult →
  jobResult !! "job_name" = None.
Proof.
  unfold getJobLogData. simpl.
  destruct (Actions_GetWorkflowJobLogs client owner repo jobID 1) as [err|url];
    simpl; [done|].
  destruct returnContent; simpl.
  - destruct (downloadLogContent http_Get url) as [tr [content|err|]]; simpl; [|done..].
    intros [= <-]. by simplify_map_eq.
  - intros [= <-]. by simplify_map_eq.
Qed.

(** X17.  [handleSingleJobLogs] makes the calls of [getJobLogData] and no
    other.  A failure to get the log is answered with a tool-level error that
    carries the message, not with a Go error; the result it marshals never
    holds a [job_name]. *)
Theorem single_job_logs (client : Client) (owner repo : string) (jobID : Z)
    (returnContent : bool) :
  let fetched := getJobLogData http_Get client owner repo jobID EmptyString
                   returnContent in
  let run := handleSingleJobLogs http_Get client owner repo jobID returnContent in
  trace run = trace fetched
  ∧ (∀ err, outcome fetched = Error err →
       outcome run = Return (NewToolResultError err))
  ∧ (∀ jobResult, outcome fetched = Return jobResult →
       jobResult !! "job_name" = None
       ∧ outcome run = outcome (marshalResponse (JObject jobResult))).
Proof.
  intros fetched run. subst run. unfold handleSingleJobLogs.
  pose proof (getJobLogData_job_name client owner repo jobID returnContent) as Hname.
  fold fetched in Hname |- *.
  destruct fetched as [tr [jobResult|err|]]; cbn [trace outcome fst snd result_of] in *.
  - rewrite bind_return, marshalResponse_trace, app_nil_r. cbn [trace outcome fst snd].
    split; [done|]. split; [done|]. intros ? [= <-]. auto.
  - rewrite bind_return. cbn. rewrite app_nil_r. split; [done|]. split; [|done].
    by intros ? [= <-].
  - done.
Qed.

(** With its parameters read and its client at hand, the handler is its
    chain of tests. *)
Lemma GetJobLogs_decision (getClient : GetClientFn) (request : CallToolRequest)
    (owner repo : string) (jobID runID : Z) (failedOnly returnContent : bool)
    (client : Client) :
  jobLogsCall getClient request owner repo jobID runID failedOnly returnContent client →
  GetJobLogs http_Get getClient request
  = if failedOnly && bool_decide (runID = 0) then
      ([], Return (NewToolResultError "run_id is required when failed_only is true"))
    else if negb failedOnly && bool_decide (jobID = 0) then
      ([], Return (NewToolResultError "job_id is required when failed_only is false"))
    else if failedOnly && bool_decide (runID > 0) then
      handleFailedJobLogs http_Get client owner repo runID returnContent
    else if bool_decide (jobID > 0) then
      handleSingleJobLogs http_Get client owner repo jobID returnContent
    else
      ([], Return (NewToolResultError "Either job_id must be provided for single job logs, or run_id with failed_only=true for failed job logs")).
Proof.
  intros (Howner & Hrepo & Hjob & Hrun & Hfailed & Hcontent & ->).
  unfold GetJobLogs. rewrite Howner, Hrepo, Hjob, Hrun, Hfailed, Hcontent.
  unfold orToolError. rewrite wrap_ok, bind_return. cbn [trace outcome fst snd app].
  exact (run_eta _).
Qed.

(** X18.  With [failed_only] and a positive [run_id] the call is the
    failed-jobs collection for that run, whatever [job_id] holds; without
    [failed_only] and with a positive [job_id] it is the single-job fetch,
    whatever [run_id] holds. *)
Theorem get_job_logs_mode (getClient : GetClientFn) (request : CallToolRequest)
    (owner repo : string) (jobID runID : Z) (failedOnly returnContent : bool)
    (client : Client) :
  jobLogsCall getClient request owner repo jobID runID failedOnly returnContent client →
  (failedOnly = true → runID > 0 →
   GetJobLogs http_Get getClient request
   = handleFailedJobLogs http_Get client owner repo runID returnContent)
  ∧ (failedOnly = false → jobID > 0 →
     GetJobLogs http_Get getClient request
     = handleSingleJobLogs http_Get client owner repo jobID returnContent).
Proof.
  intros Hcall. rewrite (GetJobLogs_decision _ _ _ _ _ _ _ _ _ Hcall). split.
  - intros -> Hrun. simpl.
    rewrite bool_decide_eq_false_2, bool_decide_eq_true_2 by lia. done.
  - intros -> Hjob. simpl.
    rewrite bool_decide_eq_false_2, bool_decide_eq_true_2 by lia. done.
Qed.

(** X19.  Negative ids pass the two required-parameter tests.  With
    [failed_only] and a negative [run_id], a positive [job_id] turns the call
    into a single-job fetch; otherwise, and for a negative [job_id] without
    [failed_only], the call ends in the closing tool error, with no request
    made. *)
Theorem get_job_logs_negative_ids (getClient : GetClientFn) (request : CallToolRequest)
    (owner repo : string) (jobID runID : Z) (failedOnly returnContent : bool)
    (client : Client) :
  jobLogsCall getClient request owner repo jobID runID failedOnly returnContent client →
  let closing :=
    ([], Return (NewToolResultError "Either job_id must be provided for single job logs, or run_id with failed_only=true for failed job logs"))
    : Run CallToolResult in
  (failedOnly = true → runID < 0 → jobID > 0 →
   GetJobLogs http_Get getClient request
   = handleSingleJobLogs http_Get client owner repo jobID returnContent)
  ∧ (failedOnly = true → runID < 0 → jobID ≤ 0 →
     GetJobLogs http_Get getClient request = closing)
  ∧ (failedOnly = false → jobID < 0 →
     GetJobLogs http_Get getClient request = closing).
Proof.
  intros Hcall closing. rewrite (GetJobLogs_decision _ _ _ _ _ _ _ _ _ Hcall).
  split_and!.
  - intros -> Hrun Hjob. simpl.
    rewrite !(bool_decide_eq_false_2 (runID = 0)), !(bool_decide_eq_false_2 (runID > 0))
      by lia.
    by rewrite bool_decide_eq_true_2 by lia.
  - intros -> Hrun Hjob. simpl.
    rewrite !(bool_decide_eq_false_2 (runID = 0)), !(bool_decide_eq_false_2 (runID > 0))
      by lia.
    by rewrite bool_decide_eq_false_2 by lia.
  - intros -> Hjob. simpl.
    rewrite (bool_decide_eq_false_2 (jobID = 0)), (bool_decide_eq_false_2 (jobID > 0))
      by lia.
    done.
Qed.

(** X20.  A parameter that cannot be read is answered with a tool-level error
    carrying the accessor's message: the first one in the order owner, repo,
    job_id, run_id, failed_only, return_content.  This happens before the
    client is asked for, so it holds when the client is not available, and no
    request is made. *)
Theorem get_job_logs_parameter_errors (getClient : GetClientFn)
    (request : CallToolRequest) :
  let run := GetJobLogs http_Get getClient request in
  let refused (err : string) := run = ([], Return (NewToolResultError err)) in
  (∀ err, RequiredParam_string request "owner" = inl err → refused err)
  ∧ (∀ owner err,
       RequiredParam_string request "owner" = inr owner →
       RequiredParam_string request "repo" = inl err → refused err)
  ∧ (∀ owner repo err,
       RequiredParam_string request "owner" = inr owner →
       RequiredParam_string request "repo" = inr repo →
       OptionalIntParam request "job_id" = inl err → refused err)
  ∧ (∀ owner repo jobID err,
       RequiredParam_string request "owner" = inr owner →
       RequiredParam_string request "repo" = inr repo →
       OptionalIntParam request "job_id" = inr jobID →
       OptionalIntParam request "run_id" = inl err → refused err)
  ∧ (∀ owner repo jobID runID err,
       RequiredParam_string request "owner" = inr owner →
       RequiredParam_string request "repo" = inr repo →
       OptionalIntParam request "job_id" = inr jobID →
       OptionalIntParam request "run_id" = inr runID →
       OptionalParam_bool request "failed_only" = inl err → refused err)
  ∧ (∀ owner repo jobID runID failedOnly err,
       RequiredParam_string request "owner" = inr owner →
       RequiredParam_string request "repo" = inr repo →
       OptionalIntParam request "job_id" = inr jobID →
       OptionalIntParam request "run_id" = inr runID →
       OptionalParam_bool request "failed_only" = inr failedOnly →
       OptionalParam_bool request "return_content" = inl err → refused err).
Proof.
  intros run refused. subst run refused. unfold GetJobLogs. split_and!.
  - by intros err ->.
  - by intros owner err -> ->.
  - by intros owner repo err -> -> ->.
  - by intros owner repo jobID err -> -> -> ->.
  - by intros owner repo jobID runID err -> -> -> -> ->.
  - by intros owner repo jobID runID failedOnly err -> -> -> -> -> ->.
Qed.

(** The loop makes the calls of each job's fetch, job after job. *)
Lemma collectFailedJobLogs_trace (client : Client) (owner repo : string)
    (returnContent : bool) (job : WorkflowJob) (rest : list WorkflowJob) :
  trace (collectFailedJobLogs http_Get client owner repo returnContent (job :: rest))
  = trace (getJobLogData http_Get client owner repo (GetID job) (GetName job)
             returnContent)
    ++ trace (collectFailedJobLogs http_Get client owner repo returnContent rest).
Proof.
  destruct (collectFailedJobLogs_slots http_Get client owner repo returnContent rest)
    as (tr & logResults & Hrest & _).
  destruct (getJobLogData_run http_Get client owner repo (GetID job) (GetName job)
              returnContent) as [_ Hnopanic].
  simpl. rewrite Hrest.
  destruct (getJobLogData http_Get client owner repo (GetID job) (GetName job)
              returnContent) as [tr0 [jobResult|err|]]; simpl in *; [| |done];
    by rewrite app_nil_r.
Qed.

Lemma collectFailedJobLogs_url_trace (client : Client) (owner repo : string)
    (failedJobs : list WorkflowJob) :
  trace (collectFailedJobLogs http_Get client owner repo false failedJobs)
  = (λ job, GetWorkflowJobLogs owner repo (GetID job)) <$> failedJobs.
Proof.
  induction failedJobs as [|job rest IH]; [done|].
  by rewrite collectFailedJobLogs_trace, getJobLogData_url_trace, IH.
Qed.

Lemma collectFailedJobLogs_events (client : Client) (owner repo : string)
    (returnContent : bool) (failedJobs : list WorkflowJob) (ev : Event) :
  ev ∈ trace (collectFailedJobLogs http_Get client owner repo returnContent failedJobs) →
  (∃ job, job ∈ failedJobs ∧ ev = GetWorkflowJobLogs owner repo (GetID job))
  ∨ ∃ url, ev = HttpGet url.
Proof.
  induction failedJobs as [|job rest IH].
  { by intros ?%elem_of_nil. }
  rewrite collectFailedJobLogs_trace.
  intros [Hev|Hev]%elem_of_app.
  - apply getJobLogData_events in Hev as [->|?]; [left|by right].
    exists job. split; [by left|done].
  - destruct (IH Hev) as [(j & Hj & ->)|?]; [left|by right].
    exists j. split; [by right|done].
Qed.

(** X21.  When the jobs cannot be listed, or when none of them failed, the
    listing is the only call of [handleFailedJobLogs].  The first case is
    answered with a tool-level error; the second with the marshalled summary,
    whose marshalling error, if any, is dropped. *)
Theorem failed_job_logs_nothing_to_fetch (client : Client) (owner repo : string)
    (runID : Z) (returnContent : bool) :
  let run := handleFailedJobLogs http_Get client owner repo runID returnContent in
  (∀ err, Actions_ListWorkflowJobs client owner repo runID "latest" = inl err →
     run = ([ListWorkflowJobs owner repo runID "latest"],
            Return (NewToolResultError ("failed to list workflow jobs: " +:+ err))))
  ∧ (∀ jobs, Actions_ListWorkflowJobs client owner repo runID "latest" = inr jobs →
       List.filter isFailedJob (JobList jobs) = [] →
       run = ([ListWorkflowJobs owner repo runID "latest"],
              Return (NewToolResultText
                        (json_Marshal (noFailedJobsResult runID jobs)).1))).
Proof.
  intros run. subst run. unfold handleFailedJobLogs. split.
  - by intros err ->.
  - intros jobs -> ->. done.
Qed.

(** X22.  [handleFailedJobLogs] asks for logs of failed jobs only: each log
    request of a run is for a job of the listing whose conclusion is
    [failure].  Without [return_content] the run is the listing followed by
    one log request per failed job, in the order of the listing. *)
Theorem failed_job_logs_requests (client : Client) (owner repo : string)
    (runID : Z) (returnContent : bool) (jobs : Jobs) :
  Actions_ListWorkflowJobs client owner repo runID "latest" = inr jobs →
  let failedJobs := List.filter isFailedJob (JobList jobs) in
  (∀ (owner' repo' : string) (jobID : Z),
     GetWorkflowJobLogs owner' repo' jobID
     ∈ trace (handleFailedJobLogs http_Get client owner repo runID returnContent) →
     ∃ job, job ∈ JobList jobs ∧ GetConclusion job = "failure" ∧ GetID job = jobID)
  ∧ trace (handleFailedJobLogs http_Get client owner repo runID false)
    = ListWorkflowJobs owner repo runID "latest"
      :: ((λ job, GetWorkflowJobLogs owner repo (GetID job)) <$> failedJobs).
Proof.
  intros Hlist failedJobs.
  assert (∀ rc,
            trace (handleFailedJobLogs http_Get client owner repo runID rc)
            = ListWorkflowJobs owner repo runID "latest"
              :: trace (collectFailedJobLogs http_Get client owner repo rc failedJobs))
    as Htrace.
  { intros rc. unfold handleFailedJobLogs. rewrite Hlist. fold failedJobs.
    destruct (collectFailedJobLogs_slots http_Get client owner repo rc failedJobs)
      as (tr & logResults & Hloop & _).
    case_bool_decide as Hnone.
    - destruct failedJobs; [done|discriminate].
    - rewrite Hloop. unfold emit. rewrite !bind_return. cbn [trace outcome fst snd].
      by rewrite marshalResponse_trace, app_nil_r. }
  split.
  - intros owner' repo' jobID. rewrite Htrace.
    intros [[=]|Hev]%elem_of_cons.
    apply collectFailedJobLogs_events in Hev as [(job & Hjob & Heq)|[url [=]]].
    injection Heq as -> -> ->. exists job.
    apply list_elem_of_In, filter_In in Hjob as [Hin Hfailed].
    split; [by apply list_elem_of_In|]. split; [|done].
    unfold isFailedJob in Hfailed. by apply bool_decide_eq_true in Hfailed.
  - by rewrite Htrace, collectFailedJobLogs_url_trace.
Qed.

End actions_more.

(** ** tools.go and projects.go *)

Section tools_more.
Import toolsets.

(** X23.  Under either policy [DefaultToolsetGroup] registers its eleven
    toolsets without a clash of toolset names, keeps the policy, and leaves
    every toolset disabled: no constructor is registered twice, discovery
    tools included, and before any toolset is enabled only the discovery
    tools are exposed. *)
Theorem default_group_well_formed (policy : bool) :
  ∃ tg : ToolsetGroup,
    github.DefaultToolsetGroup policy = inr tg
    ∧ readOnly tg = policy
    ∧ length (Toolsets tg) = 11%nat
    ∧ NoDup (Name <$> Toolsets tg)
    ∧ Forall (λ ts, Enabled ts = false) (Toolsets tg)
    ∧ OperationNamesUnique (readTools github.InitDynamicToolset) tg
    ∧ ExposedTools (readTools github.InitDynamicToolset) tg
      = readTools github.InitDynamicToolset.
Proof.
  destruct policy.
  - eexists. split; [vm_compute; reflexivity|].
    split_and!; try reflexivity; apply (bool_decide_unpack _); vm_compute; exact I.
  - eexists. split; [vm_compute; reflexivity|].
    split_and!; try reflexivity; apply (bool_decide_unpack _); vm_compute; exact I.
Qed.

End tools_more.

Section projects_more.
Import github projects.
Variable Data : Type.
Variable repositoryID : Data → string.
Variable MarshalledTextResult : Data → CallToolResult.
Variable mapstructure_Decode : gmap string any → string + IssueParams.



Lemma runQuery_answers (client : GQLClient Data) (q : GQLQuery)
    (variables : gmap string GQLValue) :
  ∃ result, runQuery Data MarshalledTextResult client q variables
            = ([QueryCall q variables], Return result).
Proof. unfold runQuery. destruct (Query _ _ _ _); eauto. Qed.

Lemma runMutate_answers (client : GQLClient Data) (input : GQLInput) :
  ∃ result, runMutate Data MarshalledTextResult client input
            = ([MutateCall input], Return result).
Proof. unfold runMutate. destruct (Mutate _ _ _); eauto. Qed.

Lemma toolError_answers (n : nat) (err : string) : answers n (toolError err).
Proof. exists [], (NewToolResultError err). split; [done|simpl; lia]. Qed.

Lemma runQuery_answers_1 (client : GQLClient Data) (q : GQLQuery)
    (variables : gmap string GQLValue) :
  answers 1 (runQuery Data MarshalledTextResult client q variables).
Proof.
  destruct (runQuery_answers client q variables) as [result ->].
  by exists [QueryCall q variables], result.
Qed.

Lemma runMutate_answers_1 (client : GQLClient Data) (input : GQLInput) :
  answers 1 (runMutate Data MarshalledTextResult client input).
Proof.
  destruct (runMutate_answers client input) as [result ->].
  by exists [MutateCall input], result.
Qed.

Ltac handler_answers :=
  repeat case_match;
  first [ apply toolError_answers | apply runQuery_answers_1
        | apply runMutate_answers_1 ].

(** X25.  No project handler returns a Go error or panics: whatever the
    request and whatever the client does, the run ends in a tool result,
    after at most one GraphQL call (two for create_project_issue). *)
Theorem project_handlers_answer (getClient : GetGQLClientFn Data)
    (req : CallToolRequest) :
  answers 1 (ListProjects Data MarshalledTextResult getClient req)
  ∧ answers 1 (GetProjectFields Data MarshalledTextResult getClient req)
  ∧ answers 1 (GetProjectItems Data MarshalledTextResult getClient req)
  ∧ answers 2 (CreateProjectIssue Data repositoryID MarshalledTextResult
                 mapstructure_Decode getClient req)
  ∧ answers 1 (AddIssueToProject Data MarshalledTextResult getClient req)
  ∧ answers 1 (UpdateProjectItemField Data MarshalledTextResult getClient req)
  ∧ answers 1 (CreateDraftIssue Data MarshalledTextResult getClient req)
  ∧ answers 1 (DeleteProjectItem Data MarshalledTextResult getClient req).
Proof.
  split_and!.
  - unfold ListProjects. handler_answers.
  - unfold GetProjectFields. handler_answers.
  - unfold GetProjectItems. handler_answers.
  - unfold CreateProjectIssue.
    destruct (mapstructure_Decode _) as [err|params]; [apply toolError_answers|].
    destruct getClient as [err|client]; [apply toolError_answers|].
    cbv zeta. destruct (Query _ _ _ _) as [err|repoQ].
    + eexists _, _. split; [done|simpl; lia].
    + destruct (runMutate_answers client
        (CreateIssueInput (repositoryID repoQ) (Title params)
           (optionalText (Body params)))) as [result ->].
      eexists _, _. split; [done|simpl; lia].
  - unfold AddIssueToProject. handler_answers.
  - unfold UpdateProjectItemField. handler_answers.
  - unfold CreateDraftIssue. handler_answers.
  - unfold DeleteProjectItem. handler_answers.
Qed.

(** X26.  When the GraphQL client cannot be obtained, a project handler sends
    nothing and ends in a tool-level error, of the client or of a parameter
    read before it. *)
Theorem project_handlers_without_client (err : string) (req : CallToolRequest) :
  refuses (ListProjects Data MarshalledTextResult (inl err) req)
  ∧ refuses (GetProjectFields Data MarshalledTextResult (inl err) req)
  ∧ refuses (GetProjectItems Data MarshalledTextResult (inl err) req)
  ∧ refuses (CreateProjectIssue Data repositoryID MarshalledTextResult
               mapstructure_Decode (inl err) req)
  ∧ refuses (AddIssueToProject Data MarshalledTextResult (inl err) req)
  ∧ refuses (UpdateProjectItemField Data MarshalledTextResult (inl err) req)
  ∧ refuses (CreateDraftIssue Data MarshalledTextResult (inl err) req)
  ∧ refuses (DeleteProjectItem Data MarshalledTextResult (inl err) req).
Proof.
  unfold refuses. split_and!.
  - unfold ListProjects, toolError. repeat case_match; eauto.
  - unfold GetProjectFields, toolError. repeat case_match; eauto.
  - unfold GetProjectItems, toolError. repeat case_match; eauto.
  - unfold CreateProjectIssue, toolError. repeat case_match; eauto.
  - unfold AddIssueToProject, toolError. repeat case_match; eauto.
  - unfold UpdateProjectItemField, toolError. repeat case_match; eauto.
  - unfold CreateDraftIssue, toolError. repeat case_match; eauto.
  - unfold DeleteProjectItem, toolError. repeat case_match; eauto.
Qed.

(** X27.  create_project_issue first queries the repository by owner and
    name.  If that query fails its error is the tool error and no mutation is
    sent; otherwise exactly one createIssue mutation follows, for the id the
    query returned, with the title and with a body only when one was given. *)
Theorem create_issue_after_repository_lookup (client : GQLClient Data)
    (req : CallToolRequest) (params : IssueParams) :
  mapstructure_Decode (ToolArguments req) = inr params →
  let variables : gmap string GQLValue :=
    <["name" := GString (Repo params)]> {[ "owner" := GString (Owner params) ]} in
  let run := CreateProjectIssue Data repositoryID MarshalledTextResult
               mapstructure_Decode (inr client) req in
  (∀ err, Query Data client RepositoryQuery variables = inl err →
     run = ([QueryCall RepositoryQuery variables], Return (NewToolResultError err)))
  ∧ (∀ repoQ, Query Data client RepositoryQuery variables = inr repoQ →
       run.1 = [QueryCall RepositoryQuery variables;
                MutateCall (CreateIssueInput (repositoryID repoQ) (Title params)
                  (if bool_decide (Body params = EmptyString)
                   then None else Some (Body params)))]).
Proof.
  intros Hparams variables run. subst run variables.
  unfold CreateProjectIssue. rewrite Hparams. cbv zeta. split.
  - intros err ->. reflexivity.
  - intros repoQ ->.
    assert (optionalText (Body params)
            = if bool_decide (Body params = EmptyString)
              then None else Some (Body params)) as ->.
    { unfold optionalText.
      destruct (decide (Body params = EmptyString)) as [Hempty|Hgiven].
      - rewrite (bool_decide_eq_true_2 _ Hempty).
        by rewrite (bool_decide_eq_false_2 (Body params ≠ EmptyString)); [|tauto].
      - rewrite (bool_decide_eq_false_2 _ Hgiven).
        by rewrite (bool_decide_eq_true_2 (Body params ≠ EmptyString)). }
    by destruct (runMutate_answers client
      (CreateIssueInput (repositoryID repoQ) (Title params)
         (if bool_decide (Body params = EmptyString)
          then None else Some (Body params)))) as [result ->].
Qed.

Lemma optionalText_spec (text : string) :
  optionalText text = if bool_decide (text = EmptyString) then None else Some text.
Proof.
  unfold optionalText.
  destruct (decide (text = EmptyString)) as [Hempty|Hgiven].
  - rewrite (bool_decide_eq_true_2 _ Hempty).
    by rewrite (bool_decide_eq_false_2 (text ≠ EmptyString)); [|tauto].
  - rewrite (bool_decide_eq_false_2 _ Hgiven).
    by rewrite (bool_decide_eq_true_2 (text ≠ EmptyString)).
Qed.

(** X28.  create_draft_issue and update_project_item_field send one mutation
    built from their parameters.  An empty [body] or [text_value] is not sent
    at all, so it is the same call as one without that argument: a field
    cannot be set to the empty text this way. *)
Theorem empty_text_is_not_sent (client : GQLClient Data) (req : CallToolRequest)
    (projectID : string) :
  RequiredParam_string req "project_id" = inr projectID →
  (∀ title body : string,
     RequiredParam_string req "title" = inr title →
     OptionalParam_string req "body" = inr body →
     (CreateDraftIssue Data MarshalledTextResult (inr client) req).1
     = [MutateCall (AddProjectV2DraftIssueInput projectID title
                      (if bool_decide (body = EmptyString) then None else Some body))])
  ∧ (∀ itemID fieldID textValue : string,
       RequiredParam_string req "item_id" = inr itemID →
       RequiredParam_string req "field_id" = inr fieldID →
       OptionalParam_string req "text_value" = inr textValue →
       (UpdateProjectItemField Data MarshalledTextResult (inr client) req).1
       = [MutateCall (UpdateProjectV2ItemFieldValueInput projectID itemID fieldID
                        {| FieldText := if bool_decide (textValue = EmptyString)
                                        then None else Some textValue |})]).
Proof.
  intros Hproject. split.
  - intros title body Htitle Hbody. unfold CreateDraftIssue.
    rewrite Hproject, Htitle, Hbody, optionalText_spec.
    by destruct (runMutate_answers client
      (AddProjectV2DraftIssueInput projectID title
         (if bool_decide (body = EmptyString) then None else Some body)))
      as [result ->].
  - intros itemID fieldID textValue Hitem Hfield Htext. unfold UpdateProjectItemField.
    rewrite Hproject, Hitem, Hfield, Htext. cbv zeta. rewrite optionalText_spec.
    by destruct (runMutate_answers client
      (UpdateProjectV2ItemFieldValueInput projectID itemID fieldID
         {| FieldText := if bool_decide (textValue = EmptyString)
                         then None else Some textValue |}))
      as [result ->].
Qed.

End projects_more.

(** ** The further properties on stubs *)

Section scenarios_checked.
Import toolsets reference github fixtures projects scenarios.

Lemma URLFromOpts_ref_only_witness :
  "refs/tags/v1.0.0" ≠ EmptyString
  ∧ raw.URLFromOpts rawClient
      (Some {| raw.Ref := "refs/tags/v1.0.0"; raw.SHA := EmptyString |})
      "octocat" "hello" "README.md"
    = "https://raw.example.com/octocat/hello/refs/tags/v1.0.0/README.md".
Proof.
  split; [discriminate|].
  apply (URLFromOpts_ref_only rawClient "octocat" "hello" "README.md" "refs/tags/v1.0.0").
  discriminate.
Defined.

Lemma owner_and_repo_required_witness :
  RepositoryResourceContentsHandler (inr restClient) (inr rawClient) ownerlessRequest
  = ([], Error "owner is required")
  ∧ RepositoryResourceContentsHandler (inr restClient) (inr rawClient) repolessRequest
    = ([], Error "repo is required").
Proof.
  split.
  - apply (proj1 (owner_and_repo_required (inr restClient) (inr rawClient)
                    ownerlessRequest)).
    left. reflexivity.
  - apply (proj2 (owner_and_repo_required (inr restClient) (inr rawClient)
                    repolessRequest) "owner" []); [reflexivity|].
    right. reflexivity.
Defined.

Lemma handler_sha_over_refs_witness :
  trace (RepositoryResourceContentsHandler (inr restClient) (inr rawClient) pinnedRequest)
  = [ClientDo {| Method := "GET";
                 ReqURL := "https://raw.example.com/owner/repo/abc123/README.md" |}].
Proof.
  exact (proj2 (handler_sha_over_refs (inr restClient) rawClient pinnedRequest
                  "owner" "repo" [] [] "abc123" [] eq_refl eq_refl
                  (or_introl eq_refl) eq_refl eq_refl ltac:(discriminate))
           _ eq_refl).
Defined.

Lemma handler_tag_over_branch_witness :
  trace (RepositoryResourceContentsHandler (inr restClient) (inr rawClient) tagRequest)
  = [ClientDo {| Method := "GET";
                 ReqURL := "https://raw.example.com/owner/repo/refs/tags/v1.0.0/README.md" |}].
Proof.
  exact (proj2 (handler_tag_over_branch (inr restClient) rawClient tagRequest
                  "owner" "repo" [] [] "v1.0.0" [] eq_refl eq_refl
                  (or_introl eq_refl) eq_refl (or_introl eq_refl) eq_refl)
           _ eq_refl).
Defined.

Lemma handler_branch_or_HEAD_witness :
  trace (RepositoryResourceContentsHandler (inr restClient) (inr rawClient) branchRequest)
  = [ClientDo {| Method := "GET";
                 ReqURL := "https://raw.example.com/owner/repo/refs/heads/main/README.md" |}]
  ∧ trace (RepositoryResourceContentsHandler (inr restClient) (inr rawClient)
             readmeRequest)
    = [ClientDo {| Method := "GET";
                   ReqURL := "https://raw.example.com/owner/repo/HEAD/README.md" |}].
Proof.
  split.
  - exact (proj1 (handler_branch_or_HEAD (inr restClient) rawClient branchRequest
                    "owner" "repo" [] [] eq_refl eq_refl (or_introl eq_refl) eq_refl
                    (or_introl eq_refl) (or_introl eq_refl))
             "main" [] eq_refl _ eq_refl).
  - exact (proj2 (handler_branch_or_HEAD (inr restClient) rawClient readmeRequest
                    "owner" "repo" [] [] eq_refl eq_refl (or_introl eq_refl) eq_refl
                    (or_introl eq_refl) (or_introl eq_refl))
             (or_introl eq_refl) _ eq_refl).
Defined.

Lemma pull_request_stage_failures_witness :
  RepositoryResourceContentsHandler (inl "no token") (inr rawClient) prRequest
  = ([], Error "failed to get GitHub client: no token")
  ∧ RepositoryResourceContentsHandler (inr restClient) (inr rawClient) stalePrRequest
    = ([PullRequestsGet "owner" "repo" 7],
       Error "failed to get pull request: 404 Not Found").
Proof.
  split.
  - exact (proj1 (pull_request_stage_failures (inl "no token") (inr rawClient) prRequest
                    "owner" "repo" [] [] "42" [] eq_refl eq_refl eq_refl)
             "no token" eq_refl).
  - exact (proj2 (proj2 (pull_request_stage_failures (inr restClient) (inr rawClient)
                           stalePrRequest "owner" "repo" [] [] "7" []
                           eq_refl eq_refl eq_refl))
             restClient 7 "404 Not Found" eq_refl eq_refl eq_refl).
Defined.

Lemma pull_request_without_head_witness :
  trace (RepositoryResourceContentsHandler (inr headless) (inr rawClient) prBranchRequest)
  = [PullRequestsGet "owner" "repo" 42;
     ClientDo {| Method := "GET";
                 ReqURL := "https://raw.example.com/owner/repo/refs/heads/main/README.md" |}].
Proof.
  exact (pull_request_without_head headless rawClient prBranchRequest
           "owner" "repo" [] [] "42" [] 42 {| Head := None |}
           eq_refl eq_refl eq_refl eq_refl eq_refl eq_refl eq_refl _ eq_refl).
Defined.

Lemma raw_client_unavailable_witness :
  RepositoryResourceContentsHandler (inr restClient) (inl "no token") readmeRequest
  = ([], Error "failed to get GitHub raw content client: no token").
Proof.
  exact (raw_client_unavailable (inr restClient) readmeRequest "owner" "repo" [] []
           "no token" eq_refl eq_refl (or_introl eq_refl) eq_refl).
Defined.

Lemma missing_response_panics_witness :
  RepositoryResourceContentsHandler (inr restClient) (inr (rawOver unbuildable))
    readmeRequest
  = ([], Panic)
  ∧ RepositoryResourceContentsHandler (inr restClient) (inr (rawOver unreachable))
      readmeRequest
    = ([ClientDo {| Method := "GET";
                    ReqURL := "https://raw.example.com/owner/repo/HEAD/README.md" |}],
       Panic).
Proof.
  split.
  - exact (proj1 (missing_response_panics (inr restClient) (rawOver unbuildable)
                    readmeRequest "owner" "repo" [] []
                    eq_refl eq_refl (or_introl eq_refl) eq_refl)
             "net/http: invalid method" eq_refl).
  - exact (proj2 (missing_response_panics (inr restClient) (rawOver unreachable)
                    readmeRequest "owner" "repo" [] []
                    eq_refl eq_refl (or_introl eq_refl) eq_refl)
             _ (Some "dial tcp: connection refused") eq_refl eq_refl).
Defined.

Lemma transport_error_over_status_witness :
  RepositoryResourceContentsHandler (inr restClient)
    (inr (rawOver (answering (respond 200 "text/plain" "partial") (Some "unexpected EOF"))))
    readmeRequest
  = ([ClientDo {| Method := "GET";
                  ReqURL := "https://raw.example.com/owner/repo/HEAD/README.md" |}],
     Error "failed to get raw content: unexpected EOF").
Proof.
  exact (transport_error_over_status (inr restClient)
           (inr (rawOver (answering (respond 200 "text/plain" "partial")
                            (Some "unexpected EOF"))))
           readmeRequest _ (respond 200 "text/plain" "partial") "unexpected EOF" eq_refl).
Defined.

Lemma unreadable_body_witness :
  RepositoryResourceContentsHandler (inr restClient)
    (inr (rawOver (answering (truncated 200) None))) readmeRequest
  = ([ClientDo {| Method := "GET";
                  ReqURL := "https://raw.example.com/owner/repo/HEAD/README.md" |}],
     Error "failed to read file content: unexpected EOF")
  ∧ RepositoryResourceContentsHandler (inr restClient)
      (inr (rawOver (answering (truncated 502) None))) readmeRequest
    = ([ClientDo {| Method := "GET";
                    ReqURL := "https://raw.example.com/owner/repo/HEAD/README.md" |}],
       Error "failed to read response body: unexpected EOF")
  ∧ RepositoryResourceContentsHandler (inr restClient)
      (inr (rawOver (answering (truncated 404) None))) readmeRequest
    = ([ClientDo {| Method := "GET";
                    ReqURL := "https://raw.example.com/owner/repo/HEAD/README.md" |}],
       Error "404 Not Found").
Proof.
  split_and!.
  - exact (proj1 (unreadable_body (inr restClient)
                    (inr (rawOver (answering (truncated 200) None))) readmeRequest
                    _ (truncated 200) "unexpected EOF" eq_refl eq_refl) eq_refl).
  - refine (proj1 (proj2 (unreadable_body (inr restClient)
                    (inr (rawOver (answering (truncated 502) None))) readmeRequest
                    _ (truncated 502) "unexpected EOF" eq_refl eq_refl)) _ _);
      discriminate.
  - exact (proj2 (proj2 (unreadable_body (inr restClient)
                    (inr (rawOver (answering (truncated 404) None))) readmeRequest
                    _ (truncated 404) "unexpected EOF" eq_refl eq_refl)) eq_refl).
Defined.

Lemma content_only_for_200_witness :
  ∃ (resp : Response) (content : string) (pre : list Event) (req : Request),
    [ClientDo {| Method := "GET";
                 ReqURL := "https://raw.example.com/owner/repo/HEAD/README.md" |}]
    = pre ++ [ClientDo req]
    ∧ fetchRawContent (inr restClient) (inr rawClient) readmeRequest
      = ([ClientDo {| Method := "GET";
                      ReqURL := "https://raw.example.com/owner/repo/HEAD/README.md" |}],
         Return (Some resp, None))
    ∧ StatusCode resp = 200
    ∧ RespBody resp = BodyOk content
    ∧ [TextResourceContents EmptyString "text/markdown" testBody]
      = [spec_contents (URI readmeRequest) (requestPath readmeRequest)
           (Header_Get (Header resp) "Content-Type") content].
Proof.
  exact (content_only_for_200 (inr restClient) (inr rawClient) readmeRequest
           [ClientDo {| Method := "GET";
                        ReqURL := "https://raw.example.com/owner/repo/HEAD/README.md" |}]
           [TextResourceContents EmptyString "text/markdown" testBody] eq_refl).
Defined.

Lemma job_log_url_mode_witness :
  trace (getJobLogData noDownload restClient "owner" "repo" 2 "test-job-2" false)
  = [GetWorkflowJobLogs "owner" "repo" 2]
  ∧ outcome (getJobLogData noDownload restClient "owner" "repo" 3 "test-job-3" false)
    = Error "failed to get job logs for job 3: 404 Not Found"
  ∧ ∃ result : gmap string JSON,
      outcome (getJobLogData noDownload restClient "owner" "repo" 2 EmptyString false)
      = Return result
      ∧ result !! "job_id" = Some (JInt 2)
      ∧ result !! "logs_url" = Some (JString "https://github.com/logs/job/2")
      ∧ result !! "logs_content" = None
      ∧ result !! "job_name" = None.
Proof.
  split_and!.
  - exact (proj1 (job_log_url_mode noDownload restClient "owner" "repo" 2 "test-job-2")).
  - exact (proj1 (proj2 (job_log_url_mode noDownload restClient "owner" "repo" 3
                           "test-job-3")) "404 Not Found" eq_refl).
  - exact (proj2 (proj2 (job_log_url_mode noDownload restClient "owner" "repo" 2
                           EmptyString)) "https://github.com/logs/job/2" eq_refl).
Defined.

Lemma job2_log_downloaded :
  outcome (downloadLogContent logServer "https://github.com/logs/job/2")
  = Return "step 1 failed".
Proof. vm_compute. reflexivity. Qed.

Lemma job_log_content_mode_witness :
  getJobLogData logServer restClient "owner" "repo" 3 "test-job-3" true
  = ([GetWorkflowJobLogs "owner" "repo" 3],
     Error "failed to get job logs for job 3: 404 Not Found")
  ∧ trace (getJobLogData logServer restClient "owner" "repo" 2 "test-job-2" true)
    = [GetWorkflowJobLogs "owner" "repo" 2; HttpGet "https://github.com/logs/job/2"]
  ∧ ∃ result : gmap string JSON,
      outcome (getJobLogData logServer restClient "owner" "repo" 2 "test-job-2" true)
      = Return result
      ∧ result !! "job_id" = Some (JInt 2)
      ∧ result !! "logs_content" = Some (JString "step 1 failed")
      ∧ result !! "logs_url" = None.
Proof.
  split_and!.
  - exact (proj1 (job_log_content_mode logServer restClient "owner" "repo" 3
                    "test-job-3") "404 Not Found" eq_refl).
  - exact (proj1 (proj2 (job_log_content_mode logServer restClient "owner" "repo" 2
                           "test-job-2") "https://github.com/logs/job/2" eq_refl)).
  - exact (proj2 (proj2 (proj2 (job_log_content_mode logServer restClient "owner" "repo"
                                  2 "test-job-2") "https://github.com/logs/job/2"
                           eq_refl))
             "step 1 failed" job2_log_downloaded).
Defined.

Lemma download_log_content_witness :
  outcome (downloadLogContent noDownload "https://github.com/logs/job/2")
  = Error "failed to download logs: connection refused"
  ∧ outcome (downloadLogContent logServer "https://github.com/logs/job/9")
    = Error "failed to download logs: HTTP 503"
  ∧ outcome (downloadLogContent logServer "https://github.com/logs/job/2")
    = Return "step 1 failed".
Proof.
  split_and!.
  - exact (proj1 (proj2 (download_log_content noDownload "https://github.com/logs/job/2"))
             "connection refused" eq_refl).
  - refine (proj1 (proj2 (proj2 (download_log_content logServer
                                   "https://github.com/logs/job/9")))
              (respond 503 "text/plain" "unavailable") eq_refl _).
    discriminate.
  - exact (proj1 (proj2 (proj2 (proj2 (download_log_content logServer
                                         "https://github.com/logs/job/2"))))
             (respond 200 "text/plain" "  step 1 failed
") "  step 1 failed
" eq_refl eq_refl eq_refl).
Defined.

Lemma job3_fetch_fails :
  outcome (getJobLogData noDownload restClient "owner" "repo" 3 EmptyString false)
  = Error "failed to get job logs for job 3: 404 Not Found".
Proof. vm_compute. reflexivity. Qed.

Lemma single_job_logs_witness :
  trace (handleSingleJobLogs noDownload restClient "owner" "repo" 3 false)
  = [GetWorkflowJobLogs "owner" "repo" 3]
  ∧ outcome (handleSingleJobLogs noDownload restClient "owner" "repo" 3 false)
    = Return (NewToolResultError "failed to get job logs for job 3: 404 Not Found").
Proof.
  split.
  - exact (proj1 (single_job_logs noDownload restClient "owner" "repo" 3 false)).
  - exact (proj1 (proj2 (single_job_logs noDownload restClient "owner" "repo" 3 false))
             _ job3_fetch_fails).
Defined.

Lemma get_job_logs_mode_witness :
  GetJobLogs noDownload (inr restClient) failedJobsRequest
  = handleFailedJobLogs noDownload restClient "owner" "repo" 456 false
  ∧ GetJobLogs noDownload (inr restClient) singleJobRequest
    = handleSingleJobLogs noDownload restClient "owner" "repo" 2 false.
Proof.
  split.
  - apply (proj1 (get_job_logs_mode noDownload (inr restClient) failedJobsRequest
                    "owner" "repo" 0 456 true false restClient
                    ltac:(repeat split))); reflexivity.
  - apply (proj2 (get_job_logs_mode noDownload (inr restClient) singleJobRequest
                    "owner" "repo" 2 456 false false restClient
                    ltac:(repeat split))); reflexivity.
Defined.

Lemma get_job_logs_negative_ids_witness :
  GetJobLogs noDownload (inr restClient) negativeRunRequest
  = handleSingleJobLogs noDownload restClient "owner" "repo" 2 false
  ∧ GetJobLogs noDownload (inr restClient) negativeJobRequest
    = ([], Return (NewToolResultError "Either job_id must be provided for single job logs, or run_id with failed_only=true for failed job logs")).
Proof.
  split.
  - apply (proj1 (get_job_logs_negative_ids noDownload (inr restClient)
                    negativeRunRequest "owner" "repo" 2 (-1) true false restClient
                    ltac:(repeat split))); reflexivity.
  - apply (proj2 (proj2 (get_job_logs_negative_ids noDownload (inr restClient)
                           negativeJobRequest "owner" "repo" (-5) 0 false false
                           restClient ltac:(repeat split)))); reflexivity.
Defined.

Lemma get_job_logs_parameter_errors_witness :
  GetJobLogs noDownload (inl "no token") ownerNumberRequest
  = ([], Return (NewToolResultError "parameter owner is not of type string"))
  ∧ GetJobLogs noDownload (inl "no token") (toolRequest [("owner", AString "owner")])
    = ([], Return (NewToolResultError "missing required parameter: repo")).
Proof.
  split.
  - exact (proj1 (get_job_logs_parameter_errors noDownload (inl "no token")
                    ownerNumberRequest) _ eq_refl).
  - exact (proj1 (proj2 (get_job_logs_parameter_errors noDownload (inl "no token")
                           (toolRequest [("owner", AString "owner")])))
             "owner" _ eq_refl eq_refl).
Defined.

Lemma failed_job_logs_nothing_to_fetch_witness :
  handleFailedJobLogs noDownload restClient "owner" "repo" 999 false
  = ([ListWorkflowJobs "owner" "repo" 999 "latest"],
     Return (NewToolResultError "failed to list workflow jobs: 404 Not Found")).
Proof.
  exact (proj1 (failed_job_logs_nothing_to_fetch noDownload restClient "owner" "repo"
                  999 false) "404 Not Found" eq_refl).
Defined.

Lemma failed_job_logs_requests_witness :
  trace (handleFailedJobLogs noDownload restClient "owner" "repo" 456 false)
  = [ListWorkflowJobs "owner" "repo" 456 "latest";
     GetWorkflowJobLogs "owner" "repo" 2;
     GetWorkflowJobLogs "owner" "repo" 3].
Proof.
  exact (proj2 (failed_job_logs_requests noDownload restClient "owner" "repo" 456 false
                  {| TotalCount := Some 3;
                     JobList := [ job 1 "test-job-1" "success";
                                  job 2 "test-job-2" "failure";
                                  job 3 "test-job-3" "failure" ] |} eq_refl)).
Defined.


Lemma create_issue_after_repository_lookup_witness :
  (CreateProjectIssue string id NewToolResultText decodeIssue (inr gqlClient)
     issueRequest).1
  = [QueryCall RepositoryQuery
       (<["name" := GString "hello"]> {[ "owner" := GString "octocat" ]});
     MutateCall (CreateIssueInput "R_kgDOrepo" "Crash on start" None)]
  ∧ CreateProjectIssue string id NewToolResultText decodeIssue (inr gqlDown) issueRequest
    = ([QueryCall RepositoryQuery
          (<["name" := GString "hello"]> {[ "owner" := GString "octocat" ]})],
       Return (NewToolResultError "502 Bad Gateway")).
Proof.
  split.
  - exact (proj2 (create_issue_after_repository_lookup string id NewToolResultText
                    decodeIssue gqlClient issueRequest
                    {| Owner := "octocat"; Repo := "hello"; Title := "Crash on start";
                       Body := EmptyString |} eq_refl) "R_kgDOrepo" eq_refl).
  - exact (proj1 (create_issue_after_repository_lookup string id NewToolResultText
                    decodeIssue gqlDown issueRequest
                    {| Owner := "octocat"; Repo := "hello"; Title := "Crash on start";
                       Body := EmptyString |} eq_refl) "502 Bad Gateway" eq_refl).
Defined.

Lemma empty_text_is_not_sent_witness :
  (CreateDraftIssue string NewToolResultText (inr gqlClient) draftRequest).1
  = [MutateCall (AddProjectV2DraftIssueInput "PVT_kwDOproject" "Idea" None)]
  ∧ (UpdateProjectItemField string NewToolResultText (inr gqlClient) fieldRequest).1
    = [MutateCall (UpdateProjectV2ItemFieldValueInput "PVT_kwDOproject" "PVTI_item"
                     "PVTF_field" {| FieldText := None |})].
Proof.
  split.
  - exact (proj1 (empty_text_is_not_sent string NewToolResultText gqlClient draftRequest
                    "PVT_kwDOproject" eq_refl) "Idea" EmptyString eq_refl eq_refl).
  - exact (proj2 (empty_text_is_not_sent string NewToolResultText gqlClient fieldRequest
                    "PVT_kwDOproject" eq_refl)
             "PVTI_item" "PVTF_field" EmptyString eq_refl eq_refl eq_refl).
Defined.

End scenarios_checked.
